(** * genfiles.py: test-data generator, embedded and verified

    The Python program is embedded shallowly.  Everything the program asks of
    its surroundings (random numbers, the file system, the console, the
    command line) goes through a [World]: the answers the surroundings will
    give are oracles stored in it, and what the program did is appended to
    its [trace].

    Python values are modelled as follows.
    - [int] is [Z]; [bytes] is [list byte]; [str] is [string], each character
      being a code point below 256.
    - the statistics dictionaries are [gmap string Z]; reading a missing key
      raises [KeyError].
    - a [float] obtained by true division is kept as the exact rational it
      approximates; the rounding of [{x:.2f}] is left to the console, the
      fragment [Fixed2 q] standing for the rendering of [q].  The rationals
      have no largest member, the floats have: Python raises OverflowError
      where an integer or a quotient is beyond their range, the embedding
      does not.  No file can have such a size; where counters are arbitrary,
      the theorems take them within the range ([fits_float]).
    - exceptions are values of [Exn]; a computation is a function from the
      world to a result or an exception, and the world after it.

    The surroundings are modelled as follows.
    - [random] and [os.urandom] consume the raw draws of [entropy], one per
      value: [random.randint(a, b)] is [a] plus the draw modulo the number
      of values in [a..b], [random.choice(seq)] is the element at the draw
      modulo the length, a byte of [os.urandom] is the draw modulo 256.
      The theorems hold for every sequence of draws.
    - opening a file for writing and writing it succeeds or raises IOError
      as [io_faults] says for that attempt and path; [os.makedirs] succeeds
      or raises OSError as [mkdir_faults] says for that path; the event
      [Makedirs path] records the call that succeeded, with the path it was
      given: the directories it had to make, the one named and those above
      it that were missing, are not told apart.  [print] always succeeds.
    - paths are joined as [posixpath.join] joins them.
    - the world counts the divisions carried out, which the program itself
      cannot observe. *)

From Stdlib Require Import ZArith QArith List String Ascii Lia.
From Stdlib.Strings Require Import Byte.
From Stdlib Require Import DecimalString DecimalN.
From stdpp Require Import base gmap strings list.

Open Scope string_scope.
Open Scope Z_scope.
Open Scope list_scope.

(** ** Exceptions, console fragments and events *)

Inductive Exn : Type :=
| ValueError (msg : string)
| IndexError (msg : string)
| KeyError (key : string)
| OSError (cause : string)      (* IOError is the same class in Python 3 *)
| ZeroDivisionError
| SystemExit (code : Z).

(** [except Exception] does not catch [SystemExit]. *)
Definition is_Exception (e : Exn) : bool :=
  match e with SystemExit _ => false | _ => true end.

(** [str(e)] *)
Definition exn_str (e : Exn) : string :=
  match e with
  | ValueError m => m
  | IndexError m => m
  | KeyError k => "'" +:+ k +:+ "'"
  | OSError c => c
  | ZeroDivisionError => "division by zero"
  | SystemExit _ => ""
  end.

Inductive Frag : Type :=
| Txt (s : string)
| Num (z : Z)
| Fixed2 (q : Q).      (* a float printed with two decimals *)

Inductive Event : Type :=
| Makedirs (path : string)
| Wrote (path : string) (data : list byte)
| WriteFailed (path : string) (cause : string)
| Stdout (line : list Frag)
| Stderr (line : list Frag).

(** ** The world *)

Record World : Type := mkWorld {
  entropy : nat -> nat;      (* raw values the random sources will deliver *)
  drawn : nat;               (* how many of them were consumed *)
  io_faults : nat -> string -> option string;
                             (* answer to the k-th opening of a file for
                                writing: [Some cause] is an IOError *)
  opened : nat;              (* how many files were opened so far *)
  mkdir_faults : string -> option string;
                             (* [Some cause]: this directory cannot be made *)
  argv : list string;        (* sys.argv[1:] *)
  trace : list Event;        (* what happened, oldest first *)
  divisions : nat            (* how many divisions were carried out *)
}.

Definition emit (e : Event) (w : World) : World :=
  mkWorld (entropy w) (drawn w) (io_faults w) (opened w) (mkdir_faults w)
          (argv w) (trace w ++ [e]) (divisions w).

(** ** A state and exception monad for Python code *)

Definition Py (A : Type) : Type := World -> (Exn + A) * World.

Definition ret {A} (a : A) : Py A := fun w => (inr a, w).

Definition raise {A} (e : Exn) : Py A := fun w => (inl e, w).

Definition bind {A B} (m : Py A) (k : A -> Py B) : Py B :=
  fun w => match m w with
           | (inr a, w') => k a w'
           | (inl e, w') => (inl e, w')
           end.

(** [try: body except <class>: handler]; [catches] selects the class. *)
Definition try_except {A} (body : Py A) (catches : Exn -> bool)
    (handler : Exn -> Py A) : Py A :=
  fun w => match body w with
           | (inr a, w') => (inr a, w')
           | (inl e, w') => if catches e then handler e w' else (inl e, w')
           end.

Declare Scope py_scope.
Delimit Scope py_scope with py.
Notation "x <- m ;; k" := (bind m (fun x => k))
  (at level 100, m at next level, right associativity) : py_scope.
Notation "m ;;; k" := (bind m (fun _ => k))
  (at level 100, right associativity) : py_scope.
Open Scope py_scope.

(** [for x in xs: acc = body(x, acc)], the loop variable and the values the
    body updates being threaded through. *)
Fixpoint for_each {A S} (xs : list A) (body : A -> S -> Py S) (acc : S) : Py S :=
  match xs with
  | [] => ret acc
  | x :: xs' => acc' <- body x acc ;; for_each xs' body acc'
  end.

(** [range(a, b)] *)
Definition py_range (a b : Z) : list Z :=
  map (fun k => a + Z.of_nat k) (seq 0 (Z.to_nat (b - a))).

(** ** Library primitives *)

Definition print (line : list Frag) : Py unit :=
  fun w => (inr tt, emit (Stdout line) w).

Definition draw : Py nat :=
  fun w => (inr (entropy w (drawn w)),
            mkWorld (entropy w) (S (drawn w)) (io_faults w) (opened w)
                    (mkdir_faults w) (argv w) (trace w) (divisions w)).

(** [random.randint(a, b)]: a value of [a..b], both ends included; an empty
    range is a [ValueError], whose text differs between versions of Python. *)
Definition random_randint (a b : Z) : Py Z :=
  if b <? a then raise (ValueError "empty range for randrange()")
  else r <- draw ;; ret (a + Z.of_nat r mod (b - a + 1)).

(** [random.choice(seq)] *)
Definition random_choice {A} (seq : list A) : Py A :=
  match seq with
  | [] => raise (IndexError "Cannot choose from an empty sequence")
  | x :: _ => r <- draw ;; ret (nth (r mod length seq)%nat seq x)
  end.

Definition byte_of_draw (r : nat) : byte := byte_of_ascii (ascii_of_nat r).

Fixpoint draw_bytes (n : nat) : Py (list byte) :=
  match n with
  | O => ret []
  | S n' => r <- draw ;; rest <- draw_bytes n' ;; ret (byte_of_draw r :: rest)
  end.

(** [os.urandom(size)] *)
Definition os_urandom (size : Z) : Py (list byte) :=
  if size <? 0 then raise (ValueError "negative argument not allowed")
  else draw_bytes (Z.to_nat size).

(** [os.makedirs(path, exist_ok=True)]: the event records the path of the
    call, not the directories above it that the call may have made. *)
Definition os_makedirs (path : string) : Py unit :=
  fun w => match mkdir_faults w path with
           | Some cause => (inl (OSError cause), w)
           | None => (inr tt, emit (Makedirs path) w)
           end.

(** [with open(path, "wb") as f: f.write(data)] *)
Definition open_write (path : string) (data : list byte) : Py unit :=
  fun w =>
    let w' := mkWorld (entropy w) (drawn w) (io_faults w) (S (opened w))
                      (mkdir_faults w) (argv w) (trace w) (divisions w) in
    match io_faults w (opened w) path with
    | Some cause => (inl (OSError cause), emit (WriteFailed path cause) w')
    | None => (inr tt, emit (Wrote path data) w')
    end.

Definition is_IOError (e : Exn) : bool :=
  match e with OSError _ => true | _ => false end.

(** A division was carried out: the world keeps count. *)
Definition divided (w : World) : World :=
  mkWorld (entropy w) (drawn w) (io_faults w) (opened w) (mkdir_faults w)
          (argv w) (trace w) (S (divisions w)).

(** [a / b] on integers, as an exact rational; the OverflowError of a
    quotient beyond the range of the floats is left out, see [fits_float]. *)
Definition truediv (a b : Z) : Py Q :=
  if b =? 0 then raise ZeroDivisionError
  else fun w => (inr (inject_Z a / inject_Z b)%Q, divided w).

(** [x / b] for a float [x] and an integer [b], as an exact rational; the
    OverflowError of a [b] beyond the range of the floats is left out. *)
Definition truediv_float (x : Q) (b : Z) : Py Q :=
  if b =? 0 then raise ZeroDivisionError
  else fun w => (inr (x / inject_Z b)%Q, divided w).

(** [d[k]] and [d[k] += v] on a dictionary of integers *)
Definition dict_get (d : gmap string Z) (k : string) : Py Z :=
  match d !! k with
  | Some v => ret v
  | None => raise (KeyError k)
  end.

Definition dict_iadd (d : gmap string Z) (k : string) (v : Z) : Py (gmap string Z) :=
  x <- dict_get d k ;; ret (<[k := x + v]> d).

(** [posixpath.join(a, b)] *)
Definition ends_with_sep (s : string) : bool :=
  match rev (list_ascii_of_string s) with
  | c :: _ => Ascii.eqb c "/"%char
  | [] => false
  end.

Definition os_path_join (a b : string) : string :=
  match b with
  | String "/"%char _ => b
  | _ => if (String.eqb a "" || ends_with_sep a)%bool then a +:+ b
         else a +:+ "/" +:+ b
  end.

(** [f"{i:03d}"]: decimal, zero-padded to width 3, the sign counting. *)
Definition zero_pad (width : nat) (d : Decimal.uint) : Decimal.uint :=
  Nat.iter (width - Decimal.nb_digits d) Decimal.D0 d.

Definition fmt_03d (i : Z) : string :=
  if i <? 0
  then "-" +:+ NilEmpty.string_of_uint (zero_pad 2 (N.to_uint (Z.abs_N i)))
  else NilEmpty.string_of_uint (zero_pad 3 (N.to_uint (Z.abs_N i))).

(** [s.encode('utf-8')] for code points below 256 *)
Definition utf8_char (c : ascii) : list byte :=
  let n := N_of_ascii c in
  if (n <? 128)%N then [byte_of_ascii c]
  else [byte_of_ascii (ascii_of_N (N.lor 192 (N.shiftr n 6)));
        byte_of_ascii (ascii_of_N (N.lor 128 (N.land n 63)))].

Definition encode_utf8 (s : string) : list byte :=
  flat_map utf8_char (list_ascii_of_string s).

(** ** genfiles.py *)

(** [string.ascii_letters], [string.digits] *)
Definition ascii_letters : string :=
  "abcdefghijklmnopqrstuvwxyzABCDEFGHIJKLMNOPQRSTUVWXYZ".
Definition digits : string := "0123456789".

(** [' \n\t'] *)
Definition blanks : string :=
  String " "%char (String (ascii_of_nat 10) (String (ascii_of_nat 9) EmptyString)).

(** line 25 *)
Definition characters : string := ascii_letters +:+ digits +:+ blanks.

(** the generator expression of line 26, run by [''.join] *)
Fixpoint join_choices (n : nat) (chars : list ascii) : Py string :=
  match n with
  | O => ret ""
  | S n' => c <- random_choice chars ;;
            rest <- join_choices n' chars ;;
            ret (String c rest)
  end.

(** lines 18-27 *)
Definition generate_random_data (size_bytes : Z) (is_binary : bool) : Py (list byte) :=
  if is_binary then os_urandom size_bytes
  else
    random_text <- join_choices (length (py_range 0 size_bytes))
                                (list_ascii_of_string characters) ;;
    ret (encode_utf8 random_text).

(** the newline character and [s * n] on strings *)
Definition nl : string := String (ascii_of_nat 10) EmptyString.

Fixpoint str_mul (s : string) (n : nat) : string :=
  match n with
  | O => ""
  | S n' => s +:+ str_mul s n'
  end.

(** lines 37-40 *)
Definition simple_stats_init : gmap string Z :=
  <["total_files" := 0]> (<["total_size_bytes" := 0]> ∅).

(** lines 43-61: the body of the loop of [create_files_simple] *)
Definition simple_file_step (root_dir : string) (file_size_bytes : Z)
    (i : Z) (stats : gmap string Z) : Py (gmap string Z) :=
  let file_name := "fixed_file_" +:+ fmt_03d i +:+ ".bin" in
  let file_path := os_path_join root_dir file_name in
  data <- generate_random_data file_size_bytes true ;;
  try_except
    (open_write file_path data ;;;
     size_mb <- truediv file_size_bytes (1024 * 1024) ;;
     print [Txt "  Created file: "; Txt file_name; Txt " (binary, ";
            Fixed2 size_mb; Txt " MB)"] ;;;
     stats <- dict_iadd stats "total_files" 1 ;;
     stats <- dict_iadd stats "total_size_bytes" file_size_bytes ;;
     ret stats)
    is_IOError
    (fun e =>
       print [Txt "  Error writing file "; Txt file_name; Txt ": ";
              Txt (exn_str e)] ;;;
       ret stats).

(** lines 29-63 *)
Definition create_files_simple (root_dir : string) (num_files size_kb : Z)
    : Py (gmap string Z) :=
  let file_size_bytes := size_kb * 1024 in
  print [Txt "Creating files in directory: "; Txt root_dir] ;;;
  os_makedirs root_dir ;;;
  stats <- for_each (py_range 1 (num_files + 1))
                    (simple_file_step root_dir file_size_bytes)
                    simple_stats_init ;;
  ret stats.

(** lines 87-94 *)
Definition structured_stats_init : gmap string Z :=
  <["total_files" := 0]> (<["binary_files" := 0]> (<["text_files" := 0]>
  (<["total_size_bytes" := 0]> (<["binary_size_bytes" := 0]>
  (<["text_size_bytes" := 0]> ∅))))).

(** lines 108-113 *)
Definition choose_is_binary (file_type : string) : Py bool :=
  if String.eqb file_type "bin" then ret true
  else if String.eqb file_type "txt" then ret false
  else random_choice [true; false].

(** lines 136-143 *)
Definition update_stats (stats : gmap string Z) (is_binary : bool)
    (file_size : Z) : Py (gmap string Z) :=
  stats <- dict_iadd stats "total_files" 1 ;;
  stats <- dict_iadd stats "total_size_bytes" file_size ;;
  if is_binary then
    stats <- dict_iadd stats "binary_files" 1 ;;
    stats <- dict_iadd stats "binary_size_bytes" file_size ;;
    ret stats
  else
    stats <- dict_iadd stats "text_files" 1 ;;
    stats <- dict_iadd stats "text_size_bytes" file_size ;;
    ret stats.

(** lines 107-146: the body of the inner loop *)
Definition structured_file_step (subdir_path file_type : string)
    (min_size_bytes max_size_bytes : Z) (j : Z) (stats : gmap string Z)
    : Py (gmap string Z) :=
  is_binary <- choose_is_binary file_type ;;
  file_size <- random_randint min_size_bytes max_size_bytes ;;
  let extension := if is_binary then ".bin" else ".txt" in
  let file_name := "file_" +:+ fmt_03d j +:+ extension in
  let file_path := os_path_join subdir_path file_name in
  data <- generate_random_data file_size is_binary ;;
  try_except
    (open_write file_path data ;;;
     let type_str := if is_binary then "binary" else "text" in
     size_kb <- truediv file_size 1024 ;;
     print [Txt "    Created file: "; Txt file_name; Txt " ("; Txt type_str;
            Txt ", "; Fixed2 size_kb; Txt " KB)"] ;;;
     update_stats stats is_binary file_size)
    is_IOError
    (fun e =>
       print [Txt "    Error writing file "; Txt file_name; Txt ": ";
              Txt (exn_str e)] ;;;
       ret stats).

(** lines 97-146: the body of the outer loop *)
Definition subdir_step (root_dir file_type : string) (M : Z)
    (min_size_bytes max_size_bytes : Z) (i : Z) (stats : gmap string Z)
    : Py (gmap string Z) :=
  let subdir_name := "subdir_" +:+ fmt_03d i in
  let subdir_path := os_path_join root_dir subdir_name in
  os_makedirs subdir_path ;;;
  print [Txt "  Created subdirectory: "; Txt subdir_name] ;;;
  num_files <- random_randint 1 M ;;
  for_each (py_range 1 (num_files + 1))
           (structured_file_step subdir_path file_type
                                 min_size_bytes max_size_bytes)
           stats.

(** lines 82-84 *)
Definition clamp_min_size (min_size_bytes max_size_bytes : Z) : Py Z :=
  if min_size_bytes >? max_size_bytes then
    print [Txt "Warning: Minimum size ("; Num min_size_bytes;
           Txt "B) is larger than maximum ("; Num max_size_bytes;
           Txt "B). Setting minimum to maximum."] ;;;
    ret max_size_bytes
  else ret min_size_bytes.

(** lines 66-148 *)
Definition create_structured_files (root_dir : string) (N M K : Z)
    (file_type : string) (min_size_bytes : Z) : Py (gmap string Z) :=
  let max_size_bytes := K * 1024 in
  print [Txt "Creating structured directory: "; Txt root_dir] ;;;
  os_makedirs root_dir ;;;
  min_size_bytes <- clamp_min_size min_size_bytes max_size_bytes ;;
  stats <- for_each (py_range 1 (N + 1))
                    (subdir_step root_dir file_type M
                                 min_size_bytes max_size_bytes)
                    structured_stats_init ;;
  ret stats.

(** [num / den / 1024 if den > 0 else 0], lines 160, 163, 166 *)
Definition average_kb (stats : gmap string Z) (size_key : string) (count : Z)
    : Py Q :=
  if count >? 0 then
    size <- dict_get stats size_key ;;
    q <- truediv size count ;;
    truediv_float q 1024
  else ret 0%Q.

(** [stats[key] / (1024 * 1024)] *)
Definition size_mb_of (stats : gmap string Z) (size_key : string) : Py Q :=
  size <- dict_get stats size_key ;;
  truediv size (1024 * 1024).

(** lines 151-186 *)
Definition print_structured_statistics (stats : gmap string Z) : Py unit :=
  total_files <- dict_get stats "total_files" ;;
  if total_files =? 0 then
    print [Txt (nl +:+ "No files were generated.")]
  else
    avg_total_size <- average_kb stats "total_size_bytes" total_files ;;
    binary_files <- dict_get stats "binary_files" ;;
    avg_binary_size <- average_kb stats "binary_size_bytes" binary_files ;;
    text_files <- dict_get stats "text_files" ;;
    avg_text_size <- average_kb stats "text_size_bytes" text_files ;;
    total_size_mb <- size_mb_of stats "total_size_bytes" ;;
    binary_size_mb <- size_mb_of stats "binary_size_bytes" ;;
    text_size_mb <- size_mb_of stats "text_size_bytes" ;;
    print [Txt (nl +:+ "--- Structured Generation Statistics ---")] ;;;
    print [Txt "Total files generated: "; Num total_files] ;;;
    print [Txt "Total size: "; Fixed2 total_size_mb; Txt " MB"] ;;;
    print [Txt (str_mul "-" 30)] ;;;
    print [Txt "Binary files: "; Num binary_files] ;;;
    print [Txt "  Total size (Binary): "; Fixed2 binary_size_mb; Txt " MB"] ;;;
    print [Txt "  Average size (Binary): "; Fixed2 avg_binary_size; Txt " KB"] ;;;
    print [Txt (str_mul "-" 30)] ;;;
    print [Txt "Text files: "; Num text_files] ;;;
    print [Txt "  Total size (Text): "; Fixed2 text_size_mb; Txt " MB"] ;;;
    print [Txt "  Average size (Text): "; Fixed2 avg_text_size; Txt " KB"] ;;;
    print [Txt (str_mul "-" 30)].

(** lines 189-200 *)
Definition print_simple_statistics (stats : gmap string Z) : Py unit :=
  total_files <- dict_get stats "total_files" ;;
  total_size_mb <- size_mb_of stats "total_size_bytes" ;;
  avg_size_mb <- (if total_files >? 0 then truediv_float total_size_mb total_files
                  else ret 0%Q) ;;
  print [Txt (nl +:+ "--- Simple File Creation Statistics ---")] ;;;
  print [Txt "Total files created: "; Num total_files] ;;;
  print [Txt "File type: Binary (Fixed Size)"] ;;;
  print [Txt "Total size: "; Fixed2 total_size_mb; Txt " MB"] ;;;
  print [Txt "Average file size: "; Fixed2 avg_size_mb; Txt " MB"] ;;;
  print [Txt (str_mul "-" 30)].

(** ** The command line *)

(** What [parser.parse_args] hands to [main], lines 205-285.  [file_type] is
    [None] unless one of --bin, --txt, --mix is given. *)
Record Namespace : Type := mkNamespace {
  directory : string;
  file_create : option (Z * Z);
  n : option Z;
  max_files : option Z;
  max_size_kb : option Z;
  file_type : option string;
  stat : bool
}.

(** argparse either leaves with a message and an exit code (2 for a usage
    error) or delivers a namespace.  The message of a usage error goes to
    stderr; that the help of [-h], which leaves with the code 0, goes to
    stdout is not told apart. *)
Inductive Parsed : Type :=
| ParseExit (msg : list Frag) (code : Z)
| ParseOk (ns : Namespace).

(** [parser.error(msg)]: the message goes to stderr, the exit code is 2. *)
Definition parser_error {A} (msg : string) : Py A :=
  fun w => (inl (SystemExit 2), emit (Stderr [Txt msg]) w).

(** [if cond: parser.error(msg)] *)
Definition error_if (cond : bool) (msg : string) : Py unit :=
  if cond then parser_error msg else ret tt.

(** [x if x else 'mix'], line 329 *)
Definition file_type_or_mix (ft : option string) : string :=
  match ft with
  | None => "mix"
  | Some "" => "mix"
  | Some s => s
  end.

(** [args] if it is given and not empty, the command line otherwise. *)
Definition effective_args (args : option (list string)) (w : World) : list string :=
  match args with
  | Some (a :: rest) => a :: rest
  | _ => argv w
  end.

Section Main.

(** argparse itself is not part of the program. *)
Variable parse_args : list string -> Parsed.

(** lines 282-285 *)
Definition run_parser (args : option (list string)) : Py Namespace :=
  fun w =>
    match parse_args (effective_args args w) with
    | ParseExit msg code => (inl (SystemExit code), emit (Stderr msg) w)
    | ParseOk ns => (inr ns, w)
    end.

(** lines 298-308 *)
Definition run_simple_mode (parsed_args : Namespace) (N_files M_size_kb : Z)
    : Py unit :=
  try_except
    (stats <- create_files_simple (directory parsed_args) N_files M_size_kb ;;
     print [Txt (nl +:+ "Finished successfully. Created files in directory: ");
            Txt (directory parsed_args)] ;;;
     if stat parsed_args then print_simple_statistics stats else ret tt)
    is_Exception
    (fun e => print [Txt (nl +:+ "An error occurred during simple file creation: ");
                     Txt (exn_str e)]).

(** lines 323-336 *)
Definition run_structured_mode (parsed_args : Namespace) (N M K : Z) : Py unit :=
  try_except
    (stats <- create_structured_files (directory parsed_args) N M K
                (file_type_or_mix (file_type parsed_args)) 100 ;;
     print [Txt (nl +:+ "Finished successfully. Structure created in directory: ");
            Txt (directory parsed_args)] ;;;
     if stat parsed_args then print_structured_statistics stats else ret tt)
    is_Exception
    (fun e => print [Txt (nl +:+ "An error occurred during structured file generation: ");
                     Txt (exn_str e)]).

(** lines 203-336 *)
Definition main (args : option (list string)) : Py unit :=
  parsed_args <- run_parser args ;;
  match file_create parsed_args with
  | Some (N_files, M_size_kb) =>
      error_if ((N_files <=? 0) || (M_size_kb <=? 0))
        "For --file-create, both N (file count) and M (size in KB) must be integers greater than 0." ;;;
      run_simple_mode parsed_args N_files M_size_kb
  | None =>
      match n parsed_args, max_files parsed_args, max_size_kb parsed_args with
      | Some vn, Some vm, Some vk =>
          error_if (vn <=? 0) "-n must be an integer greater than 0." ;;;
          error_if (vm <=? 0) "-m/--max-files must be an integer greater than 0." ;;;
          error_if (vk <=? 0) "-k/--max-size-kb must be an integer greater than 0." ;;;
          run_structured_mode parsed_args vn vm vk
      | _, _, _ =>
          parser_error
            "When --file-create is not used, -n, -m, and -k are required for structured generation."
      end
  end.

End Main.

(** ** Observations on worlds and traces *)

(** The surroundings answer the same way before and after. *)
Definition same_env (w w' : World) : Prop :=
  entropy w' = entropy w /\ io_faults w' = io_faults w /\
  mkdir_faults w' = mkdir_faults w /\ argv w' = argv w.

(** [w'] is [w] after some draws and file openings, [new] having happened. *)
Definition evolves (w w' : World) (new : list Event) : Prop :=
  same_env w w' /\ trace w' = trace w ++ new /\
  (drawn w <= drawn w')%nat /\ (opened w <= opened w')%nat.

Definition dirs_made (evs : list Event) : list string :=
  flat_map (fun e => match e with Makedirs p => [p] | _ => [] end) evs.

Definition files_written (evs : list Event) : list (string * list byte) :=
  flat_map (fun e => match e with Wrote p d => [(p, d)] | _ => [] end) evs.

Definition write_failures (evs : list Event) : list (string * string) :=
  flat_map (fun e => match e with WriteFailed p c => [(p, c)] | _ => [] end) evs.

Definition printed (evs : list Event) : list (list Frag) :=
  flat_map (fun e => match e with Stdout l => [l] | _ => [] end) evs.

(** An event that creates or changes something on the file system, or tries to. *)
Definition touches_fs (e : Event) : bool :=
  match e with
  | Makedirs _ | Wrote _ _ | WriteFailed _ _ => true
  | Stdout _ | Stderr _ => false
  end.

(** The size in bytes of a written file. *)
Definition size_of (f : string * list byte) : Z := Z.of_nat (length (snd f)).

Definition total_bytes (fs : list (string * list byte)) : Z :=
  fold_right (fun f acc => size_of f + acc) 0 fs.

(** The directories of a trace in the order of their creation, each with the
    number of files the program tried to write before the next directory was
    made; the first component counts the attempts before any directory. *)
Fixpoint attempts_per_dir (evs : list Event) : nat * list (string * nat) :=
  match evs with
  | [] => (O, [])
  | Makedirs p :: rest =>
      let (k, gs) := attempts_per_dir rest in (O, (p, k) :: gs)
  | Wrote _ _ :: rest | WriteFailed _ _ :: rest =>
      let (k, gs) := attempts_per_dir rest in (S k, gs)
  | _ :: rest => attempts_per_dir rest
  end.

(** Every failed write is followed at once by a console line that ends with
    the name of the file and the cause, the file lying under that name. *)
Inductive failures_reported : list Event -> Prop :=
| fr_nil : failures_reported []
| fr_failed dir name cause lead rest :
    failures_reported rest ->
    failures_reported
      (WriteFailed (os_path_join dir name) cause
         :: Stdout [Txt lead; Txt name; Txt ": "; Txt cause] :: rest)
| fr_other e rest :
    (forall p c, e <> WriteFailed p c) ->
    failures_reported rest ->
    failures_reported (e :: rest).

(** What became of one file of a run. *)
Inductive Outcome : Type :=
| Written (name path : string) (is_binary : bool) (data : list byte)
| Failed (name path cause : string).

Definition n_written (binary text : bool) (outs : list Outcome) : Z :=
  fold_right (fun o acc =>
    match o with
    | Written _ _ b _ => if (if b then binary else text) then 1 + acc else acc
    | Failed _ _ _ => acc
    end) 0 outs.

Definition bytes_written (binary text : bool) (outs : list Outcome) : Z :=
  fold_right (fun o acc =>
    match o with
    | Written _ _ b d =>
        if (if b then binary else text) then Z.of_nat (length d) + acc else acc
    | Failed _ _ _ => acc
    end) 0 outs.

(** The events of a file of the flat mode and of the structured mode. *)
Definition simple_events (o : Outcome) : list Event :=
  match o with
  | Written name path _ data =>
      [Wrote path data;
       Stdout [Txt "  Created file: "; Txt name; Txt " (binary, ";
               Fixed2 (inject_Z (Z.of_nat (length data)) / inject_Z (1024 * 1024))%Q;
               Txt " MB)"]]
  | Failed name path cause =>
      [WriteFailed path cause;
       Stdout [Txt "  Error writing file "; Txt name; Txt ": "; Txt cause]]
  end.

Definition structured_events (o : Outcome) : list Event :=
  match o with
  | Written name path b data =>
      [Wrote path data;
       Stdout [Txt "    Created file: "; Txt name; Txt " (";
               Txt (if b then "binary" else "text"); Txt ", ";
               Fixed2 (inject_Z (Z.of_nat (length data)) / inject_Z 1024)%Q;
               Txt " KB)"]]
  | Failed name path cause =>
      [WriteFailed path cause;
       Stdout [Txt "    Error writing file "; Txt name; Txt ": "; Txt cause]]
  end.

(** The dictionaries of the two modes with given counters. *)
Definition simple_stats (tf ts : Z) : gmap string Z :=
  <["total_files" := tf]> (<["total_size_bytes" := ts]> ∅).

Definition structured_stats (tf bf xf ts bs xs : Z) : gmap string Z :=
  <["total_files" := tf]> (<["binary_files" := bf]> (<["text_files" := xf]>
  (<["total_size_bytes" := ts]> (<["binary_size_bytes" := bs]>
  (<["text_size_bytes" := xs]> ∅))))).



(** The alphabet of the text mode, as bytes. *)
Definition alphabet : list byte := encode_utf8 characters.

(** The text a run of [join_choices] yields from the draws it is given. *)
Definition chosen_text (w : World) (n : nat) : list ascii :=
  map (fun k => nth (entropy w (drawn w + k) mod 65)%nat
                    (list_ascii_of_string characters) "a"%char)
      (seq 0 n).

(** A world for examples: draws 0, 1, 2, ..., no fault. *)
Definition calm_world : World :=
  mkWorld (fun k => k) 0 (fun _ _ => None) 0 (fun _ => None) [] [] 0.

(** A world in which every second file cannot be written. *)
Definition rough_world : World :=
  mkWorld (fun k => k) 0
          (fun k _ => if Nat.even k then None else Some "No space left on device")
          0 (fun _ => None) [] [] 0.

(** [w] after [k] more draws. *)
Definition advance (k : nat) (w : World) : World :=
  mkWorld (entropy w) (k + drawn w) (io_faults w) (opened w) (mkdir_faults w)
          (argv w) (trace w) (divisions w).

(** The byte codes of A-Z, a-z, 0-9, space, newline and tab. *)
Definition is_alphabet_byte (b : byte) : bool :=
  let c := Byte.to_N b in
  ((65 <=? c) && (c <=? 90) || (97 <=? c) && (c <=? 122) ||
   (48 <=? c) && (c <=? 57) || (c =? 32) || (c =? 10) || (c =? 9))%N%bool.

(** A world whose every draw is [r]. *)
Definition constant_world (r : nat) : World :=
  mkWorld (fun _ => r) 0 (fun _ _ => None) 0 (fun _ => None) [] [] 0.

(** [w] after one more file was opened. *)
Definition opening (w : World) : World :=
  mkWorld (entropy w) (drawn w) (io_faults w) (S (opened w)) (mkdir_faults w)
          (argv w) (trace w) (divisions w).

(** The files among the outcomes that were written, with their contents. *)
Definition written_files (outs : list Outcome) : list (string * list byte) :=
  flat_map (fun o => match o with
                     | Written _ p _ d => [(p, d)]
                     | Failed _ _ _ => []
                     end) outs.

(** The name and the path of the file of an outcome. *)
Definition outcome_name (o : Outcome) : string :=
  match o with Written name _ _ _ | Failed name _ _ => name end.

Definition outcome_path (o : Outcome) : string :=
  match o with Written _ path _ _ | Failed _ path _ => path end.

(** What the flat mode makes of its [i]-th file: the name and the place are
    fixed, a written file is binary and has the requested size, a failed one
    met a fault of the surroundings. *)
Definition simple_outcome_ok (root_dir : string) (file_size_bytes : Z)
    (faults : nat -> string -> option string) (i : Z) (o : Outcome) : Prop :=
  outcome_name o = "fixed_file_" +:+ fmt_03d i +:+ ".bin" /\
  outcome_path o = os_path_join root_dir (outcome_name o) /\
  match o with
  | Written _ _ b data => b = true /\ Z.of_nat (length data) = file_size_bytes
  | Failed _ path cause => exists k, faults k path = Some cause
  end.

(** The same for the [j]-th file of a subdirectory in the structured mode:
    the type follows the policy and the size lies between the bounds. *)
Definition structured_outcome_ok (subdir_path file_type : string) (lo hi : Z)
    (faults : nat -> string -> option string) (j : Z) (o : Outcome) : Prop :=
  outcome_path o = os_path_join subdir_path (outcome_name o) /\
  match o with
  | Written name _ b data =>
      name = "file_" +:+ fmt_03d j +:+ (if b then ".bin" else ".txt") /\
      (file_type = "bin" -> b = true) /\ (file_type = "txt" -> b = false) /\
      lo <= Z.of_nat (length data) <= hi
  | Failed name path cause =>
      (name = "file_" +:+ fmt_03d j +:+ ".bin" \/
       name = "file_" +:+ fmt_03d j +:+ ".txt") /\
      exists k, faults k path = Some cause
  end.

(** The path of the [i]-th subdirectory, lines 98-99. *)
Definition subdir_path (root_dir : string) (i : Z) : string :=
  os_path_join root_dir ("subdir_" +:+ fmt_03d i).

(** The events of a subdirectory with the outcomes of its files. *)
Definition subdir_events (root_dir : string) (g : Z * list Outcome) : list Event :=
  [Makedirs (subdir_path root_dir (fst g));
   Stdout [Txt "  Created subdirectory: "; Txt ("subdir_" +:+ fmt_03d (fst g))]]
  ++ flat_map structured_events (snd g).

(** What the structured mode makes of its [i]-th subdirectory: between 1 and
    [M] files, numbered from 1, each as [structured_outcome_ok] has it. *)
Definition subdir_ok (root_dir file_type : string) (M lo hi : Z)
    (faults : nat -> string -> option string) (i : Z)
    (g : Z * list Outcome) : Prop :=
  fst g = i /\
  1 <= Z.of_nat (length (snd g)) <= M /\
  Forall2 (structured_outcome_ok (subdir_path root_dir i) file_type lo hi faults)
          (py_range 1 (Z.of_nat (length (snd g)) + 1)) (snd g).

(** What the structured mode does before its first subdirectory. *)
Definition structured_prelude (root_dir : string) (min_size_bytes max_size_bytes : Z)
    : list Event :=
  [Stdout [Txt "Creating structured directory: "; Txt root_dir];
   Makedirs root_dir]
  ++ (if min_size_bytes >? max_size_bytes
      then [Stdout [Txt "Warning: Minimum size ("; Num min_size_bytes;
                    Txt "B) is larger than maximum ("; Num max_size_bytes;
                    Txt "B). Setting minimum to maximum."]]
      else []).

(** All outcomes of a run of the structured mode. *)
Definition all_outcomes (groups : list (Z * list Outcome)) : list Outcome :=
  flat_map snd groups.

(** The dictionary of the structured mode after the outcomes [outs] were
    added to the counters given. *)
Definition tally (tf bf xf ts bs xs : Z) (outs : list Outcome) : gmap string Z :=
  structured_stats (tf + n_written true true outs)
                   (bf + n_written true false outs)
                   (xf + n_written false true outs)
                   (ts + bytes_written true true outs)
                   (bs + bytes_written true false outs)
                   (xs + bytes_written false true outs).

(** Reading a decimal numeral back, the leading zeros not counting. *)
Definition read_decimal (s : string) : option N :=
  option_map N.of_uint (NilEmpty.uint_of_string s).

(** The directories of the subdirectories with the numbers of their files. *)
Definition subdir_counts (root_dir : string) (groups : list (Z * list Outcome))
    : list (string * nat) :=
  map (fun g => (subdir_path root_dir (fst g), length (snd g))) groups.

(** A world in which no file can be written. *)
Definition failing_world : World :=
  mkWorld (fun k => k) 0 (fun _ _ => Some "Permission denied") 0
          (fun _ => None) [] [] 0.

(** The arguments of the selected mode are not all given and positive: the
    two numbers of --file-create when it is given; -n, -m and -k otherwise. *)
Definition invalid_arguments (ns : Namespace) : bool :=
  match file_create ns with
  | Some (N_files, M_size_kb) => (N_files <=? 0) || (M_size_kb <=? 0)
  | None =>
      match n ns, max_files ns, max_size_kb ns with
      | Some vn, Some vm, Some vk => (vn <=? 0) || (vm <=? 0) || (vk <=? 0)
      | _, _, _ => true
      end
  end.

(** The namespace of [-d out -fc 1 1 -n 0]. *)
Definition overridden_namespace : Namespace :=
  mkNamespace "out" (Some (1, 1)) (Some 0) None None None false.

(** The namespace of [-d out -n 2 -m 0 -k 1]. *)
Definition zero_files_namespace : Namespace :=
  mkNamespace "out" None (Some 2) (Some 0) (Some 1) None false.

(** [size / count / 1024 if count > 0 else 0] as a number. *)
Definition guarded_average (size count : Z) : Q :=
  if count >? 0 then (inject_Z size / inject_Z count / inject_Z 1024)%Q else 0%Q.

(** The report of the structured mode for counters with files. *)
Definition structured_report (tf bf xf ts bs xs : Z) : list Event :=
  [Stdout [Txt (nl +:+ "--- Structured Generation Statistics ---")];
   Stdout [Txt "Total files generated: "; Num tf];
   Stdout [Txt "Total size: "; Fixed2 (inject_Z ts / inject_Z (1024 * 1024))%Q;
           Txt " MB"];
   Stdout [Txt (str_mul "-" 30)];
   Stdout [Txt "Binary files: "; Num bf];
   Stdout [Txt "  Total size (Binary): ";
           Fixed2 (inject_Z bs / inject_Z (1024 * 1024))%Q; Txt " MB"];
   Stdout [Txt "  Average size (Binary): "; Fixed2 (guarded_average bs bf);
           Txt " KB"];
   Stdout [Txt (str_mul "-" 30)];
   Stdout [Txt "Text files: "; Num xf];
   Stdout [Txt "  Total size (Text): ";
           Fixed2 (inject_Z xs / inject_Z (1024 * 1024))%Q; Txt " MB"];
   Stdout [Txt "  Average size (Text): "; Fixed2 (guarded_average xs xf);
           Txt " KB"];
   Stdout [Txt (str_mul "-" 30)]].

(** The report of the flat mode. *)
Definition simple_report (tf ts : Z) : list Event :=
  [Stdout [Txt (nl +:+ "--- Simple File Creation Statistics ---")];
   Stdout [Txt "Total files created: "; Num tf];
   Stdout [Txt "File type: Binary (Fixed Size)"];
   Stdout [Txt "Total size: "; Fixed2 (inject_Z ts / inject_Z (1024 * 1024))%Q;
           Txt " MB"];
   Stdout [Txt "Average file size: ";
           Fixed2 (if tf >? 0
                   then (inject_Z ts / inject_Z (1024 * 1024) / inject_Z tf)%Q
                   else 0%Q);
           Txt " MB"];
   Stdout [Txt (str_mul "-" 30)]].

(** ** Effects of a computation, whatever its result *)

(** From every world, [m] adds to the trace only events that satisfy [P],
    and a value it returns satisfies [Q]. *)
Definition yields {A} (P : Event -> Prop) (Q : A -> Prop) (m : Py A) : Prop :=
  forall w, exists new,
    trace (snd (m w)) = trace w ++ new /\ Forall P new /\
    (forall a, fst (m w) = inr a -> Q a).

(** The name of the [i]-th file of the flat mode, line 43. *)
Definition fixed_file_name (i : Z) : string := "fixed_file_" +:+ fmt_03d i +:+ ".bin".

(** The name of the [j]-th file of a subdirectory, lines 119-120. *)
Definition structured_file_name (j : Z) (is_binary : bool) : string :=
  "file_" +:+ fmt_03d j +:+ (if is_binary then ".bin" else ".txt").

(** What an event of the flat mode may be. *)
Definition simple_event_ok (root_dir : string) (num_files size_kb : Z)
    (e : Event) : Prop :=
  match e with
  | Makedirs p => p = root_dir
  | Wrote p d =>
      (exists i, 1 <= i <= num_files /\ p = os_path_join root_dir (fixed_file_name i)) /\
      Z.of_nat (length d) = size_kb * 1024
  | WriteFailed p _ =>
      exists i, 1 <= i <= num_files /\ p = os_path_join root_dir (fixed_file_name i)
  | Stdout _ => True
  | Stderr _ => False
  end.

(** What an event of the structured mode may be: [lo] and [hi] are the
    bounds of the sizes after the clamping. *)
Definition structured_event_ok (root_dir : string) (N M lo hi : Z)
    (file_type : string) (e : Event) : Prop :=
  match e with
  | Makedirs p => p = root_dir \/ exists i, 1 <= i <= N /\ p = subdir_path root_dir i
  | Wrote p d =>
      exists i j b size,
        1 <= i <= N /\ 1 <= j <= M /\
        p = os_path_join (subdir_path root_dir i) (structured_file_name j b) /\
        (file_type = "bin" -> b = true) /\ (file_type = "txt" -> b = false) /\
        lo <= size <= hi /\ Z.of_nat (length d) = Z.max 0 size /\
        (b = false -> Forall (fun c => In c alphabet) d)
  | WriteFailed p _ =>
      exists i j b,
        1 <= i <= N /\ 1 <= j <= M /\
        p = os_path_join (subdir_path root_dir i) (structured_file_name j b)
  | Stdout _ => True
  | Stderr _ => False
  end.

(** Console output only. *)
Definition is_stdout (e : Event) : Prop :=
  match e with Stdout _ => True | _ => False end.

(** A world in which no directory can be made. *)
Definition readonly_world : World :=
  mkWorld (fun k => k) 0 (fun _ _ => None) 0
          (fun _ => Some "Read-only file system") [] [] 0.

(** The namespaces of [-d out -fc 2 1 --stat] and of
    [-d out -n 2 -m 3 -k 1 --stat]. *)
Definition flat_namespace : Namespace :=
  mkNamespace "out" (Some (2, 1)) None None None None true.

Definition structured_namespace : Namespace :=
  mkNamespace "out" None (Some 2) (Some 3) (Some 1) None true.

(** The namespace of [-d out -fc 2 1 --stat -n 7 -m 0 -k 9 --txt]. *)
Definition flat_namespace_with_extras : Namespace :=
  mkNamespace "out" (Some (2, 1)) (Some 7) (Some 0) (Some 9) (Some "txt") true.

(** The line that ends a successful run, lines 304 and 331. *)
Definition finished_line (what : string) (ns : Namespace) : Event :=
  Stdout [Txt (nl +:+ "Finished successfully. " +:+ what +:+ " in directory: ");
          Txt (directory ns)].

(** The line [main] prints for an exception of a generator, lines 308, 336. *)
Definition error_line (what : string) (e : Exn) : Event :=
  Stdout [Txt (nl +:+ "An error occurred during " +:+ what +:+ ": ");
          Txt (exn_str e)].

(** The paths of the files a trace tried to write, in this order. *)
Definition attempted_paths (evs : list Event) : list string :=
  flat_map (fun e => match e with
                     | Wrote p _ | WriteFailed p _ => [p]
                     | _ => []
                     end) evs.

(** The files a trace has written, by their paths, a later write replacing
    an earlier one as [open(path, "wb")] does.  What a failed write leaves
    behind is not modelled. *)
Definition disk (evs : list Event) : gmap string (list byte) :=
  fold_left (fun m e => match e with
                        | Wrote p d => <[p := d]> m
                        | _ => m
                        end) evs ∅.

(** A world in which [os.urandom] and [random] deliver the given bytes. *)
Definition world_of_bytes (bs : list byte) : World :=
  mkWorld (fun k => Byte.to_nat (nth k bs x00)) 0 (fun _ _ => None) 0
          (fun _ => None) [] [] 0.

(** The position of a symbol in the alphabet. *)
Fixpoint index_of (b : byte) (l : list byte) : nat :=
  match l with
  | [] => O
  | c :: l' => if Byte.eqb b c then O else S (index_of b l')
  end.

(** A world in which [random.choice] picks the given symbols. *)
Definition world_of_text (bs : list byte) : World :=
  mkWorld (fun k => index_of (nth k bs x00) alphabet) 0 (fun _ _ => None) 0
          (fun _ => None) [] [] 0.

(** ** The draws of a run of the structured mode *)

(** The value [random.randint(a, b)] makes of the raw draw [r]. *)
Definition reduce_draw (a b : Z) (r : nat) : Z := a + Z.of_nat r mod (b - a + 1).

(** [random.randint(a, b)] when the draw at position [d] is its draw. *)
Definition drawn_int (entropy : nat -> nat) (a b : Z) (d : nat) : Z :=
  reduce_draw a b (entropy d).

(** Lines 108-113 when the draw at position [d] is the next one: the type
    of the file, and the number of draws the decision takes. *)
Definition type_draws (file_type : string) : nat :=
  if String.eqb file_type "bin" then 0
  else if String.eqb file_type "txt" then 0 else 1.

Definition drawn_type (entropy : nat -> nat) (file_type : string) (d : nat) : bool :=
  if String.eqb file_type "bin" then true
  else if String.eqb file_type "txt" then false
  else Nat.even (entropy d).

(** The data [generate_random_data] makes of the draws from position [d] on. *)
Definition drawn_data (entropy : nat -> nat) (is_binary : bool) (size : Z) (d : nat)
    : list byte :=
  if is_binary
  then map (fun k => byte_of_draw (entropy (d + k)%nat)) (seq 0 (Z.to_nat size))
  else map (fun k => nth (entropy (d + k)%nat mod 65)%nat alphabet x00)
           (seq 0 (Z.to_nat size)).

(** One pass of the inner loop, lines 107-124, as the draws decide it:
    [fp_draw] is the position of its first draw and [fp_opening] the number
    of its opening. *)
Record FilePlan : Type := mkFilePlan {
  fp_index : Z;
  fp_draw : nat;
  fp_opening : nat;
  fp_binary : bool;
  fp_size : Z;
  fp_data : list byte
}.

(** The position of the draw that decides the size of the file. *)
Definition size_draw (file_type : string) (p : FilePlan) : nat :=
  (fp_draw p + type_draws file_type)%nat.

Definition plan_file (entropy : nat -> nat) (file_type : string) (lo hi : Z)
    (d o : nat) (j : Z) : FilePlan :=
  let b := drawn_type entropy file_type d in
  let size := drawn_int entropy lo hi (d + type_draws file_type) in
  mkFilePlan j d o b size
             (drawn_data entropy b size (d + type_draws file_type + 1)).

(** The draws one pass consumes: for the type, for the size, for the data. *)
Definition file_draws (file_type : string) (p : FilePlan) : nat :=
  (type_draws file_type + 1 + Z.to_nat (fp_size p))%nat.

Fixpoint plan_files (entropy : nat -> nat) (file_type : string) (lo hi : Z)
    (d o : nat) (js : list Z) : list FilePlan :=
  match js with
  | [] => []
  | j :: js' =>
      let p := plan_file entropy file_type lo hi d o j in
      p :: plan_files entropy file_type lo hi (d + file_draws file_type p) (S o) js'
  end.

Definition files_draws (file_type : string) (ps : list FilePlan) : nat :=
  fold_right (fun p k => (file_draws file_type p + k)%nat) O ps.

(** One pass of the outer loop, lines 96-106: [dp_draw] is the position of
    the draw that decides the number of files. *)
Record DirPlan : Type := mkDirPlan {
  dp_index : Z;
  dp_draw : nat;
  dp_files : list FilePlan
}.

Fixpoint plan_subdirs (entropy : nat -> nat) (file_type : string) (M lo hi : Z)
    (d o : nat) (indices : list Z) : list DirPlan :=
  match indices with
  | [] => []
  | i :: indices' =>
      let files := plan_files entropy file_type lo hi (S d) o
                     (py_range 1 (drawn_int entropy 1 M d + 1)) in
      mkDirPlan i d files
      :: plan_subdirs entropy file_type M lo hi
           (S d + files_draws file_type files) (o + length files) indices'
  end.

(** What the surroundings make of a planned file. *)
Definition file_outcome (subdir : string) (faults : nat -> string -> option string)
    (p : FilePlan) : Outcome :=
  let name := structured_file_name (fp_index p) (fp_binary p) in
  let path := os_path_join subdir name in
  match faults (fp_opening p) path with
  | Some cause => Failed name path cause
  | None => Written name path (fp_binary p) (fp_data p)
  end.

Definition dir_outcomes (root_dir : string) (faults : nat -> string -> option string)
    (dp : DirPlan) : Z * list Outcome :=
  (dp_index dp,
   map (file_outcome (subdir_path root_dir (dp_index dp)) faults) (dp_files dp)).

Definition all_files (dirs : list DirPlan) : list FilePlan := flat_map dp_files dirs.

(** The positions of the draws that decide a count, a type or a size. *)
Definition file_reads (file_type : string) (p : FilePlan) : list nat :=
  (if type_draws file_type is O then [] else [fp_draw p]) ++ [size_draw file_type p].

Definition draws_read (file_type : string) (dirs : list DirPlan) : list nat :=
  flat_map (fun dp => dp_draw dp :: flat_map (file_reads file_type) (dp_files dp)) dirs.

(** The plan of a whole run in the world [w]. *)
Definition planned_run (N M K : Z) (file_type : string) (min_size_bytes : Z)
    (w : World) : list DirPlan :=
  plan_subdirs (entropy w) file_type M (Z.min min_size_bytes (K * 1024)) (K * 1024)
               (drawn w) (opened w) (py_range 1 (N + 1)).

(** [w] with surroundings that let every file be written. *)
Definition without_write_faults (w : World) : World :=
  mkWorld (entropy w) (drawn w) (fun _ _ => None) (opened w) (mkdir_faults w)
          (argv w) (trace w) (divisions w).

(** The path a planned file is written to. *)
Definition planned_path (root_dir : string) (dp : DirPlan) (p : FilePlan) : string :=
  os_path_join (subdir_path root_dir (dp_index dp))
               (structured_file_name (fp_index p) (fp_binary p)).

Definition planned_files (root_dir : string) (dirs : list DirPlan)
    : list (string * list byte) :=
  flat_map (fun dp => map (fun p => (planned_path root_dir dp p, fp_data p))
                          (dp_files dp)) dirs.

(** The draws [l] are pairwise different positions from [a] up to [b]. *)
Definition within (a b : nat) (l : list nat) : Prop :=
  (a <= b)%nat /\ List.NoDup l /\ List.Forall (fun x => (a <= x < b)%nat) l.

(** ** The range of the floats *)

(** The integers that convert to a float: the largest float is
    [2^1024 - 2^971], and an integer rounds to a float as long as it is below
    [2^1024 - 2^970].  The quotient of such an integer by an integer that is
    not 0 is no larger, so that [int / int] and [float / int] on integers
    that fit raise no OverflowError. *)
Definition fits_float (z : Z) : Prop := Z.abs z < 2 ^ 1024 - 2 ^ 970.

(** * Proofs *)

(** ** The monad *)

Lemma bind_ok {A B} (m : Py A) (k : A -> Py B) w a w1 :
  m w = (inr a, w1) -> bind m k w = k a w1.
Proof. intros H. unfold bind. now rewrite H. Qed.

(** One statement of a sequence was run: go on with the rest. *)
Tactic Notation "step" uconstr(H) := rewrite (bind_ok _ _ _ _ _ H).

Lemma bind_err {A B} (m : Py A) (k : A -> Py B) w e w1 :
  m w = (inl e, w1) -> bind m k w = (inl e, w1).
Proof. intros H. unfold bind. now rewrite H. Qed.

Lemma same_env_refl w : same_env w w.
Proof. now repeat split. Qed.

Lemma same_env_trans w1 w2 w3 :
  same_env w1 w2 -> same_env w2 w3 -> same_env w1 w3.
Proof.
  intros (a1 & a2 & a3 & a4) (b1 & b2 & b3 & b4).
  repeat split; congruence.
Qed.

Lemma evolves_refl w : evolves w w [].
Proof.
  split; [apply same_env_refl|]. rewrite app_nil_r. repeat split; lia.
Qed.

Lemma evolves_trans w1 w2 w3 a b :
  evolves w1 w2 a -> evolves w2 w3 b -> evolves w1 w3 (a ++ b).
Proof.
  intros (e1 & t1 & d1 & o1) (e2 & t2 & d2 & o2).
  split; [eapply same_env_trans; eassumption|].
  rewrite t2, t1, app_assoc. repeat split; lia.
Qed.

Lemma evolves_emit w e : evolves w (emit e w) [e].
Proof. repeat split; simpl; lia. Qed.

Lemma evolves_advance k w : evolves w (advance k w) [].
Proof. repeat split; simpl; try lia. now rewrite app_nil_r. Qed.

Lemma advance_advance j k w : advance j (advance k w) = advance (k + j) w.
Proof. unfold advance; simpl. f_equal. lia. Qed.

Lemma draw_run w : draw w = (inr (entropy w (drawn w)), advance 1 w).
Proof. reflexivity. Qed.

Lemma truediv_run a b w :
  b <> 0 -> truediv a b w = (inr (inject_Z a / inject_Z b)%Q, divided w).
Proof. intros H. unfold truediv. now destruct (Z.eqb_spec b 0). Qed.

Lemma truediv_float_run x b w :
  b <> 0 -> truediv_float x b w = (inr (x / inject_Z b)%Q, divided w).
Proof. intros H. unfold truediv_float. now destruct (Z.eqb_spec b 0). Qed.

Lemma evolves_divided w : evolves w (divided w) [].
Proof. repeat split; simpl; try lia. now rewrite app_nil_r. Qed.

Lemma print_run line w : print line w = (inr tt, emit (Stdout line) w).
Proof. reflexivity. Qed.

(** ** Random data *)

Lemma draw_bytes_run n : forall w,
  draw_bytes n w =
  (inr (map (fun k => byte_of_draw (entropy w (drawn w + k))) (seq 0 n)),
   advance n w).
Proof.
  induction n as [|n IH]; intros w.
  - destruct w; reflexivity.
  - cbn [draw_bytes]. step (draw_run w).
    step (IH (advance 1 w)).
    unfold ret. rewrite advance_advance. f_equal. f_equal.
    cbn [seq map]. f_equal.
    + f_equal. f_equal. lia.
    + rewrite <- seq_shift, map_map. apply map_ext. intros k. simpl.
      f_equal. f_equal. lia.
Qed.

Lemma random_choice_run {A} (x : A) (l : list A) w :
  random_choice (x :: l) w =
  (inr (nth (entropy w (drawn w) mod length (x :: l))%nat (x :: l) x),
   advance 1 w).
Proof. reflexivity. Qed.

Lemma join_choices_run n : forall w,
  join_choices n (list_ascii_of_string characters) w =
  (inr (string_of_list_ascii (chosen_text w n)), advance n w).
Proof.
  induction n as [|n IH]; intros w.
  - destruct w; reflexivity.
  - cbn [join_choices].
    change (list_ascii_of_string characters)
      with ("a"%char :: tl (list_ascii_of_string characters)) at 1.
    step (random_choice_run _ _ w).
    step (IH (advance 1 w)).
    unfold ret. rewrite advance_advance. f_equal. f_equal.
    unfold chosen_text. cbn [seq map string_of_list_ascii]. f_equal.
    + rewrite Nat.add_0_r. reflexivity.
    + f_equal. rewrite <- seq_shift, map_map. apply map_ext. intros k.
      cbn [drawn advance].
      replace (1 + drawn w + k)%nat with (drawn w + S k)%nat by lia.
      reflexivity.
Qed.

Lemma py_range_length a b : length (py_range a b) = Z.to_nat (b - a).
Proof. unfold py_range. now rewrite length_map, length_seq. Qed.

Lemma characters_ascii :
  Forall (fun c => utf8_char c = [byte_of_ascii c])
         (list_ascii_of_string characters).
Proof. repeat constructor. Qed.

Lemma chosen_text_characters w n :
  Forall (fun c => In c (list_ascii_of_string characters)) (chosen_text w n).
Proof.
  unfold chosen_text. apply List.Forall_forall. intros c Hc.
  apply in_map_iff in Hc as (k & <- & _).
  apply nth_In. change (length (list_ascii_of_string characters)) with 65%nat.
  apply Nat.mod_upper_bound. discriminate.
Qed.

Lemma encode_utf8_characters (l : list ascii) :
  Forall (fun c => In c (list_ascii_of_string characters)) l ->
  encode_utf8 (string_of_list_ascii l) = map byte_of_ascii l.
Proof.
  unfold encode_utf8. rewrite list_ascii_of_string_of_list_ascii.
  induction 1 as [|c l Hc _ IH]; [reflexivity|].
  cbn [flat_map map]. rewrite IH.
  pose proof characters_ascii as Hall.
  rewrite List.Forall_forall in Hall. now rewrite (Hall c Hc).
Qed.

Lemma alphabet_characters :
  alphabet = map byte_of_ascii (list_ascii_of_string characters).
Proof. reflexivity. Qed.

Lemma text_bytes w n :
  encode_utf8 (string_of_list_ascii (chosen_text w n)) =
  map (fun k => nth (entropy w (drawn w + k) mod 65)%nat alphabet x00) (seq 0 n).
Proof.
  rewrite encode_utf8_characters by apply chosen_text_characters.
  unfold chosen_text. rewrite map_map. apply map_ext. intros k.
  rewrite alphabet_characters.
  change x00 with (byte_of_ascii "000"%char).
  rewrite map_nth. f_equal. apply nth_indep.
  change (length (list_ascii_of_string characters)) with 65%nat.
  apply Nat.mod_upper_bound. discriminate.
Qed.

Lemma generate_random_data_run size_bytes is_binary w :
  0 <= size_bytes ->
  generate_random_data size_bytes is_binary w =
  (inr (if is_binary
        then map (fun k => byte_of_draw (entropy w (drawn w + k)))
                 (seq 0 (Z.to_nat size_bytes))
        else map (fun k => nth (entropy w (drawn w + k) mod 65)%nat alphabet x00)
                 (seq 0 (Z.to_nat size_bytes))),
   advance (Z.to_nat size_bytes) w).
Proof.
  intros Hsize. unfold generate_random_data. destruct is_binary.
  - unfold os_urandom. destruct (Z.ltb_spec size_bytes 0); [lia|].
    apply draw_bytes_run.
  - rewrite py_range_length, Z.sub_0_r.
    step (join_choices_run _ w).
    unfold ret. now rewrite text_bytes.
Qed.

(** C1: for a size that is not negative, [generate_random_data] returns
    exactly that many bytes, in the binary and in the text mode; for the
    size 0 it returns the empty sequence. *)
Theorem generate_random_data_length (size_bytes : Z) (is_binary : bool) (w : World) :
  0 <= size_bytes ->
  exists data w',
    generate_random_data size_bytes is_binary w = (inr data, w') /\
    Z.of_nat (length data) = size_bytes /\
    (size_bytes = 0 -> data = []).
Proof.
  intros Hsize. eexists _, _. split.
  - now apply generate_random_data_run.
  - split.
    + destruct is_binary; rewrite length_map, length_seq; lia.
    + intros ->. now destruct is_binary.
Qed.

Lemma generate_random_data_length_witness :
  0 <= 7 /\
  exists data w',
    generate_random_data 7 false calm_world = (inr data, w') /\
    Z.of_nat (length data) = 7 /\
    (7 = 0 -> data = []).
Proof.
  split; [lia|].
  apply (generate_random_data_length 7 false calm_world). lia.
Defined.

(** ** The alphabet of the text mode *)

Lemma alphabet_length : length alphabet = 65%nat.
Proof. reflexivity. Qed.

Lemma alphabet_NoDup : List.NoDup alphabet.
Proof.
  apply NoDup_map_inv with (f := Byte.to_nat). apply NoDup_ListNoDup.
  apply (bool_decide_unpack _). vm_compute. exact I.
Qed.

Lemma alphabet_existsb b :
  existsb (Byte.eqb b) alphabet = is_alphabet_byte b.
Proof. destruct b; reflexivity. Qed.

Lemma alphabet_classes b : In b alphabet <-> is_alphabet_byte b = true.
Proof.
  rewrite <- alphabet_existsb, existsb_exists. split.
  - intros Hb. exists b. split; [assumption|]. now apply Byte.byte_dec_lb.
  - intros (c & Hc & Heq). apply Byte.byte_dec_bl in Heq. now subst.
Qed.

Lemma alphabet_single_byte : Forall (fun b => (Byte.to_N b < 128)%N) alphabet.
Proof. repeat constructor. Qed.

Lemma alphabet_nth_in r : In (nth (r mod 65)%nat alphabet x00) alphabet.
Proof.
  apply nth_In. rewrite alphabet_length. apply Nat.mod_upper_bound. discriminate.
Qed.

(** C5, as the code has it: every byte of a text of [size_bytes >= 0] bytes is
    a member of the alphabet A-Z, a-z, 0-9, space, newline, tab, which has 65
    pairwise different symbols, each a single byte below 128; the byte at
    position [k] is the symbol the [k]-th draw selects, by its remainder
    modulo 65, so every byte has its own draw and every symbol belongs to
    exactly one remainder. *)
Theorem text_mode_alphabet (size_bytes : Z) (w : World) :
  0 <= size_bytes ->
  exists data w',
    generate_random_data size_bytes false w = (inr data, w') /\
    Z.of_nat (length data) = size_bytes /\
    Forall (fun b => In b alphabet) data /\
    data = map (fun k => nth (entropy w (drawn w + k) mod 65)%nat alphabet x00)
               (seq 0 (Z.to_nat size_bytes)) /\
    length alphabet = 65%nat /\
    List.NoDup alphabet /\
    (forall b, In b alphabet <-> is_alphabet_byte b = true) /\
    Forall (fun b => (Byte.to_N b < 128)%N) alphabet.
Proof.
  intros Hsize. eexists _, _. split.
  { now apply generate_random_data_run. }
  cbn beta iota. repeat split.
  - rewrite length_map, length_seq. lia.
  - apply List.Forall_forall. intros b Hb.
    apply in_map_iff in Hb as (k & <- & _). apply alphabet_nth_in.
  - apply alphabet_NoDup.
  - apply alphabet_classes.
  - apply alphabet_classes.
  - apply alphabet_single_byte.
Qed.

Lemma text_mode_alphabet_witness :
  0 <= 4 /\
  exists data w',
    generate_random_data 4 false calm_world = (inr data, w') /\
    Z.of_nat (length data) = 4 /\
    Forall (fun b => In b alphabet) data /\
    data = map (fun k => nth (entropy calm_world (drawn calm_world + k) mod 65)%nat
                             alphabet x00)
               (seq 0 (Z.to_nat 4)) /\
    length alphabet = 65%nat /\
    List.NoDup alphabet /\
    (forall b, In b alphabet <-> is_alphabet_byte b = true) /\
    Forall (fun b => (Byte.to_N b < 128)%N) alphabet.
Proof.
  split; [lia|]. apply (text_mode_alphabet 4 calm_world). lia.
Defined.

(** The text mode yields 65 different bytes, one for each of the draws
    0..64: no alphabet of 64 symbols holds every byte of its output. *)
Lemma text_alphabet_not_64 :
  ~ exists symbols : list byte,
      length symbols = 64%nat /\
      forall r data w',
        generate_random_data 1 false (constant_world r) = (inr data, w') ->
        Forall (fun b => In b symbols) data.
Proof.
  intros (symbols & Hlen & Hall).
  assert (Hincl : incl alphabet symbols).
  { intros b Hb. apply (In_nth _ _ x00) in Hb as (r & Hr & <-).
    rewrite alphabet_length in Hr.
    specialize (Hall r _ _ (generate_random_data_run 1 false (constant_world r) ltac:(lia))).
    apply Forall_inv in Hall. cbn [entropy constant_world] in Hall.
    now rewrite Nat.mod_small in Hall by assumption. }
  pose proof (NoDup_incl_length alphabet_NoDup Hincl) as Hle.
  rewrite alphabet_length, Hlen in Hle. lia.
Qed.

(** ** The dictionaries *)

Lemma update_stats_run tf bf xf ts bs xs (is_binary : bool) size w :
  update_stats (structured_stats tf bf xf ts bs xs) is_binary size w =
  (inr (if is_binary
        then structured_stats (tf + 1) (bf + 1) xf (ts + size) (bs + size) xs
        else structured_stats (tf + 1) bf (xf + 1) (ts + size) bs (xs + size)),
   w).
Proof. destruct is_binary; reflexivity. Qed.

Lemma n_written_app bin txt a b :
  n_written bin txt (a ++ b) = n_written bin txt a + n_written bin txt b.
Proof.
  induction a as [|[name path is_binary data|name path cause] a IH];
    cbn [app n_written fold_right] in *; try assumption; [reflexivity|].
  fold (n_written bin txt (a ++ b)). fold (n_written bin txt a).
  destruct (if is_binary then bin else txt); lia.
Qed.

Lemma bytes_written_app bin txt a b :
  bytes_written bin txt (a ++ b) = bytes_written bin txt a + bytes_written bin txt b.
Proof.
  induction a as [|[name path is_binary data|name path cause] a IH];
    cbn [app bytes_written fold_right] in *; try assumption; [reflexivity|].
  fold (bytes_written bin txt (a ++ b)). fold (bytes_written bin txt a).
  destruct (if is_binary then bin else txt); lia.
Qed.



Lemma n_written_cons bin txt o outs :
  n_written bin txt (o :: outs) = n_written bin txt [o] + n_written bin txt outs.
Proof. apply (n_written_app bin txt [o] outs). Qed.

Lemma bytes_written_cons bin txt o outs :
  bytes_written bin txt (o :: outs) =
  bytes_written bin txt [o] + bytes_written bin txt outs.
Proof. apply (bytes_written_app bin txt [o] outs). Qed.

Lemma n_written_split outs :
  n_written true true outs = n_written true false outs + n_written false true outs.
Proof.
  induction outs as [|o outs IH]; [reflexivity|].
  rewrite !(n_written_cons _ _ o outs), IH.
  destruct o as [name path [|] data|name path cause]; cbn; lia.
Qed.

Lemma bytes_written_split outs :
  bytes_written true true outs =
  bytes_written true false outs + bytes_written false true outs.
Proof.
  induction outs as [|o outs IH]; [reflexivity|].
  rewrite !(bytes_written_cons _ _ o outs), IH.
  destruct o as [name path [|] data|name path cause];
    cbn [bytes_written fold_right]; lia.
Qed.

(** ** Observations distribute over concatenation *)

Lemma files_written_app a b :
  files_written (a ++ b) = files_written a ++ files_written b.
Proof. apply flat_map_app. Qed.

Lemma dirs_made_app a b : dirs_made (a ++ b) = dirs_made a ++ dirs_made b.
Proof. apply flat_map_app. Qed.

Lemma write_failures_app a b :
  write_failures (a ++ b) = write_failures a ++ write_failures b.
Proof. apply flat_map_app. Qed.

Lemma printed_app a b : printed (a ++ b) = printed a ++ printed b.
Proof. apply flat_map_app. Qed.

(** ** The events of the outcomes *)

Section Outcomes.

Variable ev : Outcome -> list Event.

Hypothesis ev_written : forall name path b data,
  exists line, ev (Written name path b data) = [Wrote path data; Stdout line].

Hypothesis ev_failed : forall name path cause,
  exists lead, ev (Failed name path cause) =
    [WriteFailed path cause; Stdout [Txt lead; Txt name; Txt ": "; Txt cause]].

Lemma files_written_outcomes outs :
  files_written (flat_map ev outs) = written_files outs.
Proof.
  unfold files_written, written_files.
  induction outs as [|[name path b data|name path cause] outs IH];
    [reflexivity| |]; cbn [flat_map]; rewrite flat_map_app, IH.
  - destruct (ev_written name path b data) as (line & ->). reflexivity.
  - destruct (ev_failed name path cause) as (lead & ->). reflexivity.
Qed.

Lemma dirs_made_outcomes outs : dirs_made (flat_map ev outs) = [].
Proof.
  unfold dirs_made.
  induction outs as [|[name path b data|name path cause] outs IH];
    [reflexivity| |]; cbn [flat_map]; rewrite flat_map_app, IH.
  - destruct (ev_written name path b data) as (line & ->). reflexivity.
  - destruct (ev_failed name path cause) as (lead & ->). reflexivity.
Qed.

Lemma attempts_outcomes outs rest :
  attempts_per_dir (flat_map ev outs ++ rest) =
  ((length outs + fst (attempts_per_dir rest))%nat, snd (attempts_per_dir rest)).
Proof.
  induction outs as [|[name path b data|name path cause] outs IH];
    cbn [flat_map length].
  - cbn [app]. now destruct (attempts_per_dir rest).
  - destruct (ev_written name path b data) as (line & ->).
    cbn [app attempts_per_dir]. now rewrite IH.
  - destruct (ev_failed name path cause) as (lead & ->).
    cbn [app attempts_per_dir]. now rewrite IH.
Qed.

Lemma failures_reported_outcomes outs :
  Forall (fun o => exists dir, outcome_path o = os_path_join dir (outcome_name o)) outs ->
  failures_reported (flat_map ev outs).
Proof.
  induction 1 as [|[name path b data|name path cause] outs (dir & Hpath) _ IH];
    cbn [flat_map].
  - constructor.
  - destruct (ev_written name path b data) as (line & ->). cbn [app].
    apply fr_other; [discriminate|]. apply fr_other; [discriminate|]. exact IH.
  - destruct (ev_failed name path cause) as (lead & ->). cbn [app].
    cbn [outcome_path outcome_name] in Hpath. subst path.
    now apply fr_failed.
Qed.

Lemma attempts_split outs :
  (length (files_written (flat_map ev outs))
   + length (write_failures (flat_map ev outs)) = length outs)%nat.
Proof.
  induction outs as [|[name path b data|name path cause] outs IH];
    [reflexivity| |]; cbn [flat_map length];
    rewrite files_written_app, write_failures_app, !length_app.
  - destruct (ev_written name path b data) as (line & ->). cbn. lia.
  - destruct (ev_failed name path cause) as (lead & ->). cbn. lia.
Qed.

End Outcomes.

Lemma written_files_length outs :
  Z.of_nat (length (written_files outs)) = n_written true true outs.
Proof.
  unfold written_files.
  induction outs as [|[name path b data|name path cause] outs IH];
    [reflexivity| |]; cbn [flat_map app length n_written fold_right].
  - fold (n_written true true outs). destruct b; lia.
  - exact IH.
Qed.

Lemma written_files_bytes outs :
  total_bytes (written_files outs) = bytes_written true true outs.
Proof.
  unfold written_files, total_bytes.
  induction outs as [|[name path b data|name path cause] outs IH];
    [reflexivity| |]; cbn [flat_map app bytes_written fold_right].
  - fold (bytes_written true true outs). rewrite IH. unfold size_of. cbn [snd].
    destruct b; reflexivity.
  - exact IH.
Qed.

Lemma simple_events_written name path b data :
  exists line, simple_events (Written name path b data) = [Wrote path data; Stdout line].
Proof. eexists. reflexivity. Qed.

Lemma simple_events_failed name path cause :
  exists lead, simple_events (Failed name path cause) =
    [WriteFailed path cause; Stdout [Txt lead; Txt name; Txt ": "; Txt cause]].
Proof. eexists. reflexivity. Qed.

Lemma structured_events_written name path b data :
  exists line, structured_events (Written name path b data) = [Wrote path data; Stdout line].
Proof. eexists. reflexivity. Qed.

Lemma structured_events_failed name path cause :
  exists lead, structured_events (Failed name path cause) =
    [WriteFailed path cause; Stdout [Txt lead; Txt name; Txt ": "; Txt cause]].
Proof. eexists. reflexivity. Qed.

(** ** Writing one file *)

Lemma open_write_ok path data w :
  io_faults w (opened w) path = None ->
  open_write path data w = (inr tt, emit (Wrote path data) (opening w)).
Proof. intros H. unfold open_write. now rewrite H. Qed.

Lemma open_write_failed path data cause w :
  io_faults w (opened w) path = Some cause ->
  open_write path data w =
  (inl (OSError cause), emit (WriteFailed path cause) (opening w)).
Proof. intros H. unfold open_write. now rewrite H. Qed.

Lemma try_except_ok {A} (body : Py A) catches handler w a w1 :
  body w = (inr a, w1) -> try_except body catches handler w = (inr a, w1).
Proof. intros H. unfold try_except. now rewrite H. Qed.

Lemma try_except_caught {A} (body : Py A) catches handler w e w1 :
  body w = (inl e, w1) -> catches e = true ->
  try_except body catches handler w = handler e w1.
Proof. intros H Hc. unfold try_except. now rewrite H, Hc. Qed.

Lemma try_except_passed {A} (body : Py A) catches handler w e w1 :
  body w = (inl e, w1) -> catches e = false ->
  try_except body catches handler w = (inl e, w1).
Proof. intros H Hc. unfold try_except. now rewrite H, Hc. Qed.

Lemma evolves_opening w : evolves w (opening w) [].
Proof. repeat split; simpl; try lia. now rewrite app_nil_r. Qed.

(** The world after an attempt to write, with the console line that follows. *)
Lemma evolves_attempt k w e line :
  evolves w (emit (Stdout line) (emit e (opening (advance k w)))) [e; Stdout line].
Proof.
  change [e; Stdout line] with ([] ++ [] ++ [e] ++ [Stdout line]).
  eapply evolves_trans; [apply evolves_advance|].
  eapply evolves_trans; [apply evolves_opening|].
  eapply evolves_trans; apply evolves_emit.
Qed.

Lemma evolves_written k w e line :
  evolves w (emit (Stdout line) (divided (emit e (opening (advance k w)))))
          [e; Stdout line].
Proof.
  change [e; Stdout line] with ([] ++ [] ++ [e] ++ [] ++ [Stdout line]).
  eapply evolves_trans; [apply evolves_advance|].
  eapply evolves_trans; [apply evolves_opening|].
  eapply evolves_trans; [apply evolves_emit|].
  eapply evolves_trans; [apply evolves_divided|apply evolves_emit].
Qed.

Lemma simple_file_step_run root_dir file_size_bytes i tf ts w :
  0 <= file_size_bytes ->
  exists o w',
    simple_file_step root_dir file_size_bytes i (simple_stats tf ts) w =
    (inr (simple_stats (tf + n_written true true [o])
                       (ts + bytes_written true true [o])), w') /\
    evolves w w' (simple_events o) /\
    simple_outcome_ok root_dir file_size_bytes (io_faults w) i o /\
    io_faults w (opened w) (outcome_path o) =
      match o with Written _ _ _ _ => None | Failed _ _ cause => Some cause end.
Proof.
  intros Hsize. unfold simple_file_step.
  step (generate_random_data_run _ true w Hsize).
  set (name := "fixed_file_" +:+ fmt_03d i +:+ ".bin").
  set (path := os_path_join root_dir name).
  set (data := map _ _).
  assert (Hlen : Z.of_nat (length data) = file_size_bytes).
  { unfold data. rewrite length_map, length_seq. lia. }
  set (w1 := advance (Z.to_nat file_size_bytes) w).
  destruct (io_faults w1 (opened w1) path) as [cause|] eqn:Hfault.
  - exists (Failed name path cause). eexists. split; [|split; [|split]].
    + erewrite try_except_caught;
        [| erewrite bind_err; [reflexivity | exact (open_write_failed _ _ _ _ Hfault)]
         | reflexivity ].
      cbn [n_written bytes_written fold_right]. rewrite !Z.add_0_r. reflexivity.
    + apply evolves_attempt.
    + repeat split. now exists (opened w1).
    + exact Hfault.
  - exists (Written name path true data). eexists. split; [|split; [|split]].
    + erewrite try_except_ok;
        [| erewrite bind_ok; [reflexivity | exact (open_write_ok _ _ _ Hfault)] ].
      cbn [n_written bytes_written fold_right].
      replace (Z.of_nat (length data) + 0) with file_size_bytes by lia.
      reflexivity.
    + cbn [simple_events]. rewrite Hlen. apply evolves_written.
    + repeat split. exact Hlen.
    + exact Hfault.
Qed.

Lemma simple_loop_run root_dir file_size_bytes :
  0 <= file_size_bytes ->
  forall indices tf ts w,
  exists outs w',
    for_each indices (simple_file_step root_dir file_size_bytes)
             (simple_stats tf ts) w =
    (inr (simple_stats (tf + n_written true true outs)
                       (ts + bytes_written true true outs)), w') /\
    evolves w w' (flat_map simple_events outs) /\
    Forall2 (simple_outcome_ok root_dir file_size_bytes (io_faults w)) indices outs.
Proof.
  intros Hsize. induction indices as [|i indices IH]; intros tf ts w.
  - exists [], w. split; [|split].
    + cbn. rewrite !Z.add_0_r. reflexivity.
    + apply evolves_refl.
    + constructor.
  - destruct (simple_file_step_run root_dir _ i tf ts w Hsize)
      as (o & w1 & Hstep & Hev1 & Hok & _).
    destruct (IH (tf + n_written true true [o]) (ts + bytes_written true true [o]) w1)
      as (outs & w2 & Hloop & Hev2 & Hoks).
    exists (o :: outs), w2. split; [|split].
    + cbn [for_each]. rewrite (bind_ok _ _ _ _ _ Hstep), Hloop.
      rewrite (n_written_cons _ _ o outs), (bytes_written_cons _ _ o outs).
      now rewrite !Z.add_assoc.
    + cbn [flat_map]. eapply evolves_trans; eassumption.
    + constructor; [exact Hok|].
      destruct Hev1 as ((_ & Hf & _) & _). now rewrite <- Hf.
Qed.

(** ** The flat mode *)

Lemma py_range_In a b i : In i (py_range a b) <-> a <= i < b.
Proof.
  unfold py_range. rewrite in_map_iff. split.
  - intros (k & <- & Hk). apply in_seq in Hk. lia.
  - intros Hi. exists (Z.to_nat (i - a)). split; [lia|]. apply in_seq. lia.
Qed.

Lemma create_files_simple_run root_dir num_files size_kb w :
  0 <= size_kb ->
  mkdir_faults w root_dir = None ->
  exists outs w',
    create_files_simple root_dir num_files size_kb w =
    (inr (simple_stats (n_written true true outs) (bytes_written true true outs)), w') /\
    evolves w w' ([Stdout [Txt "Creating files in directory: "; Txt root_dir];
                   Makedirs root_dir] ++ flat_map simple_events outs) /\
    Forall2 (simple_outcome_ok root_dir (size_kb * 1024) (io_faults w))
            (py_range 1 (num_files + 1)) outs.
Proof.
  intros Hsize Hdir. unfold create_files_simple.
  step (print_run _ w).
  set (w1 := emit _ w).
  assert (Hmk : os_makedirs root_dir w1 = (inr tt, emit (Makedirs root_dir) w1)).
  { unfold os_makedirs. cbn [mkdir_faults w1 emit]. now rewrite Hdir. }
  step Hmk.
  destruct (simple_loop_run root_dir (size_kb * 1024) ltac:(lia)
              (py_range 1 (num_files + 1)) 0 0 (emit (Makedirs root_dir) w1))
    as (outs & w2 & Hloop & Hev & Hoks).
  exists outs, w2. split; [|split].
  - change simple_stats_init with (simple_stats 0 0).
    now step Hloop.
  - eapply evolves_trans; [|exact Hev].
    change [Stdout [Txt "Creating files in directory: "; Txt root_dir]; Makedirs root_dir]
      with ([Stdout [Txt "Creating files in directory: "; Txt root_dir]] ++ [Makedirs root_dir]).
    eapply evolves_trans; apply evolves_emit.
  - exact Hoks.
Qed.

Lemma simple_outcomes_bytes root_dir size faults indices outs :
  Forall2 (simple_outcome_ok root_dir size faults) indices outs ->
  bytes_written true true outs = n_written true true outs * size.
Proof.
  induction 1 as [|i o indices outs Hok _ IH]; [reflexivity|].
  rewrite (bytes_written_cons _ _ o outs), (n_written_cons _ _ o outs), IH.
  destruct o as [name path b data|name path cause]; cbn [n_written bytes_written fold_right].
  - destruct Hok as (_ & _ & -> & <-). lia.
  - lia.
Qed.

Lemma simple_outcomes_calm root_dir size faults indices outs :
  Forall2 (simple_outcome_ok root_dir size faults) indices outs ->
  (forall k p, faults k p = None) ->
  n_written true true outs = Z.of_nat (length indices).
Proof.
  intros Hoks Hcalm.
  induction Hoks as [|i o indices outs Hok _ IH]; [reflexivity|].
  rewrite (n_written_cons _ _ o outs), IH. cbn [length].
  destruct o as [name path b data|name path cause]; cbn [n_written fold_right].
  - destruct Hok as (_ & _ & -> & _). lia.
  - destruct Hok as (_ & _ & k & Hk). rewrite Hcalm in Hk. discriminate.
Qed.

Lemma simple_outcomes_files root_dir size faults indices outs :
  Forall2 (simple_outcome_ok root_dir size faults) indices outs ->
  Forall (fun f => size_of f = size /\
                   exists i, In i indices /\
                     fst f = os_path_join root_dir ("fixed_file_" +:+ fmt_03d i +:+ ".bin"))
         (written_files outs).
Proof.
  induction 1 as [|i o indices outs Hok _ IH]; [constructor|].
  assert (IH' : Forall (fun f => size_of f = size /\
                   exists i', In i' (i :: indices) /\
                     fst f = os_path_join root_dir ("fixed_file_" +:+ fmt_03d i' +:+ ".bin"))
                 (written_files outs)).
  { eapply List.Forall_impl; [|exact IH]. intros f (Hs & i' & Hin & Hp).
    split; [exact Hs|]. exists i'. split; [now right | exact Hp]. }
  destruct o as [name path b data|name path cause]; [|exact IH'].
  unfold written_files. cbn [flat_map app]. constructor; [|exact IH'].
  destruct Hok as (Hname & Hpath & _ & Hlen). cbn [outcome_name outcome_path] in *.
  split; [exact Hlen|]. exists i. split; [now left|]. cbn [fst]. now subst.
Qed.



(** ** The structured mode *)

Lemma random_randint_run lo hi w :
  lo <= hi ->
  random_randint lo hi w =
  (inr (lo + Z.of_nat (entropy w (drawn w)) mod (hi - lo + 1)), advance 1 w).
Proof.
  intros H. unfold random_randint. destruct (Z.ltb_spec hi lo); [lia|]. reflexivity.
Qed.

Lemma random_randint_empty lo hi w :
  hi < lo ->
  random_randint lo hi w = (inl (ValueError "empty range for randrange()"), w).
Proof.
  intros H. unfold random_randint. destruct (Z.ltb_spec hi lo); [|lia]. reflexivity.
Qed.

Lemma randint_bounds lo hi (r : nat) :
  lo <= hi -> lo <= lo + Z.of_nat r mod (hi - lo + 1) <= hi.
Proof.
  intros H. pose proof (Z.mod_pos_bound (Z.of_nat r) (hi - lo + 1) ltac:(lia)). lia.
Qed.

Lemma choose_is_binary_run file_type w :
  exists b k,
    choose_is_binary file_type w = (inr b, advance k w) /\
    (file_type = "bin" -> b = true) /\ (file_type = "txt" -> b = false) /\
    (k <= 1)%nat.
Proof.
  unfold choose_is_binary.
  destruct (String.eqb_spec file_type "bin") as [->|Hbin].
  - exists true, 0%nat. split; [now destruct w|].
    split; [reflexivity|]. split; [discriminate|lia].
  - destruct (String.eqb_spec file_type "txt") as [->|Htxt].
    + exists false, 0%nat. split; [now destruct w|].
      split; [discriminate|]. split; [reflexivity|lia].
    + eexists _, 1%nat. split; [apply random_choice_run|].
      split; [intros ?; contradiction|]. split; [intros ?; contradiction|lia].
Qed.

Lemma tally_nil tf bf xf ts bs xs :
  tally tf bf xf ts bs xs [] = structured_stats tf bf xf ts bs xs.
Proof. unfold tally. cbn [n_written bytes_written fold_right]. now rewrite !Z.add_0_r. Qed.

Lemma tally_app tf bf xf ts bs xs a b :
  tally (tf + n_written true true a) (bf + n_written true false a)
        (xf + n_written false true a) (ts + bytes_written true true a)
        (bs + bytes_written true false a) (xs + bytes_written false true a) b =
  tally tf bf xf ts bs xs (a ++ b).
Proof.
  unfold tally. rewrite !n_written_app, !bytes_written_app, !Z.add_assoc. reflexivity.
Qed.

Lemma structured_file_step_run subdir file_type lo hi j tf bf xf ts bs xs w :
  0 <= lo -> lo <= hi ->
  exists o w',
    structured_file_step subdir file_type lo hi j
      (structured_stats tf bf xf ts bs xs) w =
    (inr (tally tf bf xf ts bs xs [o]), w') /\
    evolves w w' (structured_events o) /\
    structured_outcome_ok subdir file_type lo hi (io_faults w) j o /\
    match o with
    | Written _ _ _ data =>
        exists k, (k <= 1)%nat /\
          Z.of_nat (length data) =
          lo + Z.of_nat (entropy w (k + drawn w)) mod (hi - lo + 1)
    | Failed _ _ _ => True
    end /\
    io_faults w (opened w) (outcome_path o) =
      match o with Written _ _ _ _ => None | Failed _ _ cause => Some cause end.
Proof.
  intros Hlo Hhi. unfold structured_file_step.
  destruct (choose_is_binary_run file_type w) as (b & k & Hchoose & Hbin & Htxt & Hk).
  step Hchoose.
  step (random_randint_run lo hi _ Hhi).
  set (size := lo + _ mod _).
  assert (Hsize : lo <= size <= hi) by (apply randint_bounds; exact Hhi).
  step (generate_random_data_run size b _ ltac:(lia)).
  set (name := "file_" +:+ fmt_03d j +:+ (if b then ".bin" else ".txt")).
  set (path := os_path_join subdir name).
  set (data := if b then _ else _).
  assert (Hlen : Z.of_nat (length data) = size).
  { unfold data. destruct b; rewrite length_map, length_seq; lia. }
  rewrite !advance_advance.
  set (w1 := advance _ w).
  destruct (io_faults w1 (opened w1) path) as [cause|] eqn:Hfault.
  - exists (Failed name path cause). eexists. split; [|split; [|split; [|split]]].
    + erewrite try_except_caught;
        [| erewrite bind_err; [reflexivity | exact (open_write_failed _ _ _ _ Hfault)]
         | reflexivity ].
      unfold tally. cbn [n_written bytes_written fold_right].
      rewrite !Z.add_0_r. reflexivity.
    + apply evolves_attempt.
    + split; [reflexivity|]. split.
      * unfold name. destruct b; [now left | now right].
      * now exists (opened w1).
    + exact I.
    + exact Hfault.
  - exists (Written name path b data).
    exists (emit (Stdout [Txt "    Created file: "; Txt name; Txt " (";
                          Txt (if b then "binary" else "text"); Txt ", ";
                          Fixed2 (inject_Z size / inject_Z 1024)%Q; Txt " KB)"])
                 (divided (emit (Wrote path data) (opening w1)))).
    split; [|split; [|split; [|split]]].
    + apply try_except_ok.
      step (open_write_ok _ _ _ Hfault).
      step (truediv_run size 1024 _ ltac:(lia)).
      step (print_run _ _).
      rewrite update_stats_run. unfold tally.
      cbn [n_written bytes_written fold_right].
      replace (Z.of_nat (length data) + 0) with size by lia.
      destruct b; rewrite ?Z.add_0_r; reflexivity.
    + cbn [structured_events]. rewrite Hlen. apply evolves_written.
    + split; [reflexivity|]. repeat split; try assumption; lia.
    + exists k. split; [exact Hk|]. rewrite Hlen. reflexivity.
    + exact Hfault.
Qed.

Lemma structured_loop_run subdir file_type lo hi :
  0 <= lo -> lo <= hi ->
  forall indices tf bf xf ts bs xs w,
  exists outs w',
    for_each indices (structured_file_step subdir file_type lo hi)
             (structured_stats tf bf xf ts bs xs) w =
    (inr (tally tf bf xf ts bs xs outs), w') /\
    evolves w w' (flat_map structured_events outs) /\
    Forall2 (structured_outcome_ok subdir file_type lo hi (io_faults w)) indices outs.
Proof.
  intros Hlo Hhi. induction indices as [|j indices IH]; intros tf bf xf ts bs xs w.
  - exists [], w. split; [|split].
    + cbn [for_each]. now rewrite tally_nil.
    + apply evolves_refl.
    + constructor.
  - destruct (structured_file_step_run subdir file_type lo hi j tf bf xf ts bs xs w Hlo Hhi)
      as (o & w1 & Hstep & Hev1 & Hok & _ & _).
    unfold tally in Hstep.
    destruct (IH (tf + n_written true true [o]) (bf + n_written true false [o])
                 (xf + n_written false true [o]) (ts + bytes_written true true [o])
                 (bs + bytes_written true false [o]) (xs + bytes_written false true [o]) w1)
      as (outs & w2 & Hloop & Hev2 & Hoks).
    exists (o :: outs), w2. split; [|split].
    + cbn [for_each]. rewrite (bind_ok _ _ _ _ _ Hstep), Hloop.
      now rewrite tally_app.
    + cbn [flat_map]. eapply evolves_trans; eassumption.
    + constructor; [exact Hok|].
      destruct Hev1 as ((_ & Hf & _) & _). now rewrite <- Hf.
Qed.

Lemma os_makedirs_ok path w :
  mkdir_faults w path = None ->
  os_makedirs path w = (inr tt, emit (Makedirs path) w).
Proof. intros H. unfold os_makedirs. now rewrite H. Qed.

Lemma os_makedirs_failed path cause w :
  mkdir_faults w path = Some cause ->
  os_makedirs path w = (inl (OSError cause), w).
Proof. intros H. unfold os_makedirs. now rewrite H. Qed.

Lemma subdir_step_run root_dir file_type M lo hi i tf bf xf ts bs xs w :
  mkdir_faults w (subdir_path root_dir i) = None ->
  1 <= M -> 0 <= lo -> lo <= hi ->
  exists outs w',
    subdir_step root_dir file_type M lo hi i (structured_stats tf bf xf ts bs xs) w =
    (inr (tally tf bf xf ts bs xs outs), w') /\
    evolves w w' (subdir_events root_dir (i, outs)) /\
    subdir_ok root_dir file_type M lo hi (io_faults w) i (i, outs) /\
    Z.of_nat (length outs) = 1 + Z.of_nat (entropy w (drawn w)) mod M.
Proof.
  intros Hdir HM Hlo Hhi. unfold subdir_step.
  fold (subdir_path root_dir i).
  step (os_makedirs_ok _ w Hdir).
  step (print_run _ _).
  step (random_randint_run 1 M _ HM).
  cbn [entropy drawn emit].
  replace (M - 1 + 1) with M by lia.
  set (num := 1 + Z.of_nat (entropy w (drawn w)) mod M).
  assert (Hnum : 1 <= num <= M).
  { pose proof (Z.mod_pos_bound (Z.of_nat (entropy w (drawn w))) M ltac:(lia)).
    unfold num. lia. }
  destruct (structured_loop_run (subdir_path root_dir i) file_type lo hi Hlo Hhi
              (py_range 1 (num + 1)) tf bf xf ts bs xs
              (advance 1 (emit (Stdout [Txt "  Created subdirectory: ";
                                        Txt ("subdir_" +:+ fmt_03d i)])
                               (emit (Makedirs (subdir_path root_dir i)) w))))
    as (outs & w' & Hloop & Hev & Hoks).
  assert (Hlen : Z.of_nat (length outs) = num).
  { rewrite <- (Forall2_length _ _ _ Hoks), py_range_length. lia. }
  exists outs, w'. split; [exact Hloop|]. split; [|split].
  - unfold subdir_events. cbn [fst snd].
    eapply evolves_trans; [|exact Hev].
    change [Makedirs (subdir_path root_dir i);
            Stdout [Txt "  Created subdirectory: "; Txt ("subdir_" +:+ fmt_03d i)]]
      with ([Makedirs (subdir_path root_dir i)] ++
            [Stdout [Txt "  Created subdirectory: "; Txt ("subdir_" +:+ fmt_03d i)]] ++ []).
    eapply evolves_trans; [apply evolves_emit|].
    eapply evolves_trans; [apply evolves_emit|apply evolves_advance].
  - unfold subdir_ok. cbn [fst snd]. rewrite Hlen.
    split; [reflexivity|]. split; [exact Hnum|exact Hoks].
  - exact Hlen.
Qed.

Lemma all_outcomes_cons i outs groups :
  all_outcomes ((i, outs) :: groups) = outs ++ all_outcomes groups.
Proof. reflexivity. Qed.

Lemma subdirs_loop_run root_dir file_type M lo hi :
  1 <= M -> 0 <= lo -> lo <= hi ->
  forall indices tf bf xf ts bs xs w,
  (forall p, mkdir_faults w p = None) ->
  exists groups w',
    for_each indices (subdir_step root_dir file_type M lo hi)
             (structured_stats tf bf xf ts bs xs) w =
    (inr (tally tf bf xf ts bs xs (all_outcomes groups)), w') /\
    evolves w w' (flat_map (subdir_events root_dir) groups) /\
    Forall2 (subdir_ok root_dir file_type M lo hi (io_faults w)) indices groups.
Proof.
  intros HM Hlo Hhi.
  induction indices as [|i indices IH]; intros tf bf xf ts bs xs w Hdirs.
  - exists [], w. split; [|split].
    + cbn [for_each all_outcomes flat_map]. now rewrite tally_nil.
    + apply evolves_refl.
    + constructor.
  - destruct (subdir_step_run root_dir file_type M lo hi i tf bf xf ts bs xs w
                (Hdirs _) HM Hlo Hhi)
      as (outs & w1 & Hstep & Hev1 & Hok & _).
    unfold tally in Hstep.
    assert (Hdirs1 : forall p, mkdir_faults w1 p = None).
    { destruct Hev1 as ((_ & _ & Hm & _) & _). now rewrite Hm. }
    destruct (IH (tf + n_written true true outs) (bf + n_written true false outs)
                 (xf + n_written false true outs) (ts + bytes_written true true outs)
                 (bs + bytes_written true false outs) (xs + bytes_written false true outs)
                 w1 Hdirs1)
      as (groups & w2 & Hloop & Hev2 & Hoks).
    exists ((i, outs) :: groups), w2. split; [|split].
    + cbn [for_each]. rewrite (bind_ok _ _ _ _ _ Hstep), Hloop.
      now rewrite tally_app, all_outcomes_cons.
    + cbn [flat_map]. eapply evolves_trans; eassumption.
    + constructor; [exact Hok|].
      destruct Hev1 as ((_ & Hf & _) & _). now rewrite <- Hf.
Qed.

Lemma clamp_min_size_run min_size_bytes max_size_bytes w :
  exists w',
    clamp_min_size min_size_bytes max_size_bytes w =
    (inr (Z.min min_size_bytes max_size_bytes), w') /\
    evolves w w' (if min_size_bytes >? max_size_bytes
                  then [Stdout [Txt "Warning: Minimum size ("; Num min_size_bytes;
                                Txt "B) is larger than maximum ("; Num max_size_bytes;
                                Txt "B). Setting minimum to maximum."]]
                  else []).
Proof.
  unfold clamp_min_size. rewrite Z.gtb_ltb.
  destruct (Z.ltb_spec max_size_bytes min_size_bytes).
  - eexists. split; [|apply evolves_emit].
    step (print_run _ _). unfold ret.
    now rewrite Z.min_r by lia.
  - exists w. split; [|apply evolves_refl].
    unfold ret. now rewrite Z.min_l by lia.
Qed.

Lemma create_structured_files_run root_dir N M K file_type min_size_bytes w :
  (forall p, mkdir_faults w p = None) ->
  1 <= M -> 0 <= K -> 0 <= min_size_bytes ->
  exists groups w',
    create_structured_files root_dir N M K file_type min_size_bytes w =
    (inr (tally 0 0 0 0 0 0 (all_outcomes groups)), w') /\
    evolves w w' (structured_prelude root_dir min_size_bytes (K * 1024)
                  ++ flat_map (subdir_events root_dir) groups) /\
    Forall2 (subdir_ok root_dir file_type M
               (Z.min min_size_bytes (K * 1024)) (K * 1024) (io_faults w))
            (py_range 1 (N + 1)) groups.
Proof.
  intros Hdirs HM HK Hmin. unfold create_structured_files.
  step (print_run _ w).
  rewrite (bind_ok _ _ _ _ _
             (os_makedirs_ok root_dir
                (emit (Stdout [Txt "Creating structured directory: "; Txt root_dir]) w)
                (Hdirs root_dir))).
  set (w1 := emit (Makedirs root_dir) _).
  destruct (clamp_min_size_run min_size_bytes (K * 1024) w1) as (w2 & Hclamp & Hev2).
  step Hclamp.
  assert (Hdirs2 : forall p, mkdir_faults w2 p = None).
  { destruct Hev2 as ((_ & _ & Hm & _) & _). rewrite Hm. exact Hdirs. }
  destruct (subdirs_loop_run root_dir file_type M
              (Z.min min_size_bytes (K * 1024)) (K * 1024) HM ltac:(lia) ltac:(lia)
              (py_range 1 (N + 1)) 0 0 0 0 0 0 w2 Hdirs2)
    as (groups & w3 & Hloop & Hev3 & Hoks).
  exists groups, w3. split; [|split].
  - change structured_stats_init with (structured_stats 0 0 0 0 0 0).
    now step Hloop.
  - unfold structured_prelude. rewrite <- app_assoc.
    eapply evolves_trans; [|eapply evolves_trans; [exact Hev2 | exact Hev3]].
    change [Stdout [Txt "Creating structured directory: "; Txt root_dir]; Makedirs root_dir]
      with ([Stdout [Txt "Creating structured directory: "; Txt root_dir]]
            ++ [Makedirs root_dir]).
    eapply evolves_trans; apply evolves_emit.
  - destruct Hev2 as ((_ & Hf & _) & _). rewrite Hf in Hoks. exact Hoks.
Qed.

(** ** Consequences for the outcomes of a structured run *)




Lemma subdir_outcomes root_dir file_type M lo hi faults indices groups :
  Forall2 (subdir_ok root_dir file_type M lo hi faults) indices groups ->
  Forall (fun o => exists i j,
            In i indices /\
            structured_outcome_ok (subdir_path root_dir i) file_type lo hi faults j o)
         (all_outcomes groups).
Proof.
  induction 1 as [|i [i' outs] indices groups Hok _ IH]; [constructor|].
  rewrite all_outcomes_cons. apply Forall_app. split.
  - destruct Hok as (_ & _ & Hoks). cbn [snd] in Hoks.
    remember (py_range 1 (Z.of_nat (length outs) + 1)) as js eqn:Hjs. clear Hjs.
    induction Hoks as [|j o js outs Ho _ IHo]; constructor; [|exact IHo].
    exists i, j. split; [now left | exact Ho].
  - eapply List.Forall_impl; [|exact IH].
    intros o (i0 & j & Hin & Ho). exists i0, j. split; [now right | exact Ho].
Qed.

Lemma files_written_structured root_dir groups :
  files_written (flat_map (subdir_events root_dir) groups) =
  written_files (all_outcomes groups).
Proof.
  induction groups as [|[i outs] groups IH]; [reflexivity|].
  cbn [flat_map]. rewrite files_written_app, IH, all_outcomes_cons.
  unfold subdir_events. cbn [fst snd]. rewrite files_written_app.
  rewrite (files_written_outcomes _ structured_events_written structured_events_failed).
  unfold written_files. now rewrite flat_map_app.
Qed.

Lemma files_written_prelude root_dir lo hi :
  files_written (structured_prelude root_dir lo hi) = [].
Proof. unfold structured_prelude. now destruct (lo >? hi). Qed.

Lemma written_files_Forall (P : Outcome -> Prop) (Q : string * list byte -> Prop) outs :
  (forall name path b data, P (Written name path b data) -> Q (path, data)) ->
  Forall P outs -> Forall Q (written_files outs).
Proof.
  intros HPQ. unfold written_files.
  induction 1 as [|[name path b data|name path cause] outs Ho _ IH];
    cbn [flat_map app]; [constructor| |exact IH].
  constructor; [now apply (HPQ name path b)|exact IH].
Qed.

Lemma n_written_policy (P : Outcome -> Prop) outs :
  (forall name path data, ~ P (Written name path false data)) ->
  Forall P outs ->
  n_written false true outs = 0 /\ bytes_written false true outs = 0.
Proof.
  intros Hno. induction 1 as [|o outs Ho _ (IHn & IHb)]; [now split|].
  rewrite (n_written_cons _ _ o outs), (bytes_written_cons _ _ o outs), IHn, IHb.
  destruct o as [name path [|] data|name path cause];
    cbn [n_written bytes_written fold_right]; try (split; reflexivity).
  now apply Hno in Ho.
Qed.



Lemma files_written_run root_dir lo hi groups :
  files_written (structured_prelude root_dir lo hi
                 ++ flat_map (subdir_events root_dir) groups) =
  written_files (all_outcomes groups).
Proof.
  now rewrite files_written_app, files_written_prelude, files_written_structured.
Qed.

Lemma structured_sizes root_dir file_type M lo hi faults indices groups :
  Forall2 (subdir_ok root_dir file_type M lo hi faults) indices groups ->
  Forall (fun f => lo <= size_of f <= hi) (written_files (all_outcomes groups)).
Proof.
  intros Hoks. eapply written_files_Forall; [|exact (subdir_outcomes _ _ _ _ _ _ _ _ Hoks)].
  intros name path b data (i & j & _ & _ & _ & _ & _ & Hsize). exact Hsize.
Qed.

Lemma choice_of_two (r : nat) :
  nth (r mod 2)%nat [true; false] true = Nat.even r.
Proof.
  rewrite <- Nat.negb_odd, <- Nat.bit0_odd, Nat.bit0_eqb.
  pose proof (Nat.mod_upper_bound r 2 ltac:(discriminate)) as Hr.
  destruct (r mod 2)%nat as [|[|k]]; [reflexivity|reflexivity|lia].
Qed.

Lemma choose_is_binary_other file_type :
  file_type <> "bin" -> file_type <> "txt" ->
  choose_is_binary file_type = random_choice [true; false].
Proof.
  intros Hbin Htxt. unfold choose_is_binary.
  destruct (String.eqb_spec file_type "bin"); [contradiction|].
  destruct (String.eqb_spec file_type "txt"); [contradiction|]. reflexivity.
Qed.

(** ** Names *)

Lemma of_uint_zero_pad width d : N.of_uint (zero_pad width d) = N.of_uint d.
Proof.
  unfold zero_pad. induction (width - Decimal.nb_digits d)%nat as [|k IH];
    [reflexivity|]. cbn [Nat.iter]. exact IH.
Qed.

Lemma read_fmt_03d i : 0 <= i -> read_decimal (fmt_03d i) = Some (Z.to_N i).
Proof.
  intros Hi. unfold read_decimal, fmt_03d.
  destruct (Z.ltb_spec i 0); [lia|].
  rewrite NilEmpty.usu. cbn [option_map].
  rewrite of_uint_zero_pad, DecimalN.Unsigned.of_to. f_equal. lia.
Qed.

Lemma fmt_03d_inj i j : 0 <= i -> 0 <= j -> fmt_03d i = fmt_03d j -> i = j.
Proof.
  intros Hi Hj Heq.
  pose proof (read_fmt_03d i Hi) as Ri. rewrite Heq, (read_fmt_03d j Hj) in Ri.
  injection Ri as Ri. lia.
Qed.

Lemma fmt_03d_width_below_1000 :
  forallb (fun k => (String.length (fmt_03d (Z.of_nat k)) =? 3)%nat) (seq 0 1000) = true.
Proof. vm_compute. reflexivity. Qed.

Lemma fmt_03d_width i : 0 <= i < 1000 -> String.length (fmt_03d i) = 3%nat.
Proof.
  intros Hi. pose proof fmt_03d_width_below_1000 as Hall.
  rewrite forallb_forall in Hall.
  specialize (Hall (Z.to_nat i)). rewrite Z2Nat.id in Hall by lia.
  apply Nat.eqb_eq, Hall, in_seq. lia.
Qed.

Lemma os_path_join_inj dir a b :
  os_path_join dir ("subdir_" +:+ a) = os_path_join dir ("subdir_" +:+ b) -> a = b.
Proof.
  unfold os_path_join. cbn [String.append].
  destruct (String.eqb dir "" || ends_with_sep dir)%bool; intros Heq.
  - apply String.app_inj in Heq. now injection Heq.
  - apply String.app_inj in Heq. cbn [String.append] in Heq. now injection Heq.
Qed.

Lemma subdir_path_inj root_dir i j :
  0 <= i -> 0 <= j -> subdir_path root_dir i = subdir_path root_dir j -> i = j.
Proof.
  intros Hi Hj Heq. apply os_path_join_inj in Heq. now apply fmt_03d_inj.
Qed.

Lemma py_range_NoDup a b : List.NoDup (py_range a b).
Proof.
  unfold py_range. apply NoDup_map_NoDup_ForallPairs; [|apply seq_NoDup].
  intros x y _ _ Heq. lia.
Qed.

Lemma subdir_paths_NoDup root_dir N :
  List.NoDup (map (subdir_path root_dir) (py_range 1 (N + 1))).
Proof.
  apply NoDup_map_NoDup_ForallPairs; [|apply py_range_NoDup].
  intros i j Hi Hj. apply py_range_In in Hi, Hj. apply subdir_path_inj; lia.
Qed.

(** ** Directories and files per directory *)

Lemma dirs_made_structured root_dir groups :
  dirs_made (flat_map (subdir_events root_dir) groups) =
  map (fun g => subdir_path root_dir (fst g)) groups.
Proof.
  induction groups as [|[i outs] groups IH]; [reflexivity|].
  cbn [flat_map map]. rewrite dirs_made_app, IH.
  unfold subdir_events. cbn [fst snd]. rewrite dirs_made_app.
  rewrite (dirs_made_outcomes _ structured_events_written structured_events_failed).
  reflexivity.
Qed.

Lemma dirs_made_prelude root_dir lo hi :
  dirs_made (structured_prelude root_dir lo hi) = [root_dir].
Proof. unfold structured_prelude. now destruct (lo >? hi). Qed.

Lemma attempts_structured root_dir groups :
  attempts_per_dir (flat_map (subdir_events root_dir) groups) =
  (O, subdir_counts root_dir groups).
Proof.
  induction groups as [|[i outs] groups IH]; [reflexivity|].
  cbn [flat_map]. unfold subdir_events at 1. cbn [fst snd app attempts_per_dir].
  rewrite (attempts_outcomes _ structured_events_written structured_events_failed).
  rewrite IH. cbn [fst snd]. unfold subdir_counts. cbn [map fst snd].
  now rewrite Nat.add_0_r.
Qed.

Lemma attempts_run root_dir lo hi groups :
  attempts_per_dir (structured_prelude root_dir lo hi
                    ++ flat_map (subdir_events root_dir) groups) =
  (O, (root_dir, O) :: subdir_counts root_dir groups).
Proof.
  unfold structured_prelude.
  destruct (lo >? hi); cbn [app attempts_per_dir]; now rewrite attempts_structured.
Qed.

Lemma subdir_counts_ok root_dir file_type M lo hi faults indices groups :
  Forall2 (subdir_ok root_dir file_type M lo hi faults) indices groups ->
  Forall2 (fun i c => fst c = subdir_path root_dir i /\ 1 <= Z.of_nat (snd c) <= M)
          indices (subdir_counts root_dir groups).
Proof.
  induction 1 as [|i [i' outs] indices groups (Hi & Hc & _) _ IH]; constructor.
  - cbn [fst snd] in *. subst i'. now split.
  - exact IH.
Qed.

Lemma subdir_dirs root_dir file_type M lo hi faults indices groups :
  Forall2 (subdir_ok root_dir file_type M lo hi faults) indices groups ->
  map (fun g => subdir_path root_dir (fst g)) groups = map (subdir_path root_dir) indices.
Proof.
  induction 1 as [|i [i' outs] indices groups (Hi & _) _ IH]; [reflexivity|].
  cbn [map fst] in *. now rewrite IH, Hi.
Qed.

Lemma binary_only_outcomes root_dir M lo hi faults indices groups :
  Forall2 (subdir_ok root_dir "bin" M lo hi faults) indices groups ->
  n_written false true (all_outcomes groups) = 0 /\
  bytes_written false true (all_outcomes groups) = 0.
Proof.
  intros Hoks. eapply n_written_policy; [|exact (subdir_outcomes _ _ _ _ _ _ _ _ Hoks)].
  intros name path data (i & j & _ & _ & _ & Hbin & _).
  specialize (Hbin eq_refl). discriminate.
Qed.

(** ** Failures of single files *)

Lemma failures_reported_app a b :
  failures_reported a -> failures_reported b -> failures_reported (a ++ b).
Proof.
  induction 1 as [|dir name cause lead rest _ IH|e rest He _ IH]; intros Hb.
  - exact Hb.
  - cbn [app]. apply fr_failed. now apply IH.
  - cbn [app]. apply fr_other; [exact He|]. now apply IH.
Qed.

Lemma failures_reported_quiet evs :
  Forall (fun e => forall p c, e <> WriteFailed p c) evs -> failures_reported evs.
Proof. induction 1; [constructor|]. now apply fr_other. Qed.

Lemma failures_reported_structured root_dir file_type M lo hi faults indices groups :
  Forall2 (subdir_ok root_dir file_type M lo hi faults) indices groups ->
  failures_reported (flat_map (subdir_events root_dir) groups).
Proof.
  induction 1 as [|i [i' outs] indices groups (_ & _ & Hoks) _ IH]; [constructor|].
  cbn [flat_map]. apply failures_reported_app; [|exact IH].
  unfold subdir_events. apply failures_reported_app.
  - apply failures_reported_quiet. repeat constructor; discriminate.
  - apply (failures_reported_outcomes _ structured_events_written structured_events_failed).
    cbn [snd] in Hoks.
    remember (py_range 1 (Z.of_nat (length outs) + 1)) as js eqn:Hjs. clear Hjs.
    induction Hoks as [|j o js outs (Hp & _) _ IHo]; constructor; [|exact IHo].
    now exists (subdir_path root_dir i).
Qed.

Lemma failures_reported_simple root_dir size faults indices outs :
  Forall2 (simple_outcome_ok root_dir size faults) indices outs ->
  failures_reported (flat_map simple_events outs).
Proof.
  intros Hoks.
  apply (failures_reported_outcomes _ simple_events_written simple_events_failed).
  induction Hoks as [|i o indices outs (_ & Hp & _) _ IH]; constructor; [|exact IH].
  now exists root_dir.
Qed.

(** ** The reporters *)

Lemma dict_get_run (stats : gmap string Z) key v w :
  stats !! key = Some v -> dict_get stats key w = (inr v, w).
Proof. intros H. unfold dict_get. now rewrite H. Qed.


Lemma average_kb_run (stats : gmap string Z) size_key size count w :
  stats !! size_key = Some size ->
  exists w',
    average_kb stats size_key count w = (inr (guarded_average size count), w') /\
    trace w' = trace w.
Proof.
  intros Hkey. unfold average_kb, guarded_average. rewrite Z.gtb_ltb.
  destruct (Z.ltb_spec 0 count).
  - step (dict_get_run _ _ _ w Hkey).
    step (truediv_run _ count _ ltac:(lia)).
    rewrite truediv_float_run by lia.
    eexists. split; reflexivity.
  - exists w. split; reflexivity.
Qed.

Lemma size_mb_of_run (stats : gmap string Z) size_key size w :
  stats !! size_key = Some size ->
  size_mb_of stats size_key w =
  (inr (inject_Z size / inject_Z (1024 * 1024))%Q, divided w).
Proof.
  intros Hkey. unfold size_mb_of.
  step (dict_get_run _ _ _ w Hkey).
  now apply truediv_run.
Qed.

Lemma print_structured_statistics_run tf bf xf ts bs xs w :
  tf <> 0 ->
  exists w',
    print_structured_statistics (structured_stats tf bf xf ts bs xs) w =
    (inr tt, w') /\
    trace w' = trace w ++ structured_report tf bf xf ts bs xs.
Proof.
  intros Hfiles. unfold print_structured_statistics.
  rewrite (bind_ok _ _ _ _ _
             (dict_get_run (structured_stats tf bf xf ts bs xs) "total_files" tf w eq_refl)).
  destruct (Z.eqb_spec tf 0); [contradiction|].
  destruct (average_kb_run (structured_stats tf bf xf ts bs xs)
              "total_size_bytes" ts tf w eq_refl) as (w1 & H1 & T1).
  step H1.
  rewrite (bind_ok _ _ _ _ _
             (dict_get_run (structured_stats tf bf xf ts bs xs) "binary_files" bf w1 eq_refl)).
  destruct (average_kb_run (structured_stats tf bf xf ts bs xs)
              "binary_size_bytes" bs bf w1 eq_refl) as (w2 & H2 & T2).
  step H2.
  rewrite (bind_ok _ _ _ _ _
             (dict_get_run (structured_stats tf bf xf ts bs xs) "text_files" xf w2 eq_refl)).
  destruct (average_kb_run (structured_stats tf bf xf ts bs xs)
              "text_size_bytes" xs xf w2 eq_refl) as (w3 & H3 & T3).
  step H3.
  rewrite (bind_ok _ _ _ _ _
             (size_mb_of_run (structured_stats tf bf xf ts bs xs) "total_size_bytes" ts _ eq_refl)).
  rewrite (bind_ok _ _ _ _ _
             (size_mb_of_run (structured_stats tf bf xf ts bs xs) "binary_size_bytes" bs _ eq_refl)).
  rewrite (bind_ok _ _ _ _ _
             (size_mb_of_run (structured_stats tf bf xf ts bs xs) "text_size_bytes" xs _ eq_refl)).
  eexists. split; [reflexivity|].
  cbn [print bind trace emit divided structured_report].
  rewrite T3, T2, T1, <- !app_assoc. reflexivity.
Qed.

Lemma print_simple_statistics_run tf ts w :
  exists w',
    print_simple_statistics (simple_stats tf ts) w = (inr tt, w') /\
    trace w' = trace w ++ simple_report tf ts /\
    divisions w' = if tf >? 0 then S (S (divisions w)) else S (divisions w).
Proof.
  unfold print_simple_statistics, simple_report.
  rewrite (bind_ok _ _ _ _ _
             (dict_get_run (simple_stats tf ts) "total_files" tf w eq_refl)).
  rewrite (bind_ok _ _ _ _ _
             (size_mb_of_run (simple_stats tf ts) "total_size_bytes" ts _ eq_refl)).
  rewrite Z.gtb_ltb. destruct (Z.ltb_spec 0 tf).
  - step (truediv_float_run _ tf _ ltac:(lia)).
    eexists. split; [reflexivity|].
    cbn [print bind trace emit divided divisions]. rewrite <- !app_assoc.
    split; reflexivity.
  - eexists. split; [reflexivity|].
    cbn [print bind ret trace emit divided divisions]. rewrite <- !app_assoc.
    split; reflexivity.
Qed.




(** ** The command line *)

Lemma error_if_run cond msg w :
  error_if cond msg w =
  if cond then (inl (SystemExit 2), emit (Stderr [Txt msg]) w) else (inr tt, w).
Proof. now destruct cond. Qed.

Lemma main_rejects parse_args args w ns :
  parse_args (effective_args args w) = ParseOk ns ->
  invalid_arguments ns = true ->
  exists msg,
    main parse_args args w = (inl (SystemExit 2), emit (Stderr [Txt msg]) w).
Proof.
  intros Hparse Hbad. unfold main.
  assert (Hrun : run_parser parse_args args w = (inr ns, w)).
  { unfold run_parser. now rewrite Hparse. }
  step Hrun. unfold invalid_arguments in Hbad.
  destruct (file_create ns) as [[N_files M_size_kb]|].
  - eexists. erewrite bind_err; [reflexivity|].
    rewrite error_if_run, Hbad. reflexivity.
  - destruct (n ns) as [vn|]; [|eexists; reflexivity].
    destruct (max_files ns) as [vm|]; [|eexists; reflexivity].
    destruct (max_size_kb ns) as [vk|]; [|eexists; reflexivity].
    destruct (vn <=? 0) eqn:Hn.
    { eexists. erewrite bind_err; reflexivity. }
    erewrite bind_ok; [|reflexivity].
    destruct (vm <=? 0) eqn:Hm.
    { eexists. erewrite bind_err; reflexivity. }
    erewrite bind_ok; [|reflexivity].
    destruct (vk <=? 0) eqn:Hk; [|discriminate].
    eexists. erewrite bind_err; reflexivity.
Qed.

(** C9, as the code has it: when argparse rejects the command line, [main]
    leaves with the exit code of argparse; when a number of the selected
    mode (the two of --file-create if it is given, else -n, -m, -k) is not
    positive, or one of -n, -m, -k is missing without --file-create, [main]
    leaves with the exit code 2.  In both cases a message went to stderr and
    nothing else happened: no directory was made and no file was opened. *)
Theorem usage_errors_precede_io (parse_args : list string -> Parsed)
    (args : option (list string)) (w : World) :
  (forall msg code,
     parse_args (effective_args args w) = ParseExit msg code ->
     exists w',
       main parse_args args w = (inl (SystemExit code), w') /\
       trace w' = trace w ++ [Stderr msg] /\
       dirs_made (trace w') = dirs_made (trace w) /\
       files_written (trace w') = files_written (trace w) /\
       write_failures (trace w') = write_failures (trace w)) /\
  (forall ns,
     parse_args (effective_args args w) = ParseOk ns ->
     invalid_arguments ns = true ->
     exists msg w',
       main parse_args args w = (inl (SystemExit 2), w') /\
       2 <> 0 /\
       trace w' = trace w ++ [Stderr [Txt msg]] /\
       dirs_made (trace w') = dirs_made (trace w) /\
       files_written (trace w') = files_written (trace w) /\
       write_failures (trace w') = write_failures (trace w)).
Proof.
  split.
  - intros msg code Hparse. exists (emit (Stderr msg) w). split.
    + unfold main. erewrite bind_err; [reflexivity|].
      unfold run_parser. now rewrite Hparse.
    + split; [reflexivity|]. cbn [trace emit].
      rewrite dirs_made_app, files_written_app, write_failures_app.
      cbn. now rewrite !app_nil_r.
  - intros ns Hparse Hbad.
    destruct (main_rejects parse_args args w ns Hparse Hbad) as (msg & Hmain).
    exists msg, (emit (Stderr [Txt msg]) w). split; [exact Hmain|].
    split; [discriminate|]. split; [reflexivity|]. cbn [trace emit].
    rewrite dirs_made_app, files_written_app, write_failures_app.
    cbn. now rewrite !app_nil_r.
Qed.

Lemma usage_errors_precede_io_witness :
  exists msg w',
    main (fun _ => ParseOk zero_files_namespace) None calm_world =
    (inl (SystemExit 2), w') /\
    2 <> 0 /\
    trace w' = trace calm_world ++ [Stderr [Txt msg]] /\
    dirs_made (trace w') = dirs_made (trace calm_world) /\
    files_written (trace w') = files_written (trace calm_world) /\
    write_failures (trace w') = write_failures (trace calm_world).
Proof.
  apply (proj2 (usage_errors_precede_io (fun _ => ParseOk zero_files_namespace)
                  None calm_world) zero_files_namespace); reflexivity.
Defined.

(** With [-d out -fc 1 1 -n 0] the count of subdirectories is 0, and yet
    [main] reports no usage error: it runs the flat mode, makes the
    directory and writes a file. *)
Lemma overridden_count_is_not_checked :
  n overridden_namespace = Some 0 /\
  fst (main (fun _ => ParseOk overridden_namespace) None calm_world) = inr tt /\
  dirs_made (trace (snd (main (fun _ => ParseOk overridden_namespace) None calm_world)))
    = ["out"] /\
  map fst (files_written
             (trace (snd (main (fun _ => ParseOk overridden_namespace) None calm_world))))
    = ["out/fixed_file_001.bin"].
Proof. vm_compute. repeat split. Qed.

(** ** Errors that are not failures of single files *)

Lemma py_range_cons a b : a < b -> py_range a b = a :: py_range (a + 1) b.
Proof.
  intros Hab. unfold py_range.
  replace (Z.to_nat (b - a)) with (S (Z.to_nat (b - (a + 1)))) by lia.
  cbn [seq map]. f_equal; [lia|].
  rewrite <- seq_shift, map_map. apply map_ext. intros k. lia.
Qed.

(** Without a positive [M] the first subdirectory already fails: the range
    of [random.randint(1, M)] is empty. *)
Lemma create_structured_files_empty_range root_dir N M K file_type min_size_bytes w :
  1 <= N -> M <= 0 ->
  (forall p, mkdir_faults w p = None) ->
  fst (create_structured_files root_dir N M K file_type min_size_bytes w) =
  inl (ValueError "empty range for randrange()").
Proof.
  intros HN HM Hdirs. unfold create_structured_files.
  step (print_run _ w).
  rewrite (bind_ok _ _ _ _ _
             (os_makedirs_ok root_dir
                (emit (Stdout [Txt "Creating structured directory: "; Txt root_dir]) w)
                (Hdirs root_dir))).
  set (w1 := emit (Makedirs root_dir) _).
  destruct (clamp_min_size_run min_size_bytes (K * 1024) w1) as (w2 & Hclamp & Hev2).
  step Hclamp.
  assert (Hdirs2 : forall p, mkdir_faults w2 p = None).
  { destruct Hev2 as ((_ & _ & Hm & _) & _). rewrite Hm. exact Hdirs. }
  rewrite py_range_cons by lia. cbn [for_each].
  erewrite bind_err; [reflexivity|]. erewrite bind_err; [reflexivity|].
  unfold subdir_step.
  step (os_makedirs_ok _ w2 (Hdirs2 _)).
  step (print_run _ _).
  erewrite bind_err; [reflexivity|]. apply random_randint_empty. lia.
Qed.

(** An error of [os.makedirs] on the root directory is none of a single
    file: it ends the generation, [main] catches it, reports it on the
    console and returns. *)
Lemma main_reports_makedirs_error parse_args args w ns vn vm vk cause :
  parse_args (effective_args args w) = ParseOk ns ->
  file_create ns = None ->
  n ns = Some vn -> max_files ns = Some vm -> max_size_kb ns = Some vk ->
  0 < vn -> 0 < vm -> 0 < vk ->
  mkdir_faults w (directory ns) = Some cause ->
  exists w',
    main parse_args args w = (inr tt, w') /\
    trace w' = trace w ++
      [Stdout [Txt "Creating structured directory: "; Txt (directory ns)];
       Stdout [Txt (nl +:+ "An error occurred during structured file generation: ");
               Txt cause]].
Proof.
  intros Hparse Hfc Hn Hm Hk Hvn Hvm Hvk Hdir. unfold main.
  assert (Hrun : run_parser parse_args args w = (inr ns, w)).
  { unfold run_parser. now rewrite Hparse. }
  rewrite (bind_ok _ _ _ _ _ Hrun), Hfc, Hn, Hm, Hk.
  assert (Hpos : forall v msg w0, 0 < v -> error_if (v <=? 0) msg w0 = (inr tt, w0)).
  { intros v msg w0 Hv. rewrite error_if_run.
    destruct (Z.leb_spec v 0); [lia|reflexivity]. }
  step (Hpos vn _ w Hvn).
  step (Hpos vm _ w Hvm).
  step (Hpos vk _ w Hvk).
  unfold run_structured_mode.
  eexists. split.
  - erewrite try_except_caught; cycle 1.
    { erewrite bind_err; [reflexivity|]. unfold create_structured_files.
      step (print_run _ w).
      erewrite bind_err; [reflexivity|].
      apply os_makedirs_failed. exact Hdir. }
    { reflexivity. }
    reflexivity.
  - cbn [print trace emit exn_str]. now rewrite <- app_assoc.
Qed.

(** ** Examples *)

Example fmt_03d_examples :
  fmt_03d 1 = "001" /\ fmt_03d 12 = "012" /\ fmt_03d 123 = "123" /\
  fmt_03d 1000 = "1000" /\ fmt_03d 0 = "000" /\ fmt_03d (-5) = "-05".
Proof. repeat split. Qed.

Example os_path_join_examples :
  os_path_join "out" "subdir_001" = "out/subdir_001" /\
  os_path_join "out/" "subdir_001" = "out/subdir_001" /\
  os_path_join "" "subdir_001" = "subdir_001" /\
  os_path_join "out" "/tmp" = "/tmp".
Proof. repeat split. Qed.

(** Three subdirectories with up to four binary files of up to 1 KB each,
    every second write failing: the draws 0, 1, 2, ... give 1, 4 and 3
    attempts, and four files are written and counted. *)
Example structured_run_example :
  let r := create_structured_files "out" 3 4 1 "bin" 100 rough_world in
  fst r = inr (structured_stats 4 4 0 2235 2235 0) /\
  attempts_per_dir (trace (snd r)) =
    (O, [("out", O); ("out/subdir_001", 1%nat);
         ("out/subdir_002", 4%nat); ("out/subdir_003", 3%nat)]) /\
  map (fun f => (fst f, size_of f)) (files_written (trace (snd r))) =
    [("out/subdir_001/file_001.bin", 101); ("out/subdir_002/file_002.bin", 409);
     ("out/subdir_002/file_004.bin", 714); ("out/subdir_003/file_002.bin", 1011)] /\
  map fst (write_failures (trace (snd r))) =
    ["out/subdir_002/file_001.bin"; "out/subdir_002/file_003.bin";
     "out/subdir_003/file_001.bin"; "out/subdir_003/file_003.bin"].
Proof. vm_compute. repeat split. Qed.

(** A negative [K] is outside the contract: the binary mode asks
    [os.urandom] for a negative number of bytes. *)
Example negative_size_example :
  fst (create_structured_files "out" 1 2 (-1) "bin" 100 calm_world) =
  inl (ValueError "negative argument not allowed").
Proof. vm_compute. reflexivity. Qed.

(** The text of the draws 0, 1, ..., 69: the alphabet in its order, and then
    again from its start. *)
Example text_example :
  fst (generate_random_data 70 false calm_world) =
  inr (encode_utf8 (characters +:+ "abcde")).
Proof. vm_compute. reflexivity. Qed.

(** ** Effects, whatever the result *)

Lemma yields_ret {A} (P : Event -> Prop) (Q : A -> Prop) a :
  Q a -> yields P Q (ret a).
Proof.
  intros Ha w. exists []. cbn. rewrite app_nil_r.
  split; [reflexivity|]. split; [constructor|]. now intros a' [= <-].
Qed.

Lemma yields_raise {A} (P : Event -> Prop) (Q : A -> Prop) e :
  yields P Q (raise e).
Proof.
  intros w. exists []. cbn. rewrite app_nil_r.
  split; [reflexivity|]. split; [constructor|]. discriminate.
Qed.

Lemma yields_bind {A B} (P : Event -> Prop) (Q : A -> Prop) (R : B -> Prop)
    (m : Py A) (k : A -> Py B) :
  yields P Q m -> (forall a, Q a -> yields P R (k a)) -> yields P R (bind m k).
Proof.
  intros Hm Hk w. destruct (Hm w) as (new1 & Ht1 & HP1 & HQ).
  unfold bind. destruct (m w) as [[e|a] w1]; cbn [fst snd] in *.
  - exists new1. split; [exact Ht1|]. split; [exact HP1|]. discriminate.
  - destruct (Hk a (HQ a eq_refl) w1) as (new2 & Ht2 & HP2 & HR).
    exists (new1 ++ new2). split; [|split].
    + now rewrite Ht2, Ht1, app_assoc.
    + apply Forall_app. now split.
    + exact HR.
Qed.

Lemma yields_weaken {A} (P : Event -> Prop) (Q Q' : A -> Prop) (m : Py A) :
  (forall a, Q a -> Q' a) -> yields P Q m -> yields P Q' m.
Proof.
  intros HQ Hm w. destruct (Hm w) as (new & Ht & HP & Ha).
  exists new. split; [exact Ht|]. split; [exact HP|]. intros a E. apply HQ, Ha, E.
Qed.

Lemma yields_try_except {A} (P : Event -> Prop) (Q : A -> Prop)
    (body : Py A) catches handler :
  yields P Q body -> (forall e, yields P Q (handler e)) ->
  yields P Q (try_except body catches handler).
Proof.
  intros Hb Hh w. destruct (Hb w) as (new1 & Ht1 & HP1 & HQ).
  unfold try_except. destruct (body w) as [[e|a] w1]; cbn [fst snd] in *.
  - destruct (catches e).
    + destruct (Hh e w1) as (new2 & Ht2 & HP2 & HR).
      exists (new1 ++ new2). split; [|split].
      * now rewrite Ht2, Ht1, app_assoc.
      * apply Forall_app. now split.
      * exact HR.
    + exists new1. split; [exact Ht1|]. split; [exact HP1|]. discriminate.
  - exists new1. split; [exact Ht1|]. split; [exact HP1|]. exact HQ.
Qed.

Lemma yields_for_each {A S} (P : Event -> Prop) (I : S -> Prop)
    (xs : list A) (body : A -> S -> Py S) acc :
  (forall x s, In x xs -> I s -> yields P I (body x s)) ->
  I acc -> yields P I (for_each xs body acc).
Proof.
  revert acc. induction xs as [|x xs IH]; intros acc Hbody Hacc.
  - now apply yields_ret.
  - cbn [for_each]. eapply yields_bind.
    + apply Hbody; [now left | exact Hacc].
    + intros s Hs. apply IH; [|exact Hs].
      intros y s' Hy. apply Hbody. now right.
Qed.

Lemma yields_silent {A} (P : Event -> Prop) (Q : A -> Prop) (m : Py A) :
  (forall w, trace (snd (m w)) = trace w) ->
  (forall w a, fst (m w) = inr a -> Q a) ->
  yields P Q m.
Proof.
  intros Ht HQ w. exists []. rewrite app_nil_r.
  split; [apply Ht|]. split; [constructor|]. apply HQ.
Qed.

Lemma yields_emit {A} (P : Event -> Prop) (Q : A -> Prop) (m : Py A) :
  (forall w, exists e, trace (snd (m w)) = trace w ++ [e] /\ P e) ->
  (forall w a, fst (m w) = inr a -> Q a) ->
  yields P Q m.
Proof.
  intros Ht HQ w. destruct (Ht w) as (e & He & HP). exists [e].
  split; [exact He|]. split; [now constructor|]. apply HQ.
Qed.

Lemma yields_print (P : Event -> Prop) line :
  P (Stdout line) -> yields P (fun _ => True) (print line).
Proof. intros HP. apply yields_emit; [|trivial]. intros w. now exists (Stdout line). Qed.

Lemma yields_makedirs (P : Event -> Prop) path :
  P (Makedirs path) -> yields P (fun _ => True) (os_makedirs path).
Proof.
  intros HP w. unfold os_makedirs. destruct (mkdir_faults w path).
  - exists []. cbn. rewrite app_nil_r. split; [reflexivity|].
    split; [constructor|trivial].
  - exists [Makedirs path]. split; [reflexivity|]. split; [now constructor|trivial].
Qed.

Lemma yields_open_write (P : Event -> Prop) path data :
  P (Wrote path data) -> (forall cause, P (WriteFailed path cause)) ->
  yields P (fun _ => True) (open_write path data).
Proof.
  intros Hw Hf w. unfold open_write. destruct (io_faults w (opened w) path) as [cause|].
  - exists [WriteFailed path cause]. split; [reflexivity|].
    split; [constructor; [apply Hf|constructor]|trivial].
  - exists [Wrote path data]. split; [reflexivity|].
    split; [now constructor|trivial].
Qed.

Lemma yields_truediv (P : Event -> Prop) a b :
  yields P (fun _ => True) (truediv a b).
Proof.
  apply yields_silent; [|trivial]. intros w. unfold truediv.
  now destruct (b =? 0).
Qed.

Lemma yields_truediv_float (P : Event -> Prop) x b :
  yields P (fun _ => True) (truediv_float x b).
Proof.
  apply yields_silent; [|trivial]. intros w. unfold truediv_float.
  now destruct (b =? 0).
Qed.

Lemma yields_dict_get (P : Event -> Prop) (d : gmap string Z) k :
  yields P (fun _ => True) (dict_get d k).
Proof.
  apply yields_silent; [|trivial]. intros w. unfold dict_get.
  now destruct (d !! k).
Qed.

Lemma yields_dict_iadd (P : Event -> Prop) (d : gmap string Z) k v :
  yields P (fun _ => True) (dict_iadd d k v).
Proof.
  unfold dict_iadd. eapply yields_bind; [apply yields_dict_get|].
  intros x _. now apply yields_ret.
Qed.

Lemma yields_randint (P : Event -> Prop) lo hi :
  yields P (fun v => lo <= v <= hi) (random_randint lo hi).
Proof.
  apply yields_silent.
  - intros w. unfold random_randint. now destruct (hi <? lo).
  - intros w v. unfold random_randint. destruct (Z.ltb_spec hi lo); [discriminate|].
    cbn. intros [= <-]. now apply randint_bounds.
Qed.

Lemma yields_choose_is_binary (P : Event -> Prop) file_type :
  yields P (fun b => (file_type = "bin" -> b = true) /\ (file_type = "txt" -> b = false))
         (choose_is_binary file_type).
Proof.
  apply yields_silent; intros w;
    destruct (choose_is_binary_run file_type w) as (b & k & Hrun & Hbin & Htxt & _);
    rewrite Hrun; [reflexivity|].
  intros a [= <-]. now split.
Qed.

Lemma os_urandom_negative size_bytes w :
  size_bytes < 0 ->
  generate_random_data size_bytes true w =
  (inl (ValueError "negative argument not allowed"), w).
Proof.
  intros Hneg. unfold generate_random_data, os_urandom.
  destruct (Z.ltb_spec size_bytes 0); [reflexivity|lia].
Qed.

Lemma text_of_negative size_bytes w :
  size_bytes < 0 -> generate_random_data size_bytes false w = (inr [], w).
Proof.
  intros Hneg. unfold generate_random_data. rewrite py_range_length.
  replace (Z.to_nat (size_bytes - 0)) with O by lia. reflexivity.
Qed.

(** A negative size: [os.urandom] refuses it, while [range] of it is empty
    and the text is the empty one; nothing is drawn in either case. *)
Theorem generate_random_data_negative (size_bytes : Z) (is_binary : bool) (w : World) :
  size_bytes < 0 ->
  generate_random_data size_bytes is_binary w =
  if is_binary then (inl (ValueError "negative argument not allowed"), w)
  else (inr [], w).
Proof.
  intros Hneg. destruct is_binary;
    [now apply os_urandom_negative|now apply text_of_negative].
Qed.

Lemma generate_random_data_negative_witness :
  generate_random_data (-3) true calm_world =
    (inl (ValueError "negative argument not allowed"), calm_world) /\
  generate_random_data (-3) false calm_world = (inr [], calm_world).
Proof.
  split.
  - apply (generate_random_data_negative (-3) true calm_world). lia.
  - apply (generate_random_data_negative (-3) false calm_world). lia.
Defined.

Lemma yields_generate_random_data (P : Event -> Prop) size_bytes is_binary :
  yields P (fun data =>
              Z.of_nat (length data) = Z.max 0 size_bytes /\
              (is_binary = true -> 0 <= size_bytes) /\
              (is_binary = false -> Forall (fun c => In c alphabet) data))
         (generate_random_data size_bytes is_binary).
Proof.
  destruct (Z.lt_ge_cases size_bytes 0) as [Hneg|Hpos].
  - apply yields_silent; intros w;
      destruct is_binary;
      rewrite ?os_urandom_negative, ?text_of_negative by exact Hneg;
      try reflexivity; try discriminate.
    intros a [= <-]. split; [cbn; lia|]. split; [discriminate|constructor].
  - apply yields_silent; intros w; rewrite generate_random_data_run by exact Hpos;
      [reflexivity|].
    intros a [= <-]. split; [|split].
    + destruct is_binary; rewrite length_map, length_seq; lia.
    + intros _. exact Hpos.
    + intros ->. apply List.Forall_forall. intros b Hb.
      apply in_map_iff in Hb as (k & <- & _). apply alphabet_nth_in.
Qed.

(** ** The flat mode, whatever its arguments *)

Lemma yields_simple_file_step root_dir num_files size_kb i stats :
  1 <= i <= num_files ->
  yields (simple_event_ok root_dir num_files size_kb) (fun _ => True)
         (simple_file_step root_dir (size_kb * 1024) i stats).
Proof.
  intros Hi. unfold simple_file_step.
  eapply yields_bind; [apply yields_generate_random_data|].
  intros data (Hlen & Hsize & _). specialize (Hsize eq_refl).
  apply yields_try_except.
  - eapply yields_bind.
    { apply yields_open_write.
      - split; [now exists i|]. lia.
      - intros cause. now exists i. }
    intros _ _. eapply yields_bind; [apply yields_truediv|].
    intros q _. eapply yields_bind; [now apply yields_print|].
    intros _ _. eapply yields_bind; [apply yields_dict_iadd|].
    intros s1 _. eapply yields_bind; [apply yields_dict_iadd|].
    intros s2 _. now apply yields_ret.
  - intros e. eapply yields_bind; [now apply yields_print|].
    intros _ _. now apply yields_ret.
Qed.

Lemma yields_create_files_simple root_dir num_files size_kb :
  yields (simple_event_ok root_dir num_files size_kb) (fun _ => True)
         (create_files_simple root_dir num_files size_kb).
Proof.
  unfold create_files_simple.
  eapply yields_bind; [now apply yields_print|].
  intros _ _. eapply yields_bind; [now apply yields_makedirs|].
  intros _ _. eapply yields_bind.
  - apply (yields_for_each _ (fun _ => True)); [|trivial].
    intros i s Hi _. apply yields_simple_file_step.
    apply py_range_In in Hi. lia.
  - intros s _. now apply yields_ret.
Qed.

(** Whatever the arguments and the surroundings, and whether it returns or
    raises, the flat mode calls [os.makedirs] on no path but the root,
    opens no file but [fixed_file_<i>.bin] of the root for an [i] of
    [1..num_files], and a file it writes has exactly [size_kb * 1024]
    bytes. *)
Theorem create_files_simple_confined (root_dir : string) (num_files size_kb : Z)
    (w : World) :
  exists new,
    trace (snd (create_files_simple root_dir num_files size_kb w)) = trace w ++ new /\
    Forall (simple_event_ok root_dir num_files size_kb) new.
Proof.
  destruct (yields_create_files_simple root_dir num_files size_kb w)
    as (new & Ht & HP & _).
  now exists new.
Qed.

(** ** The structured mode, whatever its arguments *)

Lemma yields_structured_file_step root_dir N M lo hi file_type i j stats :
  1 <= i <= N -> 1 <= j <= M ->
  yields (structured_event_ok root_dir N M lo hi file_type) (fun _ => True)
         (structured_file_step (subdir_path root_dir i) file_type lo hi j stats).
Proof.
  intros Hi Hj. unfold structured_file_step.
  eapply yields_bind; [apply yields_choose_is_binary|].
  intros b (Hbin & Htxt).
  eapply yields_bind; [apply yields_randint|].
  intros size Hsize.
  eapply yields_bind; [apply yields_generate_random_data|].
  intros data (Hlen & _ & Htext).
  apply yields_try_except.
  - eapply yields_bind.
    { apply yields_open_write.
      - cbn beta in Hsize. exists i, j, b, size.
        repeat split; try assumption; try reflexivity; lia.
      - intros cause. exists i, j, b. repeat split; try reflexivity; lia. }
    intros _ _. eapply yields_bind; [apply yields_truediv|].
    intros q _. eapply yields_bind; [now apply yields_print|].
    intros _ _. unfold update_stats.
    eapply yields_bind; [apply yields_dict_iadd|].
    intros s1 _. eapply yields_bind; [apply yields_dict_iadd|].
    intros s2 _. destruct b.
    + eapply yields_bind; [apply yields_dict_iadd|].
      intros s3 _. eapply yields_bind; [apply yields_dict_iadd|].
      intros s4 _. now apply yields_ret.
    + eapply yields_bind; [apply yields_dict_iadd|].
      intros s3 _. eapply yields_bind; [apply yields_dict_iadd|].
      intros s4 _. now apply yields_ret.
  - intros e. eapply yields_bind; [now apply yields_print|].
    intros _ _. now apply yields_ret.
Qed.

Lemma yields_subdir_step root_dir N M lo hi file_type i stats :
  1 <= i <= N ->
  yields (structured_event_ok root_dir N M lo hi file_type) (fun _ => True)
         (subdir_step root_dir file_type M lo hi i stats).
Proof.
  intros Hi. unfold subdir_step. fold (subdir_path root_dir i).
  eapply yields_bind.
  { apply yields_makedirs. right. now exists i. }
  intros _ _. eapply yields_bind; [now apply yields_print|].
  intros _ _. eapply yields_bind; [apply yields_randint|].
  intros num Hnum.
  apply (yields_for_each _ (fun _ => True)); [|trivial].
  intros j s Hj _. apply yields_structured_file_step; [exact Hi|].
  apply py_range_In in Hj. cbn beta in Hnum. lia.
Qed.

Lemma yields_clamp_min_size (P : Event -> Prop) min_size_bytes max_size_bytes :
  (forall line, P (Stdout line)) ->
  yields P (fun v => v = Z.min min_size_bytes max_size_bytes)
         (clamp_min_size min_size_bytes max_size_bytes).
Proof.
  intros HP. unfold clamp_min_size. rewrite Z.gtb_ltb.
  destruct (Z.ltb_spec max_size_bytes min_size_bytes).
  - eapply yields_bind; [apply yields_print, HP|].
    intros _ _. apply yields_ret. lia.
  - apply yields_ret. lia.
Qed.

Lemma yields_create_structured_files root_dir N M K file_type min_size_bytes :
  yields (structured_event_ok root_dir N M
            (Z.min min_size_bytes (K * 1024)) (K * 1024) file_type)
         (fun _ => True)
         (create_structured_files root_dir N M K file_type min_size_bytes).
Proof.
  unfold create_structured_files.
  eapply yields_bind; [now apply yields_print|].
  intros _ _. eapply yields_bind; [apply yields_makedirs; now left|].
  intros _ _. eapply yields_bind; [now apply yields_clamp_min_size|].
  intros lo ->. eapply yields_bind.
  - apply (yields_for_each _ (fun _ => True)); [|trivial].
    intros i s Hi _. apply yields_subdir_step.
    apply py_range_In in Hi. lia.
  - intros s _. now apply yields_ret.
Qed.

(** Whatever the arguments and the surroundings, and whether it returns or
    raises, the structured mode calls [os.makedirs] on no path but the
    root and [subdir_<i>] for an [i] of [1..N], and opens no file but
    [file_<j>.bin] and [file_<j>.txt] of such a subdirectory for a [j] of
    [1..M]; the extension of a written file follows the policy, its length
    is a size of the clamped range (0 for a negative size), and a [.txt]
    file holds bytes of the alphabet only. *)
Theorem create_structured_files_confined (root_dir : string) (N M K : Z)
    (file_type : string) (min_size_bytes : Z) (w : World) :
  exists new,
    trace (snd (create_structured_files root_dir N M K file_type min_size_bytes w)) =
      trace w ++ new /\
    Forall (structured_event_ok root_dir N M
              (Z.min min_size_bytes (K * 1024)) (K * 1024) file_type) new.
Proof.
  destruct (yields_create_structured_files root_dir N M K file_type min_size_bytes w)
    as (new & Ht & HP & _).
  now exists new.
Qed.

(** ** The reporters on any dictionary *)

Lemma yields_average_kb (P : Event -> Prop) (stats : gmap string Z) size_key count :
  yields P (fun _ => True) (average_kb stats size_key count).
Proof.
  unfold average_kb. destruct (count >? 0); [|now apply yields_ret].
  eapply yields_bind; [apply yields_dict_get|].
  intros size _. eapply yields_bind; [apply yields_truediv|].
  intros q _. apply yields_truediv_float.
Qed.

Lemma yields_size_mb_of (P : Event -> Prop) (stats : gmap string Z) size_key :
  yields P (fun _ => True) (size_mb_of stats size_key).
Proof.
  unfold size_mb_of. eapply yields_bind; [apply yields_dict_get|].
  intros size _. apply yields_truediv.
Qed.

(** Whatever the dictionary, and whether they return or raise, the two
    reporters do nothing but print: they make no directory and open no
    file. *)
Theorem reporters_only_print (stats : gmap string Z) (w : World) :
  (exists new,
     trace (snd (print_structured_statistics stats w)) = trace w ++ new /\
     Forall is_stdout new) /\
  (exists new,
     trace (snd (print_simple_statistics stats w)) = trace w ++ new /\
     Forall is_stdout new).
Proof.
  split.
  - assert (H : yields is_stdout (fun _ => True) (print_structured_statistics stats)).
    { unfold print_structured_statistics.
      eapply yields_bind; [apply yields_dict_get|].
      intros tf _. destruct (tf =? 0); [now apply yields_print|].
      eapply yields_bind; [apply yields_average_kb|]. intros q1 _.
      eapply yields_bind; [apply yields_dict_get|]. intros bf _.
      eapply yields_bind; [apply yields_average_kb|]. intros q2 _.
      eapply yields_bind; [apply yields_dict_get|]. intros xf _.
      eapply yields_bind; [apply yields_average_kb|]. intros q3 _.
      eapply yields_bind; [apply yields_size_mb_of|]. intros m1 _.
      eapply yields_bind; [apply yields_size_mb_of|]. intros m2 _.
      eapply yields_bind; [apply yields_size_mb_of|]. intros m3 _.
      repeat (eapply yields_bind; [now apply yields_print|]; intros _ _).
      now apply yields_print. }
    destruct (H w) as (new & Ht & HP & _). now exists new.
  - assert (H : yields is_stdout (fun _ => True) (print_simple_statistics stats)).
    { unfold print_simple_statistics.
      eapply yields_bind; [apply yields_dict_get|]. intros tf _.
      eapply yields_bind; [apply yields_size_mb_of|]. intros m1 _.
      eapply yields_bind.
      { destruct (tf >? 0); [apply yields_truediv_float|now apply yields_ret]. }
      intros q _.
      repeat (eapply yields_bind; [now apply yields_print|]; intros _ _).
      now apply yields_print. }
    destruct (H w) as (new & Ht & HP & _). now exists new.
Qed.

Lemma dict_get_missing (stats : gmap string Z) key w :
  stats !! key = None -> dict_get stats key w = (inl (KeyError key), w).
Proof. intros H. unfold dict_get. now rewrite H. Qed.

Lemma print_simple_statistics_reads (stats : gmap string Z) tf ts w :
  stats !! "total_files" = Some tf -> stats !! "total_size_bytes" = Some ts ->
  fst (print_simple_statistics stats w) = inr tt /\
  trace (snd (print_simple_statistics stats w)) = trace w ++ simple_report tf ts.
Proof.
  intros Hf Hs. unfold print_simple_statistics.
  step (dict_get_run stats "total_files" tf w Hf).
  step (size_mb_of_run stats "total_size_bytes" ts w Hs).
  unfold simple_report. rewrite Z.gtb_ltb. destruct (Z.ltb_spec 0 tf).
  - step (truediv_float_run _ tf _ ltac:(lia)).
    split; [reflexivity|].
    cbn [print bind trace emit divided snd]. now rewrite <- !app_assoc.
  - split; [reflexivity|].
    cbn [print bind ret trace emit divided snd]. now rewrite <- !app_assoc.
Qed.

(** The flat reporter reads [total_files] and [total_size_bytes], in this
    order, and nothing else of the dictionary: when one of them is missing
    it raises [KeyError] with that key and has printed nothing; otherwise,
    the two values being within the range of the floats, it prints its
    report of them. *)
Theorem print_simple_statistics_keys (stats : gmap string Z) (w : World) :
  match stats !! "total_files", stats !! "total_size_bytes" with
  | None, _ =>
      print_simple_statistics stats w = (inl (KeyError "total_files"), w)
  | Some _, None =>
      print_simple_statistics stats w = (inl (KeyError "total_size_bytes"), w)
  | Some tf, Some ts =>
      fits_float tf -> fits_float ts ->
      fst (print_simple_statistics stats w) = inr tt /\
      trace (snd (print_simple_statistics stats w)) = trace w ++ simple_report tf ts
  end.
Proof.
  destruct (stats !! "total_files") as [tf|] eqn:Hf.
  - destruct (stats !! "total_size_bytes") as [ts|] eqn:Hs.
    + intros _ _. now apply print_simple_statistics_reads.
    + unfold print_simple_statistics.
      step (dict_get_run stats "total_files" tf w Hf).
      erewrite bind_err; [reflexivity|]. unfold size_mb_of.
      erewrite bind_err; [reflexivity|]. now apply dict_get_missing.
  - unfold print_simple_statistics.
    erewrite bind_err; [reflexivity|]. now apply dict_get_missing.
Qed.

Lemma print_simple_statistics_keys_witness :
  fst (print_simple_statistics (simple_stats 5 51200) calm_world) = inr tt /\
  trace (snd (print_simple_statistics (simple_stats 5 51200) calm_world)) =
    trace calm_world ++ simple_report 5 51200.
Proof.
  exact (print_simple_statistics_keys (simple_stats 5 51200) calm_world
           eq_refl eq_refl).
Defined.

(** The dictionary of the flat mode is not one for the reporter of the
    structured mode: with files counted, and the two counters within the
    range of the floats, the reporter raises [KeyError: 'binary_files'] and
    prints nothing; only without files does it print its line.  The
    reporter of the flat mode accepts the dictionary of the structured
    mode. *)
Theorem reporters_and_dictionaries (tf ts : Z) (w : World) :
  fits_float tf -> fits_float ts ->
  (tf <> 0 ->
   fst (print_structured_statistics (simple_stats tf ts) w) =
     inl (KeyError "binary_files") /\
   trace (snd (print_structured_statistics (simple_stats tf ts) w)) = trace w) /\
  (tf = 0 ->
   print_structured_statistics (simple_stats tf ts) w =
     (inr tt, emit (Stdout [Txt (nl +:+ "No files were generated.")]) w)) /\
  (forall bf xf bs xs,
     fst (print_simple_statistics (structured_stats tf bf xf ts bs xs) w) = inr tt /\
     trace (snd (print_simple_statistics (structured_stats tf bf xf ts bs xs) w)) =
       trace w ++ simple_report tf ts).
Proof.
  intros _ _. split; [|split].
  - intros Hfiles. unfold print_structured_statistics.
    step (dict_get_run (simple_stats tf ts) "total_files" tf w eq_refl).
    destruct (Z.eqb_spec tf 0); [contradiction|].
    destruct (average_kb_run (simple_stats tf ts) "total_size_bytes" ts tf w eq_refl)
      as (w1 & H1 & T1).
    step H1.
    erewrite bind_err; [|now apply dict_get_missing].
    split; [reflexivity|exact T1].
  - intros ->. reflexivity.
  - intros bf xf bs xs.
    now apply print_simple_statistics_reads.
Qed.

Lemma reporters_and_dictionaries_witness :
  fst (print_structured_statistics (simple_stats 5 51200) calm_world) =
    inl (KeyError "binary_files") /\
  trace (snd (print_structured_statistics (simple_stats 5 51200) calm_world)) =
    trace calm_world.
Proof.
  apply (proj1 (reporters_and_dictionaries 5 51200 calm_world eq_refl eq_refl)).
  discriminate.
Defined.

(** ** The entry point *)

Lemma run_parser_ok parse_args args w ns :
  parse_args (effective_args args w) = ParseOk ns ->
  run_parser parse_args args w = (inr ns, w).
Proof. intros H. unfold run_parser. now rewrite H. Qed.

Lemma error_if_passes v msg w :
  0 < v -> error_if (v <=? 0) msg w = (inr tt, w).
Proof.
  intros Hv. rewrite error_if_run. destruct (Z.leb_spec v 0); [lia|reflexivity].
Qed.

(** [main] with arguments that pass its checks, up to the generator. *)
Lemma main_flat_unfold parse_args args w ns N_files M_size_kb :
  parse_args (effective_args args w) = ParseOk ns ->
  file_create ns = Some (N_files, M_size_kb) ->
  0 < N_files -> 0 < M_size_kb ->
  main parse_args args w = run_simple_mode ns N_files M_size_kb w.
Proof.
  intros Hparse Hfc HN HM. unfold main.
  step (run_parser_ok parse_args args w ns Hparse). rewrite Hfc.
  erewrite bind_ok; [reflexivity|].
  rewrite error_if_run.
  destruct (Z.leb_spec N_files 0); [lia|]. destruct (Z.leb_spec M_size_kb 0); [lia|].
  reflexivity.
Qed.

Lemma main_structured_unfold parse_args args w ns vn vm vk :
  parse_args (effective_args args w) = ParseOk ns ->
  file_create ns = None ->
  n ns = Some vn -> max_files ns = Some vm -> max_size_kb ns = Some vk ->
  0 < vn -> 0 < vm -> 0 < vk ->
  main parse_args args w = run_structured_mode ns vn vm vk w.
Proof.
  intros Hparse Hfc Hn Hm Hk Hvn Hvm Hvk. unfold main.
  step (run_parser_ok parse_args args w ns Hparse). rewrite Hfc, Hn, Hm, Hk.
  step (error_if_passes vn _ w Hvn).
  step (error_if_passes vm _ w Hvm).
  step (error_if_passes vk _ w Hvk).
  reflexivity.
Qed.

Lemma try_except_exception {A} (body : Py A) handler w :
  (forall e w1, exists a, fst (handler e w1) = inr a) ->
  (exists a, fst (try_except body is_Exception handler w) = inr a) \/
  (exists code, fst (try_except body is_Exception handler w) = inl (SystemExit code)).
Proof.
  intros Hh. unfold try_except. destruct (body w) as [[e|a] w1].
  - destruct e; cbn [is_Exception]; try (left; apply Hh).
    right. now eexists.
  - left. now exists a.
Qed.

(** Whatever the command line and the surroundings, [main] returns or
    leaves by [SystemExit]: no other exception of the generators or of the
    reporters gets out of it. *)
Theorem main_lets_no_exception_escape (parse_args : list string -> Parsed)
    (args : option (list string)) (w : World) :
  fst (main parse_args args w) = inr tt \/
  exists code, fst (main parse_args args w) = inl (SystemExit code).
Proof.
  assert (Hunit : forall r : Exn + unit,
            (exists a, r = inr a) \/ (exists code, r = inl (SystemExit code)) ->
            r = inr tt \/ exists code, r = inl (SystemExit code)).
  { intros r [([] & ->)|H]; [now left | now right]. }
  unfold main, run_parser, bind.
  destruct (parse_args (effective_args args w)) as [msg code|ns];
    [right; now eexists|].
  destruct (file_create ns) as [[N_files M_size_kb]|].
  - rewrite error_if_run. destruct ((N_files <=? 0) || (M_size_kb <=? 0))%bool;
      [right; now eexists|].
    apply Hunit, try_except_exception. intros e w1. now exists tt.
  - destruct (n ns) as [vn|]; [|right; now eexists].
    destruct (max_files ns) as [vm|]; [|right; now eexists].
    destruct (max_size_kb ns) as [vk|]; [|right; now eexists].
    rewrite !error_if_run.
    destruct (vn <=? 0); [right; now eexists|].
    destruct (vm <=? 0); [right; now eexists|].
    destruct (vk <=? 0); [right; now eexists|].
    apply Hunit, try_except_exception. intros e w1. now exists tt.
Qed.

(** When a generator raises an exception (any but [SystemExit]) under
    arguments that passed the checks, [main] keeps what was done until
    then, prints one line with the text of the exception and returns: the
    confirmation and the statistics are not printed. *)
Theorem main_reports_generation_errors (parse_args : list string -> Parsed)
    (args : option (list string)) (w : World) (ns : Namespace) (e : Exn) (w1 : World) :
  parse_args (effective_args args w) = ParseOk ns ->
  is_Exception e = true ->
  (forall N_files M_size_kb,
     file_create ns = Some (N_files, M_size_kb) ->
     0 < N_files -> 0 < M_size_kb ->
     create_files_simple (directory ns) N_files M_size_kb w = (inl e, w1) ->
     main parse_args args w =
     (inr tt, emit (error_line "simple file creation" e) w1)) /\
  (forall vn vm vk,
     file_create ns = None ->
     n ns = Some vn -> max_files ns = Some vm -> max_size_kb ns = Some vk ->
     0 < vn -> 0 < vm -> 0 < vk ->
     create_structured_files (directory ns) vn vm vk
       (file_type_or_mix (file_type ns)) 100 w = (inl e, w1) ->
     main parse_args args w =
     (inr tt, emit (error_line "structured file generation" e) w1)).
Proof.
  intros Hparse He. split.
  - intros N_files M_size_kb Hfc HN HM Hgen.
    rewrite (main_flat_unfold parse_args args w ns N_files M_size_kb Hparse Hfc HN HM).
    unfold run_simple_mode.
    erewrite try_except_caught; [reflexivity| |exact He].
    erewrite bind_err; [reflexivity|exact Hgen].
  - intros vn vm vk Hfc Hn Hm Hk Hvn Hvm Hvk Hgen.
    rewrite (main_structured_unfold parse_args args w ns vn vm vk
               Hparse Hfc Hn Hm Hk Hvn Hvm Hvk).
    unfold run_structured_mode.
    erewrite try_except_caught; [reflexivity| |exact He].
    erewrite bind_err; [reflexivity|exact Hgen].
Qed.

Lemma main_reports_generation_errors_witness :
  main (fun _ => ParseOk flat_namespace) None readonly_world =
    (inr tt,
     emit (error_line "simple file creation" (OSError "Read-only file system"))
          (emit (Stdout [Txt "Creating files in directory: "; Txt "out"])
                readonly_world)) /\
  main (fun _ => ParseOk structured_namespace) None readonly_world =
    (inr tt,
     emit (error_line "structured file generation" (OSError "Read-only file system"))
          (emit (Stdout [Txt "Creating structured directory: "; Txt "out"])
                readonly_world)).
Proof.
  split.
  - apply (proj1 (main_reports_generation_errors
                    (fun _ => ParseOk flat_namespace) None readonly_world
                    flat_namespace (OSError "Read-only file system") _
                    eq_refl eq_refl) 2 1);
      [reflexivity | lia | lia | reflexivity].
  - apply (proj2 (main_reports_generation_errors
                    (fun _ => ParseOk structured_namespace) None readonly_world
                    structured_namespace (OSError "Read-only file system") _
                    eq_refl eq_refl) 2 3 1);
      [reflexivity | reflexivity | reflexivity | reflexivity
      | lia | lia | lia | reflexivity].
Defined.

(** In the flat mode, with positive numbers and a root directory that can
    be made, [main] is the generator followed by the confirmation and,
    only with --stat, by the report of the counters the generator
    returned; it returns normally whatever files failed. *)
Theorem main_flat_mode (parse_args : list string -> Parsed)
    (args : option (list string)) (w : World) (ns : Namespace) (N_files M_size_kb : Z) :
  parse_args (effective_args args w) = ParseOk ns ->
  file_create ns = Some (N_files, M_size_kb) ->
  0 < N_files -> 0 < M_size_kb ->
  mkdir_faults w (directory ns) = None ->
  exists tf ts w1 w',
    create_files_simple (directory ns) N_files M_size_kb w =
      (inr (simple_stats tf ts), w1) /\
    main parse_args args w = (inr tt, w') /\
    trace w' = trace w1 ++
      finished_line "Created files" ns
      :: (if stat ns then simple_report tf ts else []).
Proof.
  intros Hparse Hfc HN HM Hdir.
  destruct (create_files_simple_run (directory ns) N_files M_size_kb w ltac:(lia) Hdir)
    as (outs & w1 & Hgen & _ & _).
  rewrite (main_flat_unfold parse_args args w ns N_files M_size_kb Hparse Hfc HN HM).
  unfold run_simple_mode.
  eexists _, _, w1. destruct (stat ns).
  - destruct (print_simple_statistics_run (n_written true true outs)
                (bytes_written true true outs)
                (emit (finished_line "Created files" ns) w1))
      as (w' & Hrep & Htrace & _).
    exists w'. split; [exact Hgen|]. split.
    + apply try_except_ok. step Hgen. step (print_run _ w1). exact Hrep.
    + rewrite Htrace. cbn [trace emit]. now rewrite <- app_assoc.
  - eexists. split; [exact Hgen|]. split.
    + apply try_except_ok. step Hgen. step (print_run _ w1). reflexivity.
    + reflexivity.
Qed.

Lemma main_flat_mode_witness :
  exists tf ts w1 w',
    create_files_simple "out" 2 1 rough_world = (inr (simple_stats tf ts), w1) /\
    main (fun _ => ParseOk flat_namespace) None rough_world = (inr tt, w') /\
    trace w' = trace w1 ++
      finished_line "Created files" flat_namespace :: simple_report tf ts.
Proof.
  apply (main_flat_mode (fun _ => ParseOk flat_namespace) None rough_world
           flat_namespace 2 1); [reflexivity | reflexivity | lia | lia | reflexivity].
Defined.

(** In the structured mode, with positive numbers and directories that can
    be made, [main] is the generator, called with the policy of the command
    line ('mix' when none is given) and the minimum size 100, followed by
    the confirmation and, only with --stat, by the report: the single line
    when no file was counted, the full report otherwise. *)
Theorem main_structured_mode (parse_args : list string -> Parsed)
    (args : option (list string)) (w : World) (ns : Namespace) (vn vm vk : Z) :
  parse_args (effective_args args w) = ParseOk ns ->
  file_create ns = None ->
  n ns = Some vn -> max_files ns = Some vm -> max_size_kb ns = Some vk ->
  0 < vn -> 0 < vm -> 0 < vk ->
  (forall p, mkdir_faults w p = None) ->
  exists tf bf xf ts bs xs w1 w',
    create_structured_files (directory ns) vn vm vk
      (file_type_or_mix (file_type ns)) 100 w =
      (inr (structured_stats tf bf xf ts bs xs), w1) /\
    main parse_args args w = (inr tt, w') /\
    trace w' = trace w1 ++
      finished_line "Structure created" ns
      :: (if stat ns
          then if tf =? 0
               then [Stdout [Txt (nl +:+ "No files were generated.")]]
               else structured_report tf bf xf ts bs xs
          else []).
Proof.
  intros Hparse Hfc Hn Hm Hk Hvn Hvm Hvk Hdirs.
  destruct (create_structured_files_run (directory ns) vn vm vk
              (file_type_or_mix (file_type ns)) 100 w Hdirs ltac:(lia) ltac:(lia) ltac:(lia))
    as (groups & w1 & Hgen & _ & _).
  unfold tally in Hgen.
  rewrite (main_structured_unfold parse_args args w ns vn vm vk
             Hparse Hfc Hn Hm Hk Hvn Hvm Hvk).
  unfold run_structured_mode.
  eexists _, _, _, _, _, _, w1. destruct (stat ns).
  - destruct (Z.eqb_spec (0 + n_written true true (all_outcomes groups)) 0) as [Hz|Hnz].
    + eexists. split; [exact Hgen|]. split.
      * apply try_except_ok. step Hgen. step (print_run _ w1).
        unfold print_structured_statistics.
        erewrite bind_ok; [|apply dict_get_run; reflexivity].
        rewrite Hz. reflexivity.
      * cbn [trace emit print snd]. now rewrite Hz, <- app_assoc.
    + destruct (print_structured_statistics_run
                  (0 + n_written true true (all_outcomes groups))
                  (0 + n_written true false (all_outcomes groups))
                  (0 + n_written false true (all_outcomes groups))
                  (0 + bytes_written true true (all_outcomes groups))
                  (0 + bytes_written true false (all_outcomes groups))
                  (0 + bytes_written false true (all_outcomes groups))
                  (emit (finished_line "Structure created" ns) w1) Hnz)
        as (w' & Hrep & Htrace).
      exists w'. split; [exact Hgen|]. split.
      * apply try_except_ok. step Hgen. step (print_run _ w1). exact Hrep.
      * rewrite Htrace. cbn [trace emit].
        destruct (Z.eqb_spec (0 + n_written true true (all_outcomes groups)) 0);
          [contradiction|]. now rewrite <- app_assoc.
  - eexists. split; [exact Hgen|]. split.
    + apply try_except_ok. step Hgen. step (print_run _ w1). reflexivity.
    + reflexivity.
Qed.

Lemma main_structured_mode_witness :
  exists tf bf xf ts bs xs w1 w',
    create_structured_files "out" 2 3 1 "mix" 100 rough_world =
      (inr (structured_stats tf bf xf ts bs xs), w1) /\
    main (fun _ => ParseOk structured_namespace) None rough_world = (inr tt, w') /\
    trace w' = trace w1 ++
      finished_line "Structure created" structured_namespace
      :: (if tf =? 0
          then [Stdout [Txt (nl +:+ "No files were generated.")]]
          else structured_report tf bf xf ts bs xs).
Proof.
  apply (main_structured_mode (fun _ => ParseOk structured_namespace) None rough_world
           structured_namespace 2 3 1);
    [reflexivity | reflexivity | reflexivity | reflexivity | reflexivity
    | lia | lia | lia | intros p; reflexivity].
Defined.

(** With --file-create, the options of the structured mode (-n, -m, -k and
    the file type) have no effect at all: two command lines that agree on
    the directory, on --file-create and on --stat run alike. *)
Theorem flat_mode_overrides_structure (ns ns' : Namespace)
    (args : option (list string)) (w : World) :
  file_create ns <> None ->
  directory ns = directory ns' ->
  file_create ns = file_create ns' ->
  stat ns = stat ns' ->
  main (fun _ => ParseOk ns) args w = main (fun _ => ParseOk ns') args w.
Proof.
  intros Hflat Hdir Hfc Hstat. unfold main.
  step (run_parser_ok (fun _ => ParseOk ns) args w ns eq_refl).
  step (run_parser_ok (fun _ => ParseOk ns') args w ns' eq_refl).
  rewrite <- Hfc. destruct (file_create ns) as [[N_files M_size_kb]|];
    [|contradiction].
  unfold run_simple_mode. now rewrite Hdir, Hstat.
Qed.

Lemma flat_mode_overrides_structure_witness :
  main (fun _ => ParseOk flat_namespace) None calm_world =
  main (fun _ => ParseOk flat_namespace_with_extras) None calm_world.
Proof.
  apply (flat_mode_overrides_structure flat_namespace flat_namespace_with_extras);
    [discriminate | reflexivity | reflexivity | reflexivity].
Defined.

(** ** Edges of the generators *)

Lemma py_range_empty a b : b <= a -> py_range a b = [].
Proof. intros H. unfold py_range. now replace (Z.to_nat (b - a)) with O by lia. Qed.

(** Asked for no file (or for a negative number of them), the flat mode
    still announces itself and makes the root directory; it draws nothing,
    opens no file and returns the two counters at 0. *)
Theorem create_files_simple_without_files (root_dir : string) (num_files size_kb : Z)
    (w : World) :
  num_files <= 0 ->
  mkdir_faults w root_dir = None ->
  create_files_simple root_dir num_files size_kb w =
  (inr (simple_stats 0 0),
   emit (Makedirs root_dir)
        (emit (Stdout [Txt "Creating files in directory: "; Txt root_dir]) w)).
Proof.
  intros Hn Hdir. unfold create_files_simple.
  step (print_run _ w).
  step (os_makedirs_ok root_dir
          (emit (Stdout [Txt "Creating files in directory: "; Txt root_dir]) w) Hdir).
  rewrite py_range_empty by lia. reflexivity.
Qed.

Lemma create_files_simple_without_files_witness :
  create_files_simple "out" 0 10 calm_world =
  (inr (simple_stats 0 0),
   emit (Makedirs "out")
        (emit (Stdout [Txt "Creating files in directory: "; Txt "out"]) calm_world)).
Proof.
  apply (create_files_simple_without_files "out" 0 10 calm_world); [lia|reflexivity].
Defined.

(** Asked for no subdirectory, the structured mode makes the root
    directory, warns about the minimum size if it is above the maximum, and
    returns the six counters at 0; [M] and the file type are not looked at,
    so that even an [M] that is not positive raises nothing. *)
Theorem create_structured_files_without_subdirs (root_dir : string) (N M K : Z)
    (file_type : string) (min_size_bytes : Z) (w : World) :
  N <= 0 ->
  mkdir_faults w root_dir = None ->
  exists w',
    create_structured_files root_dir N M K file_type min_size_bytes w =
    (inr (structured_stats 0 0 0 0 0 0), w') /\
    trace w' = trace w ++ structured_prelude root_dir min_size_bytes (K * 1024) /\
    drawn w' = drawn w /\ opened w' = opened w.
Proof.
  intros HN Hdir. unfold create_structured_files.
  step (print_run _ w).
  step (os_makedirs_ok root_dir
          (emit (Stdout [Txt "Creating structured directory: "; Txt root_dir]) w) Hdir).
  rewrite py_range_empty by lia. unfold clamp_min_size, structured_prelude.
  destruct (min_size_bytes >? K * 1024).
  - eexists. split; [reflexivity|]. cbn [trace emit drawn opened].
    rewrite <- !app_assoc. now repeat split.
  - eexists. split; [reflexivity|]. cbn [trace emit drawn opened].
    rewrite <- !app_assoc, app_nil_r. now repeat split.
Qed.

Lemma create_structured_files_without_subdirs_witness :
  exists w',
    create_structured_files "out" 0 0 1 "bin" 5000 calm_world =
    (inr (structured_stats 0 0 0 0 0 0), w') /\
    trace w' = trace calm_world ++ structured_prelude "out" 5000 (1 * 1024) /\
    drawn w' = drawn calm_world /\ opened w' = opened calm_world.
Proof.
  apply (create_structured_files_without_subdirs "out" 0 0 1 "bin" 5000 calm_world);
    [lia|reflexivity].
Defined.

(** When the root directory cannot be made, either generator raises the
    [OSError] of [os.makedirs] right after its announcement: it has drawn
    nothing and opened no file, and no statistics are returned. *)
Theorem generators_need_the_root (root_dir cause : string) (w : World) :
  mkdir_faults w root_dir = Some cause ->
  (forall num_files size_kb,
     create_files_simple root_dir num_files size_kb w =
     (inl (OSError cause),
      emit (Stdout [Txt "Creating files in directory: "; Txt root_dir]) w)) /\
  (forall N M K file_type min_size_bytes,
     create_structured_files root_dir N M K file_type min_size_bytes w =
     (inl (OSError cause),
      emit (Stdout [Txt "Creating structured directory: "; Txt root_dir]) w)).
Proof.
  intros Hdir. split.
  - intros num_files size_kb. unfold create_files_simple.
    step (print_run _ w). erewrite bind_err; [reflexivity|].
    now apply os_makedirs_failed.
  - intros N M K file_type min_size_bytes. unfold create_structured_files.
    step (print_run _ w). erewrite bind_err; [reflexivity|].
    now apply os_makedirs_failed.
Qed.

Lemma generators_need_the_root_witness :
  (forall num_files size_kb,
     create_files_simple "out" num_files size_kb readonly_world =
     (inl (OSError "Read-only file system"),
      emit (Stdout [Txt "Creating files in directory: "; Txt "out"]) readonly_world)) /\
  (forall N M K file_type min_size_bytes,
     create_structured_files "out" N M K file_type min_size_bytes readonly_world =
     (inl (OSError "Read-only file system"),
      emit (Stdout [Txt "Creating structured directory: "; Txt "out"]) readonly_world)).
Proof.
  apply (generators_need_the_root "out" "Read-only file system" readonly_world).
  reflexivity.
Defined.

Lemma clamp_min_size_exact min_size_bytes max_size_bytes w :
  clamp_min_size min_size_bytes max_size_bytes w =
  (inr (Z.min min_size_bytes max_size_bytes),
   if min_size_bytes >? max_size_bytes
   then emit (Stdout [Txt "Warning: Minimum size ("; Num min_size_bytes;
                      Txt "B) is larger than maximum ("; Num max_size_bytes;
                      Txt "B). Setting minimum to maximum."]) w
   else w).
Proof.
  unfold clamp_min_size. rewrite Z.gtb_ltb.
  destruct (Z.ltb_spec max_size_bytes min_size_bytes).
  - step (print_run _ w). unfold ret. now rewrite Z.min_r by lia.
  - unfold ret. now rewrite Z.min_l by lia.
Qed.

Lemma subdir_step_without_room root_dir file_type M lo hi i stats w :
  M <= 0 ->
  mkdir_faults w (subdir_path root_dir i) = None ->
  subdir_step root_dir file_type M lo hi i stats w =
  (inl (ValueError "empty range for randrange()"),
   emit (Stdout [Txt "  Created subdirectory: "; Txt ("subdir_" +:+ fmt_03d i)])
        (emit (Makedirs (subdir_path root_dir i)) w)).
Proof.
  intros HM Hdir. unfold subdir_step. fold (subdir_path root_dir i).
  step (os_makedirs_ok _ w Hdir). step (print_run _ _).
  erewrite bind_err; [reflexivity|]. apply random_randint_empty. lia.
Qed.

(** With at least one subdirectory to make and an [M] that is not
    positive, the structured mode raises the [ValueError] of
    [random.randint(1, M)]: the root directory and [subdir_001] have been
    made by then and stay, nothing was drawn and no file was opened. *)
Theorem create_structured_files_without_room (root_dir : string) (N M K : Z)
    (file_type : string) (min_size_bytes : Z) (w : World) :
  1 <= N -> M <= 0 ->
  (forall p, mkdir_faults w p = None) ->
  exists msg w',
    create_structured_files root_dir N M K file_type min_size_bytes w =
    (inl (ValueError msg), w') /\
    trace w' = trace w ++ structured_prelude root_dir min_size_bytes (K * 1024)
                       ++ [Makedirs (subdir_path root_dir 1);
                           Stdout [Txt "  Created subdirectory: "; Txt "subdir_001"]] /\
    drawn w' = drawn w /\ opened w' = opened w.
Proof.
  intros HN HM Hdirs. unfold create_structured_files.
  step (print_run _ w).
  step (os_makedirs_ok root_dir
          (emit (Stdout [Txt "Creating structured directory: "; Txt root_dir]) w)
          (Hdirs root_dir)).
  step (clamp_min_size_exact min_size_bytes (K * 1024) _).
  rewrite py_range_cons by lia. cbn [for_each].
  eexists _, _. split.
  - erewrite bind_err; [reflexivity|]. erewrite bind_err; [reflexivity|].
    apply subdir_step_without_room; [exact HM|].
    destruct (min_size_bytes >? K * 1024); apply Hdirs.
  - unfold structured_prelude.
    destruct (min_size_bytes >? K * 1024); cbn [trace emit drawn opened];
      rewrite <- ?app_assoc; now repeat split.
Qed.

Lemma create_structured_files_without_room_witness :
  exists msg w',
    create_structured_files "out" 3 0 1 "mix" 100 calm_world =
    (inl (ValueError msg), w') /\
    trace w' = trace calm_world ++ structured_prelude "out" 100 (1 * 1024)
                       ++ [Makedirs (subdir_path "out" 1);
                           Stdout [Txt "  Created subdirectory: "; Txt "subdir_001"]] /\
    drawn w' = drawn calm_world /\ opened w' = opened calm_world.
Proof.
  apply (create_structured_files_without_room "out" 3 0 1 "mix" 100 calm_world);
    [lia | lia | intros p; reflexivity].
Defined.



(** ** Every sequence can be drawn *)

Lemma byte_of_draw_to_nat b : byte_of_draw (Byte.to_nat b) = b.
Proof. destruct b; reflexivity. Qed.

Lemma map_nth_seq {A} (f : nat -> A) (l : list A) (d : A) :
  (forall k, (k < length l)%nat -> f k = nth k l d) ->
  map f (seq 0 (length l)) = l.
Proof.
  revert f. induction l as [|x l IH]; intros f Hf; [reflexivity|].
  cbn [length seq map]. f_equal.
  - apply (Hf O). cbn. lia.
  - rewrite <- seq_shift, map_map. apply IH. intros k Hk.
    apply (Hf (S k)). cbn. lia.
Qed.

Lemma index_of_nth b l d : In b l -> nth (index_of b l) l d = b.
Proof.
  induction l as [|c l IH]; [contradiction|]. intros Hin. cbn [index_of].
  destruct (Byte.eqb b c) eqn:E.
  - apply Byte.byte_dec_bl in E. now subst.
  - cbn [nth]. apply IH. destruct Hin as [<-|Hin]; [|exact Hin].
    assert (Byte.eqb c c = true) by (apply Byte.byte_dec_lb; reflexivity).
    congruence.
Qed.

Lemma index_of_bound b l : In b l -> (index_of b l < length l)%nat.
Proof.
  induction l as [|c l IH]; [contradiction|]. intros Hin. cbn [index_of length].
  destruct (Byte.eqb b c) eqn:E; [lia|].
  apply Nat.succ_lt_mono in IH; [exact IH|].
  destruct Hin as [<-|Hin]; [|exact Hin].
  assert (Byte.eqb c c = true) by (apply Byte.byte_dec_lb; reflexivity).
  congruence.
Qed.

(** The generator is onto: every sequence of bytes is the binary data of
    some draws, and every sequence of symbols of the alphabet is the text of
    some draws, so that neither mode is confined to a part of its range. *)
Theorem every_data_can_be_drawn (bs : list byte) :
  fst (generate_random_data (Z.of_nat (length bs)) true (world_of_bytes bs)) = inr bs /\
  (Forall (fun b => In b alphabet) bs ->
   fst (generate_random_data (Z.of_nat (length bs)) false (world_of_text bs)) = inr bs).
Proof.
  split.
  - rewrite generate_random_data_run by lia. cbn [fst]. f_equal.
    rewrite Nat2Z.id. apply (map_nth_seq _ bs x00). intros k _.
    cbn [entropy drawn world_of_bytes Nat.add]. apply byte_of_draw_to_nat.
  - intros Hall. rewrite generate_random_data_run by lia. cbn [fst]. f_equal.
    rewrite Nat2Z.id. apply (map_nth_seq _ bs x00). intros k Hk.
    cbn [entropy drawn world_of_text Nat.add].
    assert (Hin : In (nth k bs x00) alphabet).
    { rewrite List.Forall_forall in Hall. apply Hall. now apply nth_In. }
    rewrite Nat.mod_small.
    + now apply index_of_nth.
    + pose proof (index_of_bound _ _ Hin) as Hb. now rewrite alphabet_length in Hb.
Qed.

Lemma every_data_can_be_drawn_witness :
  fst (generate_random_data 2 false (world_of_text [x48; x69])) = inr [x48; x69].
Proof.
  apply (proj2 (every_data_can_be_drawn [x48; x69])).
  apply List.Forall_forall. intros b [<-|[<-|[]]]; apply alphabet_classes; reflexivity.
Defined.

(** ** Names of files *)

Lemma list_ascii_of_string_app a b :
  list_ascii_of_string (a +:+ b) = list_ascii_of_string a ++ list_ascii_of_string b.
Proof. induction a as [|c a IH]; [reflexivity|]. simpl. f_equal. exact IH. Qed.

Lemma list_ascii_of_string_inj a b :
  list_ascii_of_string a = list_ascii_of_string b -> a = b.
Proof.
  intros H. rewrite <- (string_of_list_ascii_of_string a),
                    <- (string_of_list_ascii_of_string b). now rewrite H.
Qed.

Lemma append_inj_r a b s : a +:+ s = b +:+ s -> a = b.
Proof.
  intros H. apply list_ascii_of_string_inj.
  apply (f_equal list_ascii_of_string) in H.
  rewrite !list_ascii_of_string_app in H. now apply app_inv_tail in H.
Qed.

Lemma fixed_file_name_inj i j :
  0 <= i -> 0 <= j -> fixed_file_name i = fixed_file_name j -> i = j.
Proof.
  intros Hi Hj Heq. unfold fixed_file_name in Heq.
  apply String.app_inj, append_inj_r in Heq. now apply fmt_03d_inj.
Qed.

Lemma structured_file_name_inj j b j' b' :
  0 <= j -> 0 <= j' ->
  structured_file_name j b = structured_file_name j' b' -> j = j' /\ b = b'.
Proof.
  intros Hj Hj' Heq. unfold structured_file_name in Heq.
  apply String.app_inj in Heq.
  assert (Hb : b = b').
  { apply (f_equal list_ascii_of_string) in Heq.
    rewrite !list_ascii_of_string_app in Heq.
    apply (f_equal (@rev ascii)) in Heq. rewrite !rev_app_distr in Heq.
    destruct b, b'; cbn in Heq; try reflexivity; discriminate. }
  subst b'. split; [|reflexivity].
  apply append_inj_r in Heq. now apply fmt_03d_inj.
Qed.

(** A name that does not start with the separator is joined to the
    directory as it is, and can be read off the path again. *)
Lemma os_path_join_cancel dir c a b :
  c <> "/"%char ->
  os_path_join dir (String c a) = os_path_join dir (String c b) -> a = b.
Proof.
  intros Hc. unfold os_path_join.
  destruct (Ascii.eqb_spec c "/"%char) as [->|_]; [contradiction|].
  assert (Hm : forall x, match String c x with
                         | String "/"%char _ => String c x
                         | _ => if (String.eqb dir "" || ends_with_sep dir)%bool
                                then dir +:+ String c x
                                else dir +:+ "/" +:+ String c x
                         end =
                         if (String.eqb dir "" || ends_with_sep dir)%bool
                         then dir +:+ String c x
                         else dir +:+ "/" +:+ String c x).
  { intros x. destruct c as [[] [] [] [] [] [] [] []]; try reflexivity.
    now contradiction Hc. }
  rewrite !Hm. destruct (String.eqb dir "" || ends_with_sep dir)%bool; intros Heq.
  - apply String.app_inj in Heq. now injection Heq.
  - apply String.app_inj in Heq. cbn [String.append] in Heq. now injection Heq.
Qed.

Lemma fixed_file_path_inj root_dir i j :
  0 <= i -> 0 <= j ->
  os_path_join root_dir (fixed_file_name i) = os_path_join root_dir (fixed_file_name j) ->
  i = j.
Proof.
  intros Hi Hj Heq. apply fixed_file_name_inj; [exact Hi|exact Hj|].
  unfold fixed_file_name in *. cbn [String.append] in *.
  apply os_path_join_cancel in Heq; [|discriminate]. congruence.
Qed.

Lemma structured_file_path_inj subdir j b j' b' :
  0 <= j -> 0 <= j' ->
  os_path_join subdir (structured_file_name j b) =
  os_path_join subdir (structured_file_name j' b') ->
  j = j' /\ b = b'.
Proof.
  intros Hj Hj' Heq. apply structured_file_name_inj; [exact Hj|exact Hj'|].
  unfold structured_file_name in *. cbn [String.append] in *.
  apply os_path_join_cancel in Heq; [|discriminate]. congruence.
Qed.

(** ** The files a run attempts *)

Lemma attempted_paths_app a b :
  attempted_paths (a ++ b) = attempted_paths a ++ attempted_paths b.
Proof. apply flat_map_app. Qed.

Lemma attempted_paths_outcomes (ev : Outcome -> list Event) outs :
  (forall name path b data,
     exists line, ev (Written name path b data) = [Wrote path data; Stdout line]) ->
  (forall name path cause,
     exists lead, ev (Failed name path cause) =
       [WriteFailed path cause; Stdout [Txt lead; Txt name; Txt ": "; Txt cause]]) ->
  attempted_paths (flat_map ev outs) = map outcome_path outs.
Proof.
  intros Hw Hf.
  induction outs as [|[name path b data|name path cause] outs IH];
    [reflexivity| |]; cbn [flat_map map]; rewrite attempted_paths_app, IH.
  - destruct (Hw name path b data) as (line & ->). reflexivity.
  - destruct (Hf name path cause) as (lead & ->). reflexivity.
Qed.

Lemma simple_outcome_paths root_dir size faults indices outs :
  Forall2 (simple_outcome_ok root_dir size faults) indices outs ->
  map outcome_path outs =
  map (fun i => os_path_join root_dir (fixed_file_name i)) indices.
Proof.
  induction 1 as [|i o indices outs (Hname & Hpath & _) _ IH]; [reflexivity|].
  cbn [map]. rewrite IH, Hpath, Hname. reflexivity.
Qed.

Lemma fixed_file_paths_NoDup root_dir num_files :
  List.NoDup (map (fun i => os_path_join root_dir (fixed_file_name i))
                  (py_range 1 (num_files + 1))).
Proof.
  apply NoDup_map_NoDup_ForallPairs; [|apply py_range_NoDup].
  intros i j Hi Hj. apply py_range_In in Hi, Hj. apply fixed_file_path_inj; lia.
Qed.

(** The flat mode, for a size that is not negative and a root directory
    that can be made, tries to write the files [fixed_file_<i>.bin] for
    [i = 1, ..., num_files], each once and in this order, whether earlier
    ones failed or not; no two of them share a path, also beyond 999. *)
Theorem flat_mode_attempts (root_dir : string) (num_files size_kb : Z) (w : World) :
  0 <= size_kb ->
  mkdir_faults w root_dir = None ->
  exists stats w' new,
    create_files_simple root_dir num_files size_kb w = (inr stats, w') /\
    trace w' = trace w ++ new /\
    attempted_paths new =
      map (fun i => os_path_join root_dir (fixed_file_name i))
          (py_range 1 (num_files + 1)) /\
    List.NoDup (attempted_paths new).
Proof.
  intros Hsize Hdir.
  destruct (create_files_simple_run root_dir num_files size_kb w Hsize Hdir)
    as (outs & w' & Hrun & (_ & Htrace & _) & Hoks).
  eexists _, w', _. split; [exact Hrun|]. split; [exact Htrace|].
  assert (Hpaths : attempted_paths
            ([Stdout [Txt "Creating files in directory: "; Txt root_dir];
              Makedirs root_dir] ++ flat_map simple_events outs) =
            map (fun i => os_path_join root_dir (fixed_file_name i))
                (py_range 1 (num_files + 1))).
  { rewrite attempted_paths_app. cbn [attempted_paths flat_map app].
    fold (attempted_paths (flat_map simple_events outs)).
    rewrite (attempted_paths_outcomes _ _ simple_events_written simple_events_failed).
    exact (simple_outcome_paths _ _ _ _ _ Hoks). }
  split; [exact Hpaths|]. rewrite Hpaths. apply fixed_file_paths_NoDup.
Qed.

Lemma flat_mode_attempts_witness :
  exists stats w' new,
    create_files_simple "out" 1200 0 rough_world = (inr stats, w') /\
    trace w' = trace rough_world ++ new /\
    attempted_paths new =
      map (fun i => os_path_join "out" (fixed_file_name i)) (py_range 1 (1200 + 1)) /\
    List.NoDup (attempted_paths new).
Proof.
  apply (flat_mode_attempts "out" 1200 0 rough_world); [lia|reflexivity].
Defined.

(** ** The files on the disk *)

Lemma disk_snoc evs e :
  disk (evs ++ [e]) =
  match e with
  | Wrote p d => <[p := d]> (disk evs)
  | _ => disk evs
  end.
Proof. unfold disk. rewrite fold_left_app. reflexivity. Qed.

Lemma disk_untouched evs new p :
  ~ In p (map fst (files_written new)) ->
  disk (evs ++ new) !! p = disk evs !! p.
Proof.
  induction new as [|e new IH] using rev_ind; intros Hp.
  - now rewrite app_nil_r.
  - rewrite app_assoc, disk_snoc.
    rewrite files_written_app, map_app in Hp.
    assert (Hp1 : ~ In p (map fst (files_written new))).
    { intros H. apply Hp, in_or_app. now left. }
    destruct e as [q|q d|q c|l|l]; try (now apply IH).
    rewrite lookup_insert_ne; [now apply IH|].
    intros ->. apply Hp, in_or_app. right. now left.
Qed.

Lemma disk_written (Q : list byte -> Prop) evs new p :
  Forall (fun f => Q (snd f)) (files_written new) ->
  In p (map fst (files_written new)) ->
  exists d, disk (evs ++ new) !! p = Some d /\ Q d.
Proof.
  induction new as [|e new IH] using rev_ind; intros HQ Hp; [contradiction|].
  rewrite app_assoc, disk_snoc.
  rewrite files_written_app in HQ, Hp. apply Forall_app in HQ as (HQ1 & HQ2).
  rewrite map_app in Hp. apply in_app_or in Hp.
  destruct e as [q|q d|q c|l|l];
    try (destruct Hp as [Hp|[]]; now apply IH).
  destruct (String.eqb_spec q p) as [->|Hne].
  - exists d. rewrite lookup_insert_eq. split; [reflexivity|].
    now apply Forall_inv in HQ2.
  - rewrite lookup_insert_ne by exact Hne.
    destruct Hp as [Hp|[Hp|[]]]; [now apply IH|contradiction].
Qed.

Lemma dom_disk_app evs new :
  dom (disk (evs ++ new)) =
  dom (disk evs) ∪ list_to_set (map fst (files_written new)).
Proof.
  induction new as [|e new IH] using rev_ind.
  - rewrite app_nil_r. cbn. now rewrite union_empty_r_L.
  - rewrite app_assoc, disk_snoc, files_written_app, map_app, list_to_set_app_L.
    destruct e as [q|q d|q c|l|l]; cbn [files_written flat_map app map list_to_set];
      rewrite ?dom_insert_L, IH, ?union_empty_r_L; try reflexivity.
    rewrite (union_comm_L {[q]} _). now rewrite union_assoc_L.
Qed.

Lemma simple_written_paths root_dir size faults indices outs :
  Forall2 (simple_outcome_ok root_dir size faults) indices outs ->
  (forall k p, faults k p = None) ->
  map fst (written_files outs) =
  map (fun i => os_path_join root_dir (fixed_file_name i)) indices.
Proof.
  intros Hoks Hcalm.
  induction Hoks as [|i o indices outs (Hname & Hpath & Hrest) _ IH]; [reflexivity|].
  destruct o as [name path b data|name path cause].
  - unfold written_files in *. cbn [flat_map app map fst].
    cbn [outcome_name outcome_path] in *. rewrite IH, Hpath, Hname. reflexivity.
  - destruct Hrest as (k & Hk). rewrite Hcalm in Hk. discriminate.
Qed.

Lemma simple_events_keep_away root_dir num_files size_kb new p :
  Forall (simple_event_ok root_dir num_files size_kb) new ->
  (forall i, 1 <= i <= num_files -> p <> os_path_join root_dir (fixed_file_name i)) ->
  ~ In p (map fst (files_written new)).
Proof.
  intros Hok Hp. induction Hok as [|e new He _ IH]; [intros []|].
  change (e :: new) with ([e] ++ new). rewrite files_written_app, map_app.
  intros Hin. apply in_app_or in Hin as [Hin|Hin]; [|now apply IH].
  destruct e as [q|q d|q c|l|l]; try contradiction.
  destruct Hin as [<-|[]]. destruct He as ((i & Hi & Hq) & _).
  now apply (Hp i Hi).
Qed.

(** Whatever its arguments and the surroundings, the flat mode writes no
    file but its own: a path that is not [fixed_file_<i>.bin] of the root
    for an [i] of [1..num_files] holds after the run what it held before. *)
Theorem flat_mode_keeps_other_files (root_dir : string) (num_files size_kb : Z)
    (w : World) (p : string) :
  (forall i, 1 <= i <= num_files -> p <> os_path_join root_dir (fixed_file_name i)) ->
  disk (trace (snd (create_files_simple root_dir num_files size_kb w))) !! p =
  disk (trace w) !! p.
Proof.
  intros Hp.
  destruct (yields_create_files_simple root_dir num_files size_kb w)
    as (new & -> & Hok & _).
  apply disk_untouched. now apply (simple_events_keep_away root_dir num_files size_kb).
Qed.

Lemma flat_mode_keeps_other_files_witness :
  disk (trace (snd (create_files_simple "out" 2 1 rough_world))) !! "out/notes.txt" =
  disk (trace rough_world) !! "out/notes.txt".
Proof.
  apply (flat_mode_keeps_other_files "out" 2 1 rough_world "out/notes.txt").
  intros i Hi. assert (i = 1 \/ i = 2) as [-> | ->] by lia; discriminate.
Defined.

Lemma files_written_simple_run root_dir outs :
  files_written ([Stdout [Txt "Creating files in directory: "; Txt root_dir];
                  Makedirs root_dir] ++ flat_map simple_events outs) =
  written_files outs.
Proof.
  rewrite files_written_app.
  apply (files_written_outcomes _ simple_events_written simple_events_failed).
Qed.

(** The names on the disk after a run of the flat mode without failures. *)
Lemma simple_run_dom root_dir size faults num_files outs evs :
  Forall2 (simple_outcome_ok root_dir size faults) (py_range 1 (num_files + 1)) outs ->
  (forall k p, faults k p = None) ->
  dom (disk (evs ++ [Stdout [Txt "Creating files in directory: "; Txt root_dir];
                     Makedirs root_dir] ++ flat_map simple_events outs)) =
  dom (disk evs)
  ∪ list_to_set (map (fun i => os_path_join root_dir (fixed_file_name i))
                     (py_range 1 (num_files + 1))).
Proof.
  intros Hoks Hcalm.
  now rewrite dom_disk_app, files_written_simple_run,
              (simple_written_paths _ _ _ _ _ Hoks Hcalm).
Qed.

(** Without write failures, after a run of the flat mode every one of
    [fixed_file_001.bin] ... is on the disk with exactly [size_kb * 1024]
    bytes, and the names on the disk are those of before and these. *)
Theorem flat_mode_on_disk (root_dir : string) (num_files size_kb : Z) (w : World) :
  0 <= size_kb ->
  mkdir_faults w root_dir = None ->
  (forall k p, io_faults w k p = None) ->
  exists stats w',
    create_files_simple root_dir num_files size_kb w = (inr stats, w') /\
    (forall i, 1 <= i <= num_files ->
       exists d, disk (trace w') !! os_path_join root_dir (fixed_file_name i) = Some d /\
                 Z.of_nat (length d) = size_kb * 1024) /\
    dom (disk (trace w')) =
      dom (disk (trace w))
      ∪ list_to_set (map (fun i => os_path_join root_dir (fixed_file_name i))
                         (py_range 1 (num_files + 1))).
Proof.
  intros Hsize Hdir Hcalm.
  destruct (create_files_simple_run root_dir num_files size_kb w Hsize Hdir)
    as (outs & w' & Hrun & (_ & Htrace & _) & Hoks).
  eexists _, w'. split; [exact Hrun|]. rewrite Htrace.
  split; [|exact (simple_run_dom _ _ _ _ _ _ Hoks Hcalm)].
  intros i Hi.
  apply (disk_written (fun d => Z.of_nat (length d) = size_kb * 1024)).
  - rewrite files_written_simple_run.
    eapply List.Forall_impl; [|exact (simple_outcomes_files _ _ _ _ _ Hoks)].
    intros f (Hf & _). exact Hf.
  - rewrite files_written_simple_run, (simple_written_paths _ _ _ _ _ Hoks Hcalm).
    apply (in_map (fun i => os_path_join root_dir (fixed_file_name i))).
    apply py_range_In. lia.
Qed.

Lemma flat_mode_on_disk_witness :
  exists stats w',
    create_files_simple "out" 5 10 calm_world = (inr stats, w') /\
    (forall i, 1 <= i <= 5 ->
       exists d, disk (trace w') !! os_path_join "out" (fixed_file_name i) = Some d /\
                 Z.of_nat (length d) = 10 * 1024) /\
    dom (disk (trace w')) =
      dom (disk (trace calm_world))
      ∪ list_to_set (map (fun i => os_path_join "out" (fixed_file_name i))
                         (py_range 1 (5 + 1))).
Proof.
  apply (flat_mode_on_disk "out" 5 10 calm_world);
    [lia | reflexivity | intros k p; reflexivity].
Defined.

(** Running the flat mode a second time with the same arguments, without
    write failures, replaces the files of the first run: the names on the
    disk are the same as after the first run, and both runs return the same
    counters. *)
Theorem flat_mode_twice (root_dir : string) (num_files size_kb : Z) (w : World) :
  0 <= size_kb ->
  mkdir_faults w root_dir = None ->
  (forall k p, io_faults w k p = None) ->
  exists stats w1 w2,
    create_files_simple root_dir num_files size_kb w = (inr stats, w1) /\
    create_files_simple root_dir num_files size_kb w1 = (inr stats, w2) /\
    dom (disk (trace w2)) = dom (disk (trace w1)).
Proof.
  intros Hsize Hdir Hcalm.
  destruct (create_files_simple_run root_dir num_files size_kb w Hsize Hdir)
    as (outs1 & w1 & Hrun1 & ((_ & Hf1 & Hm1 & _) & Htrace1 & _) & Hoks1).
  assert (Hdir1 : mkdir_faults w1 root_dir = None) by now rewrite Hm1.
  destruct (create_files_simple_run root_dir num_files size_kb w1 Hsize Hdir1)
    as (outs2 & w2 & Hrun2 & (_ & Htrace2 & _) & Hoks2).
  rewrite Hf1 in Hoks2.
  exists (simple_stats (n_written true true outs1) (bytes_written true true outs1)), w1, w2.
  split; [exact Hrun1|]. split.
  - rewrite Hrun2. f_equal. f_equal.
    rewrite (simple_outcomes_bytes _ _ _ _ _ Hoks1), (simple_outcomes_bytes _ _ _ _ _ Hoks2).
    now rewrite (simple_outcomes_calm _ _ _ _ _ Hoks1 Hcalm),
                (simple_outcomes_calm _ _ _ _ _ Hoks2 Hcalm).
  - rewrite Htrace2, (simple_run_dom _ _ _ _ _ _ Hoks2 Hcalm).
    rewrite Htrace1, (simple_run_dom _ _ _ _ _ _ Hoks1 Hcalm).
    rewrite <- union_assoc_L. now rewrite union_idemp_L.
Qed.

Lemma flat_mode_twice_witness :
  exists stats w1 w2,
    create_files_simple "out" 5 10 calm_world = (inr stats, w1) /\
    create_files_simple "out" 5 10 w1 = (inr stats, w2) /\
    dom (disk (trace w2)) = dom (disk (trace w1)).
Proof.
  apply (flat_mode_twice "out" 5 10 calm_world);
    [lia | reflexivity | intros k p; reflexivity].
Defined.

(** ** The paths of the structured mode *)

Lemma string_of_uint_no_sep d :
  Forall (fun c => c <> "/"%char) (list_ascii_of_string (NilEmpty.string_of_uint d)).
Proof. induction d; cbn; constructor; try discriminate; assumption. Qed.

Lemma nb_digits_iter k d :
  Decimal.nb_digits (Nat.iter k Decimal.D0 d) = (k + Decimal.nb_digits d)%nat.
Proof.
  induction k as [|k IH]; [reflexivity|].
  rewrite Nat.iter_succ. cbn [Decimal.nb_digits]. rewrite IH. reflexivity.
Qed.

Lemma string_of_uint_length d :
  String.length (NilEmpty.string_of_uint d) = Decimal.nb_digits d.
Proof. induction d; cbn; congruence. Qed.

Lemma fmt_03d_no_sep i :
  0 <= i -> Forall (fun c => c <> "/"%char) (list_ascii_of_string (fmt_03d i)).
Proof.
  intros Hi. unfold fmt_03d. destruct (Z.ltb_spec i 0); [lia|].
  apply string_of_uint_no_sep.
Qed.

Lemma fmt_03d_not_empty i : 0 <= i -> fmt_03d i <> "".
Proof.
  intros Hi Heq. apply (f_equal String.length) in Heq. revert Heq.
  unfold fmt_03d. destruct (Z.ltb_spec i 0); [lia|].
  rewrite string_of_uint_length. unfold zero_pad. rewrite nb_digits_iter.
  cbn [String.length]. lia.
Qed.

Lemma ends_with_sep_app x y :
  y <> "" -> Forall (fun c => c <> "/"%char) (list_ascii_of_string y) ->
  ends_with_sep (x +:+ y) = false.
Proof.
  intros Hy Hall. unfold ends_with_sep.
  rewrite list_ascii_of_string_app, rev_app_distr.
  destruct (rev (list_ascii_of_string y)) as [|c l] eqn:E.
  - exfalso. apply Hy, list_ascii_of_string_inj.
    apply (f_equal (@rev ascii)) in E. now rewrite rev_involutive in E.
  - cbn [app]. destruct (Ascii.eqb_spec c "/"%char) as [->|]; [|reflexivity].
    exfalso. rewrite List.Forall_forall in Hall. apply (Hall "/"%char); [|reflexivity].
    apply in_rev. rewrite E. now left.
Qed.

Lemma string_app_assoc a b c : (a +:+ b) +:+ c = a +:+ (b +:+ c).
Proof.
  apply list_ascii_of_string_inj. rewrite !list_ascii_of_string_app.
  symmetry. apply app_assoc.
Qed.

Lemma string_app_not_empty a b : b <> "" -> a +:+ b <> "".
Proof. intros Hb. destruct a; [exact Hb|discriminate]. Qed.

(** What comes before the name of a subdirectory in its path. *)
Lemma subdir_path_shape root_dir :
  exists pre, forall i, subdir_path root_dir i = pre +:+ ("subdir_" +:+ fmt_03d i).
Proof.
  unfold subdir_path, os_path_join.
  destruct (String.eqb root_dir "" || ends_with_sep root_dir)%bool.
  - exists root_dir. reflexivity.
  - exists (root_dir +:+ "/"). intros i. cbn [String.append].
    rewrite string_app_assoc. reflexivity.
Qed.

Lemma structured_file_path_shape root_dir :
  exists pre, forall i j b,
    0 <= i ->
    os_path_join (subdir_path root_dir i) (structured_file_name j b) =
    pre +:+ ("subdir_" +:+ (fmt_03d i +:+ ("/" +:+ structured_file_name j b))).
Proof.
  destruct (subdir_path_shape root_dir) as (pre & Hpre). exists pre.
  intros i j b Hi. rewrite Hpre.
  assert (Hsep : ends_with_sep (pre +:+ ("subdir_" +:+ fmt_03d i)) = false).
  { rewrite <- string_app_assoc.
    apply ends_with_sep_app; [now apply fmt_03d_not_empty|now apply fmt_03d_no_sep]. }
  assert (Hne : String.eqb (pre +:+ ("subdir_" +:+ fmt_03d i)) "" = false).
  { apply String.eqb_neq, string_app_not_empty. discriminate. }
  unfold os_path_join, structured_file_name. cbn [String.append].
  cbn [String.append] in Hsep, Hne. rewrite Hsep, Hne. cbn [orb].
  change (String "s" (String "u" (String "b" (String "d" (String "i" (String "r"
            (String "_" (fmt_03d i))))))))
    with ("subdir_" +:+ fmt_03d i).
  rewrite !string_app_assoc. reflexivity.
Qed.

Lemma split_at_sep (l1 l2 r1 r2 : list ascii) :
  Forall (fun c => c <> "/"%char) l1 -> Forall (fun c => c <> "/"%char) l2 ->
  l1 ++ "/"%char :: r1 = l2 ++ "/"%char :: r2 -> l1 = l2 /\ r1 = r2.
Proof.
  intros H1. revert l2. induction H1 as [|c l1 Hc _ IH]; intros l2 H2 Heq.
  - destruct H2 as [|c' l2 Hc' _]; cbn in Heq.
    + injection Heq as ->. now split.
    + injection Heq as Hcc _. now subst c'.
  - destruct H2 as [|c' l2 Hc' H2]; cbn in Heq.
    + injection Heq as -> _. contradiction.
    + injection Heq as -> Heq. destruct (IH l2 H2 Heq) as (-> & ->). now split.
Qed.

Lemma structured_paths_inj root_dir i j b i' j' b' :
  0 <= i -> 0 <= i' -> 0 <= j -> 0 <= j' ->
  os_path_join (subdir_path root_dir i) (structured_file_name j b) =
  os_path_join (subdir_path root_dir i') (structured_file_name j' b') ->
  i = i' /\ j = j' /\ b = b'.
Proof.
  intros Hi Hi' Hj Hj' Heq.
  destruct (structured_file_path_shape root_dir) as (pre & Hshape).
  rewrite !Hshape in Heq by assumption.
  apply String.app_inj, String.app_inj in Heq.
  apply (f_equal list_ascii_of_string) in Heq.
  rewrite !list_ascii_of_string_app in Heq.
  change (list_ascii_of_string ("/" +:+ structured_file_name j b))
    with ("/"%char :: list_ascii_of_string (structured_file_name j b)) in Heq.
  change (list_ascii_of_string ("/" +:+ structured_file_name j' b'))
    with ("/"%char :: list_ascii_of_string (structured_file_name j' b')) in Heq.
  apply split_at_sep in Heq as (Hfmt & Hname);
    [|now apply fmt_03d_no_sep|now apply fmt_03d_no_sep].
  apply list_ascii_of_string_inj in Hfmt, Hname.
  split; [now apply fmt_03d_inj|]. now apply structured_file_name_inj.
Qed.

(** ** The files of the structured mode *)

Lemma structured_events_keep_away root_dir N M lo hi file_type new p :
  Forall (structured_event_ok root_dir N M lo hi file_type) new ->
  (forall i j b, 1 <= i <= N -> 1 <= j <= M ->
     p <> os_path_join (subdir_path root_dir i) (structured_file_name j b)) ->
  ~ In p (map fst (files_written new)).
Proof.
  intros Hok Hp. induction Hok as [|e new He _ IH]; [intros []|].
  change (e :: new) with ([e] ++ new). rewrite files_written_app, map_app.
  intros Hin. apply in_app_or in Hin as [Hin|Hin]; [|now apply IH].
  destruct e as [q|q d|q c|l|l]; try contradiction.
  destruct Hin as [<-|[]]. destruct He as (i & j & b & size & Hi & Hj & Hq & _).
  now apply (Hp i j b Hi Hj).
Qed.

Lemma group_paths sp file_type lo hi faults js outs :
  Forall2 (structured_outcome_ok sp file_type lo hi faults) js outs ->
  List.NoDup js -> (forall j, In j js -> 0 <= j) ->
  List.NoDup (map outcome_path outs) /\
  forall p, In p (map outcome_path outs) ->
    exists j b, In j js /\ p = os_path_join sp (structured_file_name j b).
Proof.
  induction 1 as [|j o js outs Ho _ IH]; intros Hnd Hpos.
  - split; [constructor|intros p []].
  - apply List.NoDup_cons_iff in Hnd as (Hj & Hnd).
    destruct IH as (IHnd & IHin); [exact Hnd|intros; apply Hpos; now right|].
    assert (Hhead : exists b, outcome_path o = os_path_join sp (structured_file_name j b)).
    { destruct Ho as (Hpath & Hrest). rewrite Hpath.
      destruct o as [name path b data|name path cause]; cbn [outcome_name].
      - destruct Hrest as (-> & _). now exists b.
      - destruct Hrest as ([-> | ->] & _); [now exists true|now exists false]. }
    destruct Hhead as (b & Hhead). cbn [map]. split.
    + constructor; [|exact IHnd]. intros Hin.
      destruct (IHin _ Hin) as (j' & b' & Hj' & Heq). rewrite Hhead in Heq.
      apply structured_file_path_inj in Heq as (-> & _);
        [contradiction|apply Hpos; now left|apply Hpos; now right].
    + intros p [<-|Hin].
      * exists j, b. split; [now left|exact Hhead].
      * destruct (IHin _ Hin) as (j' & b' & Hj' & Heq). exists j', b'.
        split; [now right|exact Heq].
Qed.

Lemma groups_paths root_dir file_type M lo hi faults indices groups :
  Forall2 (subdir_ok root_dir file_type M lo hi faults) indices groups ->
  List.NoDup indices -> (forall i, In i indices -> 0 <= i) ->
  List.NoDup (map outcome_path (all_outcomes groups)) /\
  forall p, In p (map outcome_path (all_outcomes groups)) ->
    exists i j b, In i indices /\ 0 <= j /\
      p = os_path_join (subdir_path root_dir i) (structured_file_name j b).
Proof.
  induction 1 as [|i g indices groups (Hfst & Hlen & Hg) _ IH]; intros Hnd Hpos.
  - split; [constructor|intros p []].
  - apply List.NoDup_cons_iff in Hnd as (Hi & Hnd).
    destruct IH as (IHnd & IHin); [exact Hnd|intros; apply Hpos; now right|].
    destruct g as [i0 outs]. cbn [fst snd] in Hfst, Hlen, Hg. subst i0.
    destruct (group_paths _ _ _ _ _ _ _ Hg) as (Hgnd & Hgin).
    { apply py_range_NoDup. }
    { intros j Hj. apply py_range_In in Hj. lia. }
    rewrite all_outcomes_cons, map_app. split.
    + apply List.NoDup_app; [exact Hgnd|exact IHnd|].
      intros p Hp1 Hp2.
      destruct (Hgin _ Hp1) as (j & b & Hj & ->).
      destruct (IHin _ Hp2) as (i' & j' & b' & Hi' & Hj' & Heq).
      apply py_range_In in Hj.
      apply structured_paths_inj in Heq as (-> & _);
        [contradiction|apply Hpos; now left|apply Hpos; now right|lia|lia].
    + intros p Hp. apply in_app_or in Hp as [Hp|Hp].
      * destruct (Hgin _ Hp) as (j & b & Hj & ->). apply py_range_In in Hj.
        exists i, j, b. split; [now left|]. split; [lia|reflexivity].
      * destruct (IHin _ Hp) as (i' & j' & b' & Hi' & Hj' & Heq).
        exists i', j', b'. split; [now right|]. now split.
Qed.

Lemma attempted_paths_structured root_dir lo hi groups :
  attempted_paths (structured_prelude root_dir lo hi
                   ++ flat_map (subdir_events root_dir) groups) =
  map outcome_path (all_outcomes groups).
Proof.
  rewrite attempted_paths_app.
  replace (attempted_paths (structured_prelude root_dir lo hi)) with (@nil string)
    by (unfold structured_prelude; now destruct (lo >? hi)).
  cbn [app]. induction groups as [|[i outs] groups IH]; [reflexivity|].
  cbn [flat_map]. rewrite attempted_paths_app, IH, all_outcomes_cons, map_app.
  unfold subdir_events. cbn [fst snd]. rewrite attempted_paths_app.
  cbn [attempted_paths flat_map app].
  fold (attempted_paths (flat_map structured_events outs)).
  now rewrite (attempted_paths_outcomes _ _ structured_events_written
                 structured_events_failed).
Qed.

Lemma written_paths_attempted evs p :
  In p (map fst (files_written evs)) -> In p (attempted_paths evs).
Proof.
  induction evs as [|e evs IH]; [intros []|].
  change (e :: evs) with ([e] ++ evs).
  rewrite files_written_app, map_app, attempted_paths_app.
  intros Hin. apply in_or_app. apply in_app_or in Hin as [Hin|Hin]; [left|right; now apply IH].
  destruct e; try contradiction. exact Hin.
Qed.

Lemma written_paths_NoDup evs :
  List.NoDup (attempted_paths evs) -> List.NoDup (map fst (files_written evs)).
Proof.
  induction evs as [|e evs IH]; [constructor|].
  change (e :: evs) with ([e] ++ evs).
  rewrite files_written_app, map_app, attempted_paths_app.
  destruct e as [q|q d|q c|l|l]; cbn [files_written attempted_paths flat_map app map fst];
    intros Hnd; try (now apply IH).
  - apply List.NoDup_cons_iff in Hnd as (Hq & Hnd). constructor; [|now apply IH].
    intros Hin. now apply Hq, written_paths_attempted.
  - apply List.NoDup_cons_iff in Hnd as (_ & Hnd). now apply IH.
Qed.

(** A file written once in [new] is on the disk afterwards as written. *)
Lemma disk_keeps evs new p d :
  List.NoDup (map fst (files_written new)) ->
  In (p, d) (files_written new) ->
  disk (evs ++ new) !! p = Some d.
Proof.
  induction new as [|e new IH] using rev_ind; intros Hnd Hin; [contradiction|].
  rewrite app_assoc, disk_snoc. rewrite files_written_app in Hnd, Hin.
  rewrite map_app in Hnd.
  destruct e as [q|q d'|q c|l|l]; cbn [files_written flat_map app map] in Hnd, Hin;
    rewrite ?app_nil_r in Hnd, Hin; try (now apply IH).
  apply in_app_or in Hin as [Hin|[Heq|[]]].
  - rewrite lookup_insert_ne.
    + apply IH; [|exact Hin].
      apply List.NoDup_remove_1 in Hnd. now rewrite app_nil_r in Hnd.
    + intros ->. apply List.NoDup_remove_2 in Hnd. apply Hnd.
      rewrite app_nil_r. apply (in_map fst) in Hin. exact Hin.
  - injection Heq as -> ->. apply lookup_insert_eq.
Qed.

(** Whatever its arguments and the surroundings, the structured mode writes
    no file but its own: a path that is not [file_<j>.bin] or [file_<j>.txt]
    of [subdir_<i>] of the root, for an [i] of [1..N] and a [j] of [1..M],
    holds after the run what it held before. *)
Theorem structured_mode_keeps_other_files (root_dir : string) (N M K : Z)
    (file_type : string) (min_size_bytes : Z) (w : World) (p : string) :
  (forall i j b, 1 <= i <= N -> 1 <= j <= M ->
     p <> os_path_join (subdir_path root_dir i) (structured_file_name j b)) ->
  disk (trace (snd (create_structured_files root_dir N M K file_type
                      min_size_bytes w))) !! p =
  disk (trace w) !! p.
Proof.
  intros Hp.
  destruct (yields_create_structured_files root_dir N M K file_type min_size_bytes w)
    as (new & -> & Hok & _).
  apply disk_untouched.
  now apply (structured_events_keep_away root_dir N M
               (Z.min min_size_bytes (K * 1024)) (K * 1024) file_type).
Qed.

Lemma structured_mode_keeps_other_files_witness :
  disk (trace (snd (create_structured_files "out" 1 1 1 "mix" 100 rough_world)))
    !! "out/subdir_001/notes.txt" =
  disk (trace rough_world) !! "out/subdir_001/notes.txt".
Proof.
  apply (structured_mode_keeps_other_files "out" 1 1 1 "mix" 100 rough_world).
  intros i j b Hi Hj. assert (i = 1) as -> by lia. assert (j = 1) as -> by lia.
  destruct b; discriminate.
Defined.

(** In a run of the structured mode within its contract no path is tried
    twice, whatever was drawn and whichever writes failed, also beyond 999
    subdirectories or files; so every file the run has written is on the
    disk at its end with the data written, and [total_files] is the number
    of these files. *)
Theorem structured_mode_files_survive (root_dir : string) (N M K : Z)
    (file_type : string) (min_size_bytes : Z) (w : World) :
  (forall p, mkdir_faults w p = None) ->
  1 <= M -> 0 <= K -> 0 <= min_size_bytes ->
  exists stats w' new,
    create_structured_files root_dir N M K file_type min_size_bytes w =
      (inr stats, w') /\
    trace w' = trace w ++ new /\
    List.NoDup (attempted_paths new) /\
    (forall p d, In (p, d) (files_written new) -> disk (trace w') !! p = Some d) /\
    stats !! "total_files" = Some (Z.of_nat (length (files_written new))).
Proof.
  intros Hdirs HM HK Hmin.
  destruct (create_structured_files_run root_dir N M K file_type min_size_bytes w
              Hdirs HM HK Hmin)
    as (groups & w' & Hrun & (_ & Htrace & _) & Hoks).
  eexists _, w', _. split; [exact Hrun|]. split; [exact Htrace|].
  assert (Hnd : List.NoDup (attempted_paths
                  (structured_prelude root_dir min_size_bytes (K * 1024)
                   ++ flat_map (subdir_events root_dir) groups))).
  { rewrite attempted_paths_structured.
    apply (groups_paths _ _ _ _ _ _ _ _ Hoks); [apply py_range_NoDup|].
    intros i Hi. apply py_range_In in Hi. lia. }
  split; [exact Hnd|]. split.
  - intros p d Hin. rewrite Htrace.
    apply disk_keeps; [now apply written_paths_NoDup|exact Hin].
  - rewrite files_written_run, written_files_length. unfold tally.
    now rewrite Z.add_0_l.
Qed.

Lemma structured_mode_files_survive_witness :
  exists stats w' new,
    create_structured_files "out" 1200 1100 1 "mix" 100 rough_world = (inr stats, w') /\
    trace w' = trace rough_world ++ new /\
    List.NoDup (attempted_paths new) /\
    (forall p d, In (p, d) (files_written new) -> disk (trace w') !! p = Some d) /\
    stats !! "total_files" = Some (Z.of_nat (length (files_written new))).
Proof.
  apply (structured_mode_files_survive "out" 1200 1100 1 "mix" 100 rough_world);
    [intros p; reflexivity | lia | lia | lia].
Defined.

(** ** The numbers in the names *)

Lemma fmt_03d_length i : 0 <= i -> (3 <= String.length (fmt_03d i))%nat.
Proof.
  intros Hi. unfold fmt_03d. destruct (Z.ltb_spec i 0); [lia|].
  rewrite string_of_uint_length. unfold zero_pad. rewrite nb_digits_iter. lia.
Qed.

Lemma fmt_03d_three_digits i :
  0 <= i <= 999 -> String.length (fmt_03d i) = 3%nat.
Proof.
  intros Hi.
  assert (Hall : List.Forall (fun i => String.length (fmt_03d i) = 3%nat)
                             (py_range 0 1000)).
  { vm_compute. repeat constructor. }
  rewrite List.Forall_forall in Hall. apply Hall, py_range_In. lia.
Qed.

(** The number in the name of a file or subdirectory ([{i:03d}], lines 43,
    98 and 120) is made of digits only and reads back as the index it was
    made of, for every index from 0 on; it has at least three digits, and
    exactly three up to 999. *)
Theorem numbers_in_names (i : Z) :
  0 <= i ->
  read_decimal (fmt_03d i) = Some (Z.to_N i) /\
  (3 <= String.length (fmt_03d i))%nat /\
  (i <= 999 -> String.length (fmt_03d i) = 3%nat) /\
  List.Forall (fun c => In c (list_ascii_of_string "0123456789"))
              (list_ascii_of_string (fmt_03d i)).
Proof.
  intros Hi. split; [now apply read_fmt_03d|]. split; [now apply fmt_03d_length|].
  split; [intros Hle; apply fmt_03d_three_digits; lia|].
  unfold fmt_03d. destruct (Z.ltb_spec i 0); [lia|].
  generalize (zero_pad 3 (N.to_uint (Z.abs_N i))). intros d.
  induction d; cbn [NilEmpty.string_of_uint list_ascii_of_string]; constructor;
    try assumption; cbn; tauto.
Qed.

Lemma numbers_in_names_witness :
  read_decimal (fmt_03d 1000) = Some (Z.to_N 1000) /\
  (3 <= String.length (fmt_03d 1000))%nat /\
  (1000 <= 999 -> String.length (fmt_03d 1000) = 3%nat) /\
  List.Forall (fun c => In c (list_ascii_of_string "0123456789"))
              (list_ascii_of_string (fmt_03d 1000)).
Proof. apply (numbers_in_names 1000). lia. Defined.

(** ** The run of the structured mode and its plan *)

Lemma choose_is_binary_planned file_type w :
  choose_is_binary file_type w =
  (inr (drawn_type (entropy w) file_type (drawn w)), advance (type_draws file_type) w).
Proof.
  unfold choose_is_binary, drawn_type, type_draws.
  destruct (String.eqb file_type "bin"); [now destruct w|].
  destruct (String.eqb file_type "txt"); [now destruct w|].
  rewrite random_choice_run. cbn [length]. now rewrite choice_of_two.
Qed.

Lemma structured_file_step_planned subdir file_type lo hi j tf bf xf ts bs xs w :
  0 <= lo -> lo <= hi ->
  exists w',
    structured_file_step subdir file_type lo hi j
      (structured_stats tf bf xf ts bs xs) w =
    (inr (tally tf bf xf ts bs xs
            [file_outcome subdir (io_faults w)
               (plan_file (entropy w) file_type lo hi (drawn w) (opened w) j)]), w') /\
    evolves w w'
      (structured_events
         (file_outcome subdir (io_faults w)
            (plan_file (entropy w) file_type lo hi (drawn w) (opened w) j))) /\
    drawn w' =
      (drawn w + file_draws file_type
                   (plan_file (entropy w) file_type lo hi (drawn w) (opened w) j))%nat /\
    opened w' = S (opened w).
Proof.
  intros Hlo Hhi. unfold structured_file_step.
  step (choose_is_binary_planned file_type w).
  set (b := drawn_type (entropy w) file_type (drawn w)).
  set (t := type_draws file_type).
  step (random_randint_run lo hi _ Hhi).
  cbn [entropy drawn advance].
  replace (t + drawn w)%nat with (drawn w + t)%nat by lia.
  change (lo + Z.of_nat (entropy w (drawn w + t)%nat) mod (hi - lo + 1))
    with (drawn_int (entropy w) lo hi (drawn w + t)).
  set (size := drawn_int (entropy w) lo hi (drawn w + t)).
  assert (Hsize : lo <= size <= hi) by (apply randint_bounds; exact Hhi).
  step (generate_random_data_run size b _ ltac:(lia)).
  rewrite !advance_advance. cbn [entropy drawn advance].
  set (w1 := advance _ w).
  set (data0 := if b then map _ _ else map _ _).
  assert (Hdata : data0 = drawn_data (entropy w) b size (drawn w + t + 1)).
  { unfold data0, drawn_data. destruct b; apply map_ext; intros k;
      replace (t + 1 + drawn w + k)%nat with (drawn w + t + 1 + k)%nat by lia;
      reflexivity. }
  rewrite Hdata. clear data0 Hdata.
  set (data := drawn_data (entropy w) b size (drawn w + t + 1)).
  assert (Hlen : Z.of_nat (length data) = size).
  { unfold data, drawn_data. destruct b; rewrite length_map, length_seq; lia. }
  unfold file_outcome, plan_file, file_draws. cbn [fp_index fp_binary fp_opening fp_data fp_size].
  fold t. fold b. fold size. fold data.
  fold (structured_file_name j b).
  set (name := structured_file_name j b).
  set (path := os_path_join subdir name).
  change (io_faults w (opened w) path) with (io_faults w1 (opened w1) path).
  destruct (io_faults w1 (opened w1) path) as [cause|] eqn:Hfault.
  - eexists. split; [|split; [|split]].
    + erewrite try_except_caught;
        [| erewrite bind_err; [reflexivity | exact (open_write_failed _ _ _ _ Hfault)]
         | reflexivity ].
      unfold tally. cbn [n_written bytes_written fold_right].
      rewrite !Z.add_0_r. reflexivity.
    + apply evolves_attempt.
    + cbn [drawn emit opening advance w1]. unfold w1. cbn [drawn advance]. lia.
    + reflexivity.
  - exists (emit (Stdout [Txt "    Created file: "; Txt name; Txt " (";
                          Txt (if b then "binary" else "text"); Txt ", ";
                          Fixed2 (inject_Z size / inject_Z 1024)%Q; Txt " KB)"])
                 (divided (emit (Wrote path data) (opening w1)))).
    split; [|split; [|split]].
    + apply try_except_ok.
      step (open_write_ok _ _ _ Hfault).
      step (truediv_run size 1024 _ ltac:(lia)).
      step (print_run _ _).
      rewrite update_stats_run. unfold tally.
      cbn [n_written bytes_written fold_right].
      replace (Z.of_nat (length data) + 0) with size by lia.
      destruct b; rewrite ?Z.add_0_r; reflexivity.
    + cbn [structured_events]. rewrite Hlen. apply evolves_written.
    + unfold w1. cbn [drawn emit divided opening advance]. lia.
    + reflexivity.
Qed.

Lemma structured_loop_planned subdir file_type lo hi :
  0 <= lo -> lo <= hi ->
  forall indices tf bf xf ts bs xs w,
  exists w',
    for_each indices (structured_file_step subdir file_type lo hi)
             (structured_stats tf bf xf ts bs xs) w =
    (inr (tally tf bf xf ts bs xs
            (map (file_outcome subdir (io_faults w))
                 (plan_files (entropy w) file_type lo hi (drawn w) (opened w) indices))),
     w') /\
    evolves w w'
      (flat_map structured_events
         (map (file_outcome subdir (io_faults w))
              (plan_files (entropy w) file_type lo hi (drawn w) (opened w) indices))) /\
    drawn w' =
      (drawn w + files_draws file_type
                   (plan_files (entropy w) file_type lo hi (drawn w) (opened w) indices))%nat /\
    opened w' = (opened w + length indices)%nat.
Proof.
  intros Hlo Hhi. induction indices as [|j indices IH]; intros tf bf xf ts bs xs w.
  - exists w. cbn [plan_files map flat_map files_draws fold_right length for_each].
    split; [now rewrite tally_nil|]. split; [apply evolves_refl|]. split; lia.
  - destruct (structured_file_step_planned subdir file_type lo hi j tf bf xf ts bs xs w
                Hlo Hhi) as (w1 & Hstep & Hev1 & Hd1 & Ho1).
    set (p := plan_file (entropy w) file_type lo hi (drawn w) (opened w) j) in *.
    set (o := file_outcome subdir (io_faults w) p) in *.
    unfold tally in Hstep.
    destruct (IH (tf + n_written true true [o]) (bf + n_written true false [o])
                 (xf + n_written false true [o]) (ts + bytes_written true true [o])
                 (bs + bytes_written true false [o]) (xs + bytes_written false true [o]) w1)
      as (w2 & Hloop & Hev2 & Hd2 & Ho2).
    destruct Hev1 as ((He & Hf & Hm & Ha) & Ht1 & Hdle & Hole).
    rewrite He, Hf, Hd1, Ho1 in Hloop. rewrite He, Hf, Hd1, Ho1 in Hev2.
    rewrite He, Hd1, Ho1 in Hd2.
    assert (Hev1 : evolves w w1 (structured_events o)) by (repeat split; assumption).
    exists w2. cbn [plan_files map flat_map files_draws fold_right length].
    fold p. fold o.
    fold (files_draws file_type
            (plan_files (entropy w) file_type lo hi (drawn w + file_draws file_type p)
                        (S (opened w)) indices)).
    split; [|split; [|split]].
    + cbn [for_each]. rewrite (bind_ok _ _ _ _ _ Hstep), Hloop.
      now rewrite tally_app.
    + eapply evolves_trans; eassumption.
    + rewrite Hd2. lia.
    + rewrite Ho2, Ho1. lia.
Qed.

Lemma plan_files_length entropy file_type lo hi indices :
  forall d o, length (plan_files entropy file_type lo hi d o indices) = length indices.
Proof.
  induction indices as [|j indices IH]; intros d o; [reflexivity|].
  cbn [plan_files length]. now rewrite IH.
Qed.

Lemma subdir_step_planned root_dir file_type M lo hi i tf bf xf ts bs xs w :
  mkdir_faults w (subdir_path root_dir i) = None ->
  1 <= M -> 0 <= lo -> lo <= hi ->
  exists w',
    subdir_step root_dir file_type M lo hi i (structured_stats tf bf xf ts bs xs) w =
    (inr (tally tf bf xf ts bs xs
            (snd (dir_outcomes root_dir (io_faults w)
                    (mkDirPlan i (drawn w)
                       (plan_files (entropy w) file_type lo hi (S (drawn w)) (opened w)
                          (py_range 1 (drawn_int (entropy w) 1 M (drawn w) + 1))))))),
     w') /\
    evolves w w'
      (subdir_events root_dir
         (dir_outcomes root_dir (io_faults w)
            (mkDirPlan i (drawn w)
               (plan_files (entropy w) file_type lo hi (S (drawn w)) (opened w)
                  (py_range 1 (drawn_int (entropy w) 1 M (drawn w) + 1)))))) /\
    drawn w' =
      (S (drawn w) +
       files_draws file_type
         (plan_files (entropy w) file_type lo hi (S (drawn w)) (opened w)
            (py_range 1 (drawn_int (entropy w) 1 M (drawn w) + 1))))%nat /\
    opened w' =
      (opened w +
       length (plan_files (entropy w) file_type lo hi (S (drawn w)) (opened w)
                 (py_range 1 (drawn_int (entropy w) 1 M (drawn w) + 1))))%nat.
Proof.
  intros Hdir HM Hlo Hhi. unfold subdir_step.
  fold (subdir_path root_dir i).
  step (os_makedirs_ok _ w Hdir).
  step (print_run _ _).
  step (random_randint_run 1 M _ HM).
  cbn [entropy drawn emit].
  change (1 + Z.of_nat (entropy w (drawn w)) mod (M - 1 + 1))
    with (drawn_int (entropy w) 1 M (drawn w)).
  set (num := drawn_int (entropy w) 1 M (drawn w)).
  set (w0 := advance 1 _).
  destruct (structured_loop_planned (subdir_path root_dir i) file_type lo hi Hlo Hhi
              (py_range 1 (num + 1)) tf bf xf ts bs xs w0)
    as (w' & Hloop & Hev & Hd & Ho).
  change (entropy w0) with (entropy w) in *.
  change (io_faults w0) with (io_faults w) in *.
  change (drawn w0) with (S (drawn w)) in *.
  change (opened w0) with (opened w) in *.
  exists w'. unfold dir_outcomes. cbn [dp_index dp_files fst snd].
  split; [exact Hloop|]. split; [|split].
  - unfold subdir_events. cbn [fst snd].
    eapply evolves_trans; [|exact Hev].
    change [Makedirs (subdir_path root_dir i);
            Stdout [Txt "  Created subdirectory: "; Txt ("subdir_" +:+ fmt_03d i)]]
      with ([Makedirs (subdir_path root_dir i)] ++
            [Stdout [Txt "  Created subdirectory: "; Txt ("subdir_" +:+ fmt_03d i)]] ++ []).
    eapply evolves_trans; [apply evolves_emit|].
    eapply evolves_trans; [apply evolves_emit|apply evolves_advance].
  - exact Hd.
  - rewrite Ho. now rewrite plan_files_length.
Qed.

Lemma subdirs_loop_planned root_dir file_type M lo hi :
  1 <= M -> 0 <= lo -> lo <= hi ->
  forall indices tf bf xf ts bs xs w,
  (forall p, mkdir_faults w p = None) ->
  exists w',
    for_each indices (subdir_step root_dir file_type M lo hi)
             (structured_stats tf bf xf ts bs xs) w =
    (inr (tally tf bf xf ts bs xs
            (all_outcomes
               (map (dir_outcomes root_dir (io_faults w))
                    (plan_subdirs (entropy w) file_type M lo hi (drawn w) (opened w)
                                  indices)))), w') /\
    evolves w w'
      (flat_map (subdir_events root_dir)
         (map (dir_outcomes root_dir (io_faults w))
              (plan_subdirs (entropy w) file_type M lo hi (drawn w) (opened w) indices))).
Proof.
  intros HM Hlo Hhi.
  induction indices as [|i indices IH]; intros tf bf xf ts bs xs w Hdirs.
  - exists w. cbn [plan_subdirs map all_outcomes flat_map for_each].
    split; [now rewrite tally_nil|apply evolves_refl].
  - destruct (subdir_step_planned root_dir file_type M lo hi i tf bf xf ts bs xs w
                (Hdirs _) HM Hlo Hhi) as (w1 & Hstep & Hev1 & Hd1 & Ho1).
    set (files := plan_files (entropy w) file_type lo hi (S (drawn w)) (opened w)
                    (py_range 1 (drawn_int (entropy w) 1 M (drawn w) + 1))) in *.
    set (g := dir_outcomes root_dir (io_faults w) (mkDirPlan i (drawn w) files)) in *.
    unfold tally in Hstep.
    destruct Hev1 as ((He & Hf & Hm & Ha) & Ht1 & Hdle & Hole).
    assert (Hdirs1 : forall p, mkdir_faults w1 p = None).
    { intros p. now rewrite Hm. }
    destruct (IH (tf + n_written true true (snd g)) (bf + n_written true false (snd g))
                 (xf + n_written false true (snd g)) (ts + bytes_written true true (snd g))
                 (bs + bytes_written true false (snd g))
                 (xs + bytes_written false true (snd g)) w1 Hdirs1)
      as (w2 & Hloop & Hev2).
    rewrite He, Hf, Hd1, Ho1 in Hloop. rewrite He, Hf, Hd1, Ho1 in Hev2.
    assert (Hev1 : evolves w w1 (subdir_events root_dir g)) by (repeat split; assumption).
    exists w2. cbn [plan_subdirs map flat_map]. fold files. fold g.
    split.
    + cbn [for_each]. rewrite (bind_ok _ _ _ _ _ Hstep), Hloop.
      rewrite tally_app. reflexivity.
    + eapply evolves_trans; eassumption.
Qed.

(** The run of the structured mode within its contract is its plan: the
    draws decide what is attempted, the surroundings what is written. *)
Lemma create_structured_files_planned root_dir N M K file_type min_size_bytes w :
  (forall p, mkdir_faults w p = None) ->
  1 <= M -> 0 <= K -> 0 <= min_size_bytes ->
  exists w',
    create_structured_files root_dir N M K file_type min_size_bytes w =
    (inr (tally 0 0 0 0 0 0
            (all_outcomes
               (map (dir_outcomes root_dir (io_faults w))
                    (planned_run N M K file_type min_size_bytes w)))), w') /\
    evolves w w'
      (structured_prelude root_dir min_size_bytes (K * 1024)
       ++ flat_map (subdir_events root_dir)
            (map (dir_outcomes root_dir (io_faults w))
                 (planned_run N M K file_type min_size_bytes w))).
Proof.
  intros Hdirs HM HK Hmin. unfold create_structured_files.
  step (print_run _ w).
  rewrite (bind_ok _ _ _ _ _
             (os_makedirs_ok root_dir
                (emit (Stdout [Txt "Creating structured directory: "; Txt root_dir]) w)
                (Hdirs root_dir))).
  set (w1 := emit (Makedirs root_dir) _).
  destruct (clamp_min_size_run min_size_bytes (K * 1024) w1) as (w2 & Hclamp & Hev2).
  step Hclamp.
  destruct Hev2 as ((He & Hf & Hm & Ha) & Ht2 & Hd2 & Ho2).
  assert (Hdirs2 : forall p, mkdir_faults w2 p = None).
  { intros p. rewrite Hm. apply Hdirs. }
  destruct (subdirs_loop_planned root_dir file_type M
              (Z.min min_size_bytes (K * 1024)) (K * 1024) HM ltac:(lia) ltac:(lia)
              (py_range 1 (N + 1)) 0 0 0 0 0 0 w2 Hdirs2)
    as (w3 & Hloop & Hev3).
  assert (Hdrawn : drawn w2 = drawn w /\ opened w2 = opened w).
  { revert Hclamp. unfold clamp_min_size.
    destruct (min_size_bytes >? K * 1024).
    - step (print_run _ w1). intros [= _ <-]. split; reflexivity.
    - intros [= _ <-]. split; reflexivity. }
  destruct Hdrawn as (Hdr & Hop).
  rewrite He, Hf, Hdr, Hop in Hloop. rewrite He, Hf, Hdr, Hop in Hev3.
  change (entropy w1) with (entropy w) in *.
  change (io_faults w1) with (io_faults w) in *.
  exists w3. split.
  - change structured_stats_init with (structured_stats 0 0 0 0 0 0).
    now step Hloop.
  - unfold structured_prelude. rewrite <- app_assoc.
    assert (Hev2 : evolves w1 w2
              (if min_size_bytes >? K * 1024
               then [Stdout [Txt "Warning: Minimum size ("; Num min_size_bytes;
                             Txt "B) is larger than maximum ("; Num (K * 1024);
                             Txt "B). Setting minimum to maximum."]]
               else [])) by (repeat split; assumption).
    eapply evolves_trans; [|eapply evolves_trans; [exact Hev2 | exact Hev3]].
    change [Stdout [Txt "Creating structured directory: "; Txt root_dir]; Makedirs root_dir]
      with ([Stdout [Txt "Creating structured directory: "; Txt root_dir]]
            ++ [Makedirs root_dir]).
    eapply evolves_trans; apply evolves_emit.
Qed.

(** ** What a plan holds *)

Lemma plan_files_Forall (Q : FilePlan -> Prop) entropy file_type lo hi indices :
  (forall d o j, Q (plan_file entropy file_type lo hi d o j)) ->
  forall d o, List.Forall Q (plan_files entropy file_type lo hi d o indices).
Proof.
  intros HQ. induction indices as [|j indices IH]; intros d o; constructor;
    [apply HQ|apply IH].
Qed.

Lemma plan_files_indices entropy file_type lo hi indices :
  forall d o, map fp_index (plan_files entropy file_type lo hi d o indices) = indices.
Proof.
  induction indices as [|j indices IH]; intros d o; [reflexivity|].
  cbn [plan_files map]. now rewrite IH.
Qed.

Lemma plan_subdirs_Forall (P : DirPlan -> Prop) entropy file_type M lo hi indices :
  (forall i d o,
     P (mkDirPlan i d (plan_files entropy file_type lo hi (S d) o
                         (py_range 1 (drawn_int entropy 1 M d + 1))))) ->
  forall d o, List.Forall P (plan_subdirs entropy file_type M lo hi d o indices).
Proof.
  intros HP. induction indices as [|i indices IH]; intros d o; constructor;
    [apply HP|apply IH].
Qed.

Lemma plan_subdirs_indices entropy file_type M lo hi indices :
  forall d o, map dp_index (plan_subdirs entropy file_type M lo hi d o indices) = indices.
Proof.
  induction indices as [|i indices IH]; intros d o; [reflexivity|].
  cbn [plan_subdirs map]. now rewrite IH.
Qed.

Lemma all_files_Forall (Q : FilePlan -> Prop) dirs :
  List.Forall (fun dp => List.Forall Q (dp_files dp)) dirs ->
  List.Forall Q (all_files dirs).
Proof.
  induction 1 as [|dp dirs Hdp _ IH]; [constructor|].
  unfold all_files. cbn [flat_map]. apply Forall_app. now split.
Qed.

Lemma reduce_draw_bounds a b r : a <= b -> a <= reduce_draw a b r <= b.
Proof. apply randint_bounds. Qed.

Lemma drawn_int_count entropy M d :
  drawn_int entropy 1 M d = 1 + Z.of_nat (entropy d) mod M.
Proof. unfold drawn_int, reduce_draw. now replace (M - 1 + 1) with M by lia. Qed.

Lemma drawn_data_length entropy b size d :
  length (drawn_data entropy b size d) = Z.to_nat size.
Proof. unfold drawn_data. destruct b; now rewrite length_map, length_seq. Qed.

(** The counts of a plan: one draw each, reduced to [1..M]; the files of a
    subdirectory are numbered from 1. *)
Lemma plan_subdirs_counts entropy file_type M lo hi indices d o :
  1 <= M ->
  List.Forall
    (fun dp =>
       Z.of_nat (length (dp_files dp)) = 1 + Z.of_nat (entropy (dp_draw dp)) mod M /\
       1 <= Z.of_nat (length (dp_files dp)) <= M /\
       map fp_index (dp_files dp) = py_range 1 (Z.of_nat (length (dp_files dp)) + 1))
    (plan_subdirs entropy file_type M lo hi d o indices).
Proof.
  intros HM. apply plan_subdirs_Forall. intros i d' o'. cbn [dp_files dp_draw].
  rewrite plan_files_length, py_range_length, plan_files_indices.
  pose proof (reduce_draw_bounds 1 M (entropy d') HM) as Hb.
  fold (drawn_int entropy 1 M d') in Hb. rewrite <- drawn_int_count.
  replace (Z.of_nat (Z.to_nat (drawn_int entropy 1 M d' + 1 - 1)))
    with (drawn_int entropy 1 M d') by lia.
  repeat split; lia.
Qed.

(** The files of a plan: the type, the size and the data are what the
    draws at their positions give. *)
Lemma plan_subdirs_files (Q : FilePlan -> Prop) entropy file_type M lo hi indices d o :
  (forall d o j, Q (plan_file entropy file_type lo hi d o j)) ->
  List.Forall Q (all_files (plan_subdirs entropy file_type M lo hi d o indices)).
Proof.
  intros HQ. apply all_files_Forall, plan_subdirs_Forall.
  intros i d' o'. cbn [dp_files]. now apply plan_files_Forall.
Qed.

(** ** The positions of the draws *)

Lemma type_draws_cases file_type :
  type_draws file_type = 0%nat \/ type_draws file_type = 1%nat.
Proof.
  unfold type_draws. destruct (String.eqb file_type "bin"); [now left|].
  destruct (String.eqb file_type "txt"); [now left|now right].
Qed.

Lemma within_app a b c l1 l2 :
  within a b l1 -> within b c l2 -> within a c (l1 ++ l2).
Proof.
  intros (Hab & Hn1 & Hf1) (Hbc & Hn2 & Hf2). split; [lia|]. split.
  - apply List.NoDup_app; [exact Hn1|exact Hn2|].
    intros x H1 H2. rewrite List.Forall_forall in Hf1, Hf2.
    specialize (Hf1 x H1). specialize (Hf2 x H2). lia.
  - apply Forall_app. split.
    + eapply List.Forall_impl; [|exact Hf1]. cbn beta. intros x Hx. lia.
    + eapply List.Forall_impl; [|exact Hf2]. cbn beta. intros x Hx. lia.
Qed.

Lemma file_reads_within entropy file_type lo hi d o j :
  within d (d + file_draws file_type (plan_file entropy file_type lo hi d o j))
         (file_reads file_type (plan_file entropy file_type lo hi d o j)).
Proof.
  unfold file_reads, file_draws, size_draw, plan_file. cbn [fp_draw fp_size].
  destruct (type_draws_cases file_type) as [-> | ->]; cbn [app].
  - split; [lia|]. split; [repeat constructor; intros []|].
    repeat constructor; lia.
  - split; [lia|]. split.
    + constructor; [|constructor; [intros []|constructor]]. intros [H|[]]. lia.
    + repeat constructor; lia.
Qed.

Lemma plan_files_within entropy file_type lo hi indices :
  forall d o,
    within d (d + files_draws file_type
                    (plan_files entropy file_type lo hi d o indices))
           (flat_map (file_reads file_type)
                     (plan_files entropy file_type lo hi d o indices)).
Proof.
  induction indices as [|j indices IH]; intros d o.
  - cbn. split; [lia|]. split; constructor.
  - cbn [plan_files flat_map files_draws fold_right].
    set (p := plan_file entropy file_type lo hi d o j).
    fold (files_draws file_type
            (plan_files entropy file_type lo hi (d + file_draws file_type p) (S o) indices)).
    eapply within_app; [apply file_reads_within|].
    rewrite Nat.add_assoc. apply IH.
Qed.

Lemma plan_subdirs_within entropy file_type M lo hi indices :
  forall d o, exists d',
    within d d' (draws_read file_type
                   (plan_subdirs entropy file_type M lo hi d o indices)).
Proof.
  induction indices as [|i indices IH]; intros d o.
  - exists d. cbn. split; [lia|]. split; constructor.
  - cbn [plan_subdirs draws_read flat_map dp_draw dp_files].
    set (files := plan_files entropy file_type lo hi (S d) o
                    (py_range 1 (drawn_int entropy 1 M d + 1))).
    destruct (IH (S d + files_draws file_type files)%nat (o + length files)%nat)
      as (d' & Hrest).
    exists d'.
    apply (within_app d (S d) d' [d]
             (flat_map (file_reads file_type) files ++
              draws_read file_type
                (plan_subdirs entropy file_type M lo hi
                   (S d + files_draws file_type files) (o + length files) indices))).
    + split; [lia|]. split; [repeat constructor; intros []|repeat constructor; lia].
    + eapply within_app; [apply plan_files_within|exact Hrest].
Qed.

(** ** The reduction of a raw draw is uniform *)

Lemma reduce_draw_uniform a b k :
  a <= b ->
  Permutation (map (reduce_draw a b) (seq k (Z.to_nat (b - a + 1))))
              (py_range a (b + 1)).
Proof.
  intros Hab. apply NoDup_Permutation_bis.
  - apply NoDup_map_NoDup_ForallPairs; [|apply seq_NoDup].
    intros x y Hx Hy Heq. apply in_seq in Hx, Hy. unfold reduce_draw in Heq.
    set (W := b - a + 1) in *.
    assert (HW : 0 < W) by (unfold W; lia).
    pose proof (Z.div_mod (Z.of_nat x) W ltac:(lia)) as Dx.
    pose proof (Z.div_mod (Z.of_nat y) W ltac:(lia)) as Dy.
    assert (Hm : Z.of_nat x mod W = Z.of_nat y mod W) by lia.
    rewrite Hm in Dx.
    assert (Hq : Z.of_nat x / W = Z.of_nat y / W) by nia.
    rewrite Hq in Dx. lia.
  - rewrite length_map, length_seq, py_range_length. lia.
  - intros v Hv. apply in_map_iff in Hv as (r & <- & _).
    apply py_range_In. pose proof (reduce_draw_bounds a b r Hab). lia.
Qed.

(** ** The plan and the outcomes *)

Lemma file_outcome_ok subdir file_type lo hi faults entropy d o j :
  0 <= lo -> lo <= hi ->
  structured_outcome_ok subdir file_type lo hi faults j
    (file_outcome subdir faults (plan_file entropy file_type lo hi d o j)).
Proof.
  intros Hlo Hhi. unfold file_outcome, plan_file.
  cbn [fp_index fp_binary fp_opening fp_data].
  set (b := drawn_type entropy file_type d).
  set (size := drawn_int entropy lo hi (d + type_draws file_type)).
  assert (Hsize : lo <= size <= hi) by (apply reduce_draw_bounds; exact Hhi).
  destruct (faults o _) as [cause|] eqn:Hfault.
  - split; [reflexivity|]. split.
    + unfold structured_file_name. destruct b; [now left|now right].
    + now exists o.
  - split; [reflexivity|]. split; [reflexivity|]. split; [|split].
    + intros ->. reflexivity.
    + intros ->. reflexivity.
    + rewrite drawn_data_length. lia.
Qed.

Lemma plan_files_ok subdir file_type lo hi faults entropy indices :
  0 <= lo -> lo <= hi ->
  forall d o,
    Forall2 (structured_outcome_ok subdir file_type lo hi faults) indices
            (map (file_outcome subdir faults)
                 (plan_files entropy file_type lo hi d o indices)).
Proof.
  intros Hlo Hhi. induction indices as [|j indices IH]; intros d o; constructor;
    [now apply file_outcome_ok|apply IH].
Qed.

Lemma plan_subdirs_ok root_dir file_type M lo hi faults entropy indices :
  1 <= M -> 0 <= lo -> lo <= hi ->
  forall d o,
    Forall2 (subdir_ok root_dir file_type M lo hi faults) indices
            (map (dir_outcomes root_dir faults)
                 (plan_subdirs entropy file_type M lo hi d o indices)).
Proof.
  intros HM Hlo Hhi. induction indices as [|i indices IH]; intros d o;
    constructor; [|apply IH].
  unfold subdir_ok, dir_outcomes. cbn [fst snd dp_index dp_files].
  rewrite length_map, plan_files_length, py_range_length.
  pose proof (reduce_draw_bounds 1 M (entropy d) HM) as Hb.
  fold (drawn_int entropy 1 M d) in Hb.
  replace (Z.of_nat (Z.to_nat (drawn_int entropy 1 M d + 1 - 1)))
    with (drawn_int entropy 1 M d) by lia.
  split; [reflexivity|]. split; [lia|]. now apply plan_files_ok.
Qed.

Lemma all_outcomes_planned root_dir faults dirs :
  all_outcomes (map (dir_outcomes root_dir faults) dirs) =
  flat_map (fun dp => map (file_outcome (subdir_path root_dir (dp_index dp)) faults)
                          (dp_files dp)) dirs.
Proof.
  induction dirs as [|dp dirs IH]; [reflexivity|].
  cbn [map flat_map]. unfold dir_outcomes at 1.
  now rewrite all_outcomes_cons, IH.
Qed.

(** What is attempted does not depend on what fails. *)
Lemma planned_paths root_dir faults dirs :
  map outcome_path (all_outcomes (map (dir_outcomes root_dir faults) dirs)) =
  map fst (planned_files root_dir dirs).
Proof.
  rewrite all_outcomes_planned. unfold planned_files.
  induction dirs as [|dp dirs IH]; [reflexivity|].
  cbn [flat_map]. rewrite !map_app, IH. f_equal.
  rewrite !map_map. apply map_ext. intros p. unfold file_outcome, planned_path.
  now destruct (faults _ _).
Qed.

Lemma planned_written root_dir dirs :
  written_files (all_outcomes (map (dir_outcomes root_dir (fun _ _ => None)) dirs)) =
  planned_files root_dir dirs.
Proof.
  rewrite all_outcomes_planned. unfold planned_files, written_files.
  induction dirs as [|dp dirs IH]; [reflexivity|].
  cbn [flat_map]. rewrite flat_map_app, IH. f_equal.
  induction (dp_files dp) as [|p ps IHp]; [reflexivity|].
  cbn [map flat_map app]. now rewrite IHp.
Qed.

Lemma planned_written_incl root_dir faults dirs f :
  In f (written_files (all_outcomes (map (dir_outcomes root_dir faults) dirs))) ->
  In f (planned_files root_dir dirs).
Proof.
  rewrite all_outcomes_planned. unfold planned_files, written_files.
  induction dirs as [|dp dirs IH]; [intros []|].
  cbn [flat_map]. rewrite flat_map_app. intros Hin.
  apply in_app_or in Hin as [Hin|Hin]; apply in_or_app; [left|right; now apply IH].
  induction (dp_files dp) as [|p ps IHp]; [destruct Hin|].
  cbn [map flat_map] in Hin. apply in_app_or in Hin as [Hin|Hin].
  - left. unfold file_outcome in Hin. fold (planned_path root_dir dp p) in Hin.
    destruct (faults _ _); [destruct Hin|]. destruct Hin as [<-|[]]. reflexivity.
  - right. now apply IHp.
Qed.

Lemma planned_files_length root_dir dirs :
  length (planned_files root_dir dirs) = length (all_files dirs).
Proof.
  unfold planned_files, all_files.
  induction dirs as [|dp dirs IH]; [reflexivity|].
  cbn [flat_map]. now rewrite !length_app, IH, length_map.
Qed.

Lemma all_files_length dirs :
  List.Forall (fun dp => 1 <= Z.of_nat (length (dp_files dp))) dirs ->
  (length dirs <= length (all_files dirs))%nat.
Proof.
  induction 1 as [|dp dirs Hdp _ IH]; [reflexivity|].
  unfold all_files in *. cbn [flat_map length]. rewrite length_app. lia.
Qed.

Lemma planned_run_without_faults N M K file_type min_size_bytes w :
  planned_run N M K file_type min_size_bytes (without_write_faults w) =
  planned_run N M K file_type min_size_bytes w.
Proof. reflexivity. Qed.

Lemma planned_run_trace root_dir N M K file_type min_size_bytes w :
  (forall p, mkdir_faults w p = None) ->
  1 <= M -> 0 <= K -> 0 <= min_size_bytes ->
  exists w',
    create_structured_files root_dir N M K file_type min_size_bytes w =
    (inr (tally 0 0 0 0 0 0
            (all_outcomes
               (map (dir_outcomes root_dir (io_faults w))
                    (planned_run N M K file_type min_size_bytes w)))), w') /\
    trace w' = trace w ++
      structured_prelude root_dir min_size_bytes (K * 1024)
      ++ flat_map (subdir_events root_dir)
           (map (dir_outcomes root_dir (io_faults w))
                (planned_run N M K file_type min_size_bytes w)) /\
    Forall2 (subdir_ok root_dir file_type M
               (Z.min min_size_bytes (K * 1024)) (K * 1024) (io_faults w))
            (py_range 1 (N + 1))
            (map (dir_outcomes root_dir (io_faults w))
                 (planned_run N M K file_type min_size_bytes w)).
Proof.
  intros Hdirs HM HK Hmin.
  destruct (create_structured_files_planned root_dir N M K file_type min_size_bytes w
              Hdirs HM HK Hmin) as (w' & Hrun & (_ & Htrace & _)).
  exists w'. split; [exact Hrun|]. split; [exact Htrace|].
  apply plan_subdirs_ok; lia.
Qed.

Lemma planned_written_calm root_dir faults dirs :
  (forall k p, faults k p = None) ->
  written_files (all_outcomes (map (dir_outcomes root_dir faults) dirs)) =
  planned_files root_dir dirs.
Proof.
  intros Hcalm. rewrite all_outcomes_planned. unfold planned_files, written_files.
  induction dirs as [|dp dirs IH]; [reflexivity|].
  cbn [flat_map]. rewrite flat_map_app, IH. f_equal.
  induction (dp_files dp) as [|p ps IHp]; [reflexivity|].
  cbn [map flat_map]. rewrite IHp. unfold file_outcome. now rewrite Hcalm.
Qed.

Lemma attempts_count evs :
  length (attempted_paths evs) =
  (length (files_written evs) + length (write_failures evs))%nat.
Proof.
  induction evs as [|e evs IH]; [reflexivity|].
  change (e :: evs) with ([e] ++ evs).
  rewrite attempted_paths_app, files_written_app, write_failures_app, !length_app, IH.
  destruct e; cbn; lia.
Qed.

Lemma total_bytes_fixed size fs :
  List.Forall (fun f => size_of f = size) fs ->
  total_bytes fs = Z.of_nat (length fs) * size.
Proof.
  induction 1 as [|f fs Hf _ IH]; [reflexivity|].
  cbn [total_bytes fold_right length]. fold (total_bytes fs). rewrite IH, Hf. lia.
Qed.

(** The run of the structured mode within its contract, in terms of its
    plan: what is attempted is the plan, what is written is the part of it
    that the surroundings let through. *)
Lemma planned_run_attempts root_dir N M K file_type min_size_bytes w :
  (forall p, mkdir_faults w p = None) ->
  1 <= M -> 0 <= K -> 0 <= min_size_bytes ->
  exists w' new,
    create_structured_files root_dir N M K file_type min_size_bytes w =
    (inr (tally 0 0 0 0 0 0
            (all_outcomes
               (map (dir_outcomes root_dir (io_faults w))
                    (planned_run N M K file_type min_size_bytes w)))), w') /\
    trace w' = trace w ++ new /\
    new = structured_prelude root_dir min_size_bytes (K * 1024)
          ++ flat_map (subdir_events root_dir)
               (map (dir_outcomes root_dir (io_faults w))
                    (planned_run N M K file_type min_size_bytes w)) /\
    attempted_paths new =
      map fst (planned_files root_dir (planned_run N M K file_type min_size_bytes w)) /\
    files_written new =
      written_files
        (all_outcomes
           (map (dir_outcomes root_dir (io_faults w))
                (planned_run N M K file_type min_size_bytes w))) /\
    (forall f, In f (files_written new) ->
       In f (planned_files root_dir (planned_run N M K file_type min_size_bytes w))) /\
    ((forall k p, io_faults w k p = None) ->
     files_written new =
       planned_files root_dir (planned_run N M K file_type min_size_bytes w)) /\
    Forall2 (subdir_ok root_dir file_type M
               (Z.min min_size_bytes (K * 1024)) (K * 1024) (io_faults w))
            (py_range 1 (N + 1))
            (map (dir_outcomes root_dir (io_faults w))
                 (planned_run N M K file_type min_size_bytes w)).
Proof.
  intros Hdirs HM HK Hmin.
  destruct (planned_run_trace root_dir N M K file_type min_size_bytes w
              Hdirs HM HK Hmin) as (w' & Hrun & Htrace & Hoks).
  exists w'. eexists. split; [exact Hrun|]. split; [exact Htrace|].
  split; [reflexivity|]. rewrite attempted_paths_structured, files_written_run.
  split; [apply planned_paths|]. split; [reflexivity|]. split.
  - intros f. apply planned_written_incl.
  - split; [now apply planned_written_calm|exact Hoks].
Qed.

Lemma planned_run_indices N M K file_type min_size_bytes w :
  map dp_index (planned_run N M K file_type min_size_bytes w) = py_range 1 (N + 1).
Proof. apply plan_subdirs_indices. Qed.

Lemma planned_run_nonempty N M K file_type min_size_bytes w :
  1 <= M ->
  (Z.to_nat N <= length (all_files (planned_run N M K file_type min_size_bytes w)))%nat.
Proof.
  intros HM.
  replace (Z.to_nat N)
    with (length (map dp_index (planned_run N M K file_type min_size_bytes w))).
  - rewrite length_map. apply all_files_length.
    eapply List.Forall_impl; [|apply plan_subdirs_counts; exact HM].
    cbn beta. intros dp (_ & Hb & _). lia.
  - rewrite planned_run_indices, py_range_length. lia.
Qed.

Lemma planned_files_Forall (Q : list byte -> Prop) root_dir dirs :
  List.Forall (fun p => Q (fp_data p)) (all_files dirs) ->
  List.Forall (fun f => Q (snd f)) (planned_files root_dir dirs).
Proof.
  unfold all_files, planned_files.
  induction dirs as [|dp dirs IH]; [constructor|].
  cbn [flat_map]. intros Hall. apply Forall_app in Hall as (Hdp & Hrest).
  apply Forall_app. split; [|now apply IH].
  clear IH Hrest. induction Hdp as [|p ps Hp _ IHp]; constructor; assumption.
Qed.

Lemma reduce_draw_fixed a r : reduce_draw a a r = a.
Proof.
  unfold reduce_draw. replace (a - a + 1) with 1 by lia. rewrite Z.mod_1_r. lia.
Qed.

(** C3: when [min_size_bytes] is not below [K * 1024], the run of the
    structured mode does not fail: it returns its statistics, having
    printed the warning if [min_size_bytes] is above [K * 1024].  It attempts
    the files of its plan, at least one for each of the [N] subdirectories,
    and each of them is generated with exactly [K * 1024] bytes; the files
    written are among these, all of them when no write fails, and the
    counters are those of the written files. *)
Theorem oversized_minimum_is_clamped (root_dir : string) (N M K : Z)
    (file_type : string) (min_size_bytes : Z) (w : World) :
  (forall p, mkdir_faults w p = None) ->
  1 <= M -> 0 <= K ->
  K * 1024 <= min_size_bytes ->
  exists stats w' new,
    create_structured_files root_dir N M K file_type min_size_bytes w =
    (inr stats, w') /\
    trace w' = trace w ++ new /\
    attempted_paths new =
      map fst (planned_files root_dir (planned_run N M K file_type min_size_bytes w)) /\
    (Z.to_nat N <= length (attempted_paths new))%nat /\
    Forall (fun f => size_of f = K * 1024)
           (planned_files root_dir (planned_run N M K file_type min_size_bytes w)) /\
    (forall f, In f (files_written new) ->
       In f (planned_files root_dir (planned_run N M K file_type min_size_bytes w))) /\
    ((forall k p, io_faults w k p = None) ->
     files_written new =
       planned_files root_dir (planned_run N M K file_type min_size_bytes w)) /\
    Forall (fun f => size_of f = K * 1024) (files_written new) /\
    stats !! "total_files" = Some (Z.of_nat (length (files_written new))) /\
    stats !! "total_size_bytes" =
      Some (Z.of_nat (length (files_written new)) * (K * 1024)) /\
    (K * 1024 < min_size_bytes ->
     In [Txt "Warning: Minimum size ("; Num min_size_bytes;
         Txt "B) is larger than maximum ("; Num (K * 1024);
         Txt "B). Setting minimum to maximum."] (printed new)).
Proof.
  intros Hdirs HM HK Hmin.
  destruct (planned_run_attempts root_dir N M K file_type min_size_bytes w
              Hdirs HM HK ltac:(lia))
    as (w' & new & Hrun & Htrace & Hnew & Hatt & Hfiles & Hincl & Hcalm & Hoks).
  set (dirs := planned_run N M K file_type min_size_bytes w) in *.
  assert (Hplanned : Forall (fun f => size_of f = K * 1024) (planned_files root_dir dirs)).
  { apply (planned_files_Forall (fun data => Z.of_nat (length data) = K * 1024)).
    apply plan_subdirs_files. intros d o j. unfold plan_file. cbn [fp_data].
    rewrite drawn_data_length. unfold drawn_int.
    rewrite Z.min_r by lia. rewrite reduce_draw_fixed. lia. }
  assert (Hwritten : Forall (fun f => size_of f = K * 1024) (files_written new)).
  { apply List.Forall_forall. intros f Hf.
    rewrite List.Forall_forall in Hplanned. apply Hplanned, Hincl, Hf. }
  eexists _, w', new. split; [exact Hrun|]. split; [exact Htrace|].
  split; [exact Hatt|]. split.
  { rewrite Hatt, length_map, planned_files_length. now apply planned_run_nonempty. }
  split; [exact Hplanned|]. split; [exact Hincl|]. split; [exact Hcalm|].
  split; [exact Hwritten|]. split; [|split].
  - rewrite Hfiles, written_files_length. unfold tally. now rewrite Z.add_0_l.
  - rewrite <- (total_bytes_fixed _ _ Hwritten), Hfiles, written_files_bytes.
    unfold tally. now rewrite Z.add_0_l.
  - intros Hover. rewrite Hnew, printed_app. apply in_or_app. left.
    unfold structured_prelude. rewrite Z.gtb_ltb.
    destruct (Z.ltb_spec (K * 1024) min_size_bytes); [|lia].
    cbn. now right; left.
Qed.

Lemma oversized_minimum_is_clamped_witness :
  exists stats w' new,
    create_structured_files "out" 2 3 1 "mix" 5000 rough_world = (inr stats, w') /\
    trace w' = trace rough_world ++ new /\
    attempted_paths new =
      map fst (planned_files "out" (planned_run 2 3 1 "mix" 5000 rough_world)) /\
    (Z.to_nat 2 <= length (attempted_paths new))%nat /\
    Forall (fun f => size_of f = 1 * 1024)
           (planned_files "out" (planned_run 2 3 1 "mix" 5000 rough_world)) /\
    (forall f, In f (files_written new) ->
       In f (planned_files "out" (planned_run 2 3 1 "mix" 5000 rough_world))) /\
    ((forall k p, io_faults rough_world k p = None) ->
     files_written new =
       planned_files "out" (planned_run 2 3 1 "mix" 5000 rough_world)) /\
    Forall (fun f => size_of f = 1 * 1024) (files_written new) /\
    stats !! "total_files" = Some (Z.of_nat (length (files_written new))) /\
    stats !! "total_size_bytes" =
      Some (Z.of_nat (length (files_written new)) * (1 * 1024)) /\
    (1 * 1024 < 5000 ->
     In [Txt "Warning: Minimum size ("; Num 5000;
         Txt "B) is larger than maximum ("; Num (1 * 1024);
         Txt "B). Setting minimum to maximum."] (printed new)).
Proof.
  apply (oversized_minimum_is_clamped "out" 2 3 1 "mix" 5000 rough_world);
    [intros p; reflexivity | lia | lia | lia].
Defined.

(** C4: a file the surroundings refuse to open or write raises an IOError
    that the step of either mode catches: the step returns normally, the
    counters are the ones it was given, and the console gets a line with the
    name of the file and the cause.  The run goes on with the next file: the
    flat mode attempts all [num_files] files; the structured mode attempts
    exactly the files, in the same order, that the same run writes when no
    write fails, and makes the same directories, so that no failure cuts a
    loop short.  Both return their statistics, in which only the written
    files are counted, every file written is one the run without failures
    writes, with the same data, and every failure in the trace is followed
    by its report. *)
Theorem write_failures_are_skipped :
  (forall root_dir file_size_bytes i tf ts w cause,
     0 <= file_size_bytes ->
     io_faults w (opened w)
       (os_path_join root_dir ("fixed_file_" +:+ fmt_03d i +:+ ".bin")) = Some cause ->
     exists w',
       simple_file_step root_dir file_size_bytes i (simple_stats tf ts) w =
       (inr (simple_stats tf ts), w') /\
       trace w' = trace w ++
         [WriteFailed (os_path_join root_dir ("fixed_file_" +:+ fmt_03d i +:+ ".bin")) cause;
          Stdout [Txt "  Error writing file ";
                  Txt ("fixed_file_" +:+ fmt_03d i +:+ ".bin"); Txt ": "; Txt cause]]) /\
  (forall root_dir num_files size_kb w,
     0 <= size_kb -> mkdir_faults w root_dir = None ->
     exists stats w' new,
       create_files_simple root_dir num_files size_kb w = (inr stats, w') /\
       trace w' = trace w ++ new /\
       failures_reported new /\
       (length (files_written new) + length (write_failures new))%nat =
         Z.to_nat num_files /\
       stats = simple_stats (Z.of_nat (length (files_written new)))
                            (total_bytes (files_written new))) /\
  (forall subdir file_type lo hi j tf bf xf ts bs xs w cause,
     0 <= lo -> lo <= hi ->
     (forall p, io_faults w (opened w) p = Some cause) ->
     exists name w',
       structured_file_step subdir file_type lo hi j
         (structured_stats tf bf xf ts bs xs) w =
       (inr (structured_stats tf bf xf ts bs xs), w') /\
       (name = "file_" +:+ fmt_03d j +:+ ".bin" \/
        name = "file_" +:+ fmt_03d j +:+ ".txt") /\
       trace w' = trace w ++
         [WriteFailed (os_path_join subdir name) cause;
          Stdout [Txt "    Error writing file "; Txt name; Txt ": "; Txt cause]]) /\
  (forall root_dir N M K file_type min_size_bytes w,
     (forall p, mkdir_faults w p = None) ->
     1 <= M -> 0 <= K -> 0 <= min_size_bytes ->
     exists stats w' new stats0 w0 new0 bf xf bs xs,
       create_structured_files root_dir N M K file_type min_size_bytes w =
       (inr stats, w') /\
       trace w' = trace w ++ new /\
       create_structured_files root_dir N M K file_type min_size_bytes
         (without_write_faults w) = (inr stats0, w0) /\
       trace w0 = trace w ++ new0 /\
       write_failures new0 = [] /\
       attempted_paths new = map fst (files_written new0) /\
       (forall f, In f (files_written new) -> In f (files_written new0)) /\
       dirs_made new = root_dir :: map (subdir_path root_dir) (py_range 1 (N + 1)) /\
       dirs_made new0 = dirs_made new /\
       failures_reported new /\
       stats = structured_stats (Z.of_nat (length (files_written new))) bf xf
                                (total_bytes (files_written new)) bs xs /\
       bf + xf = Z.of_nat (length (files_written new)) /\
       bs + xs = total_bytes (files_written new)).
Proof.
  split; [|split; [|split]].
  - intros root_dir file_size_bytes i tf ts w cause Hsize Hfault.
    destruct (simple_file_step_run root_dir file_size_bytes i tf ts w Hsize)
      as (o & w' & Hstep & (_ & Htrace & _) & (Hname & Hpath & _) & Hanswer).
    rewrite Hpath, Hname, Hfault in Hanswer.
    destruct o as [name path b data|name path cause']; [discriminate|].
    injection Hanswer as <-. cbn [outcome_name outcome_path] in *. subst name path.
    exists w'. split; [|exact Htrace].
    rewrite Hstep. cbn [n_written bytes_written fold_right]. now rewrite !Z.add_0_r.
  - intros root_dir num_files size_kb w Hsize Hdir.
    destruct (create_files_simple_run root_dir num_files size_kb w Hsize Hdir)
      as (outs & w' & Hrun & (_ & Htrace & _) & Hoks).
    eexists _, w', _. split; [exact Hrun|]. split; [exact Htrace|].
    split; [|split].
    + apply failures_reported_app.
      * apply failures_reported_quiet. repeat constructor; discriminate.
      * exact (failures_reported_simple _ _ _ _ _ Hoks).
    + rewrite files_written_app, write_failures_app. cbn [files_written write_failures flat_map app].
      fold (files_written (flat_map simple_events outs)).
      fold (write_failures (flat_map simple_events outs)).
      rewrite (attempts_split _ simple_events_written simple_events_failed).
      rewrite <- (Forall2_length _ _ _ Hoks), py_range_length. f_equal. lia.
    + rewrite files_written_app. cbn [files_written flat_map app].
      fold (files_written (flat_map simple_events outs)).
      rewrite (files_written_outcomes _ simple_events_written simple_events_failed).
      now rewrite written_files_length, written_files_bytes.
  - intros subdir file_type lo hi j tf bf xf ts bs xs w cause Hlo Hhi Hfault.
    destruct (structured_file_step_run subdir file_type lo hi j tf bf xf ts bs xs w Hlo Hhi)
      as (o & w' & Hstep & (_ & Htrace & _) & (Hpath & Hok) & _ & Hanswer).
    rewrite Hfault in Hanswer.
    destruct o as [name path b data|name path cause']; [discriminate|].
    injection Hanswer as <-. cbn [outcome_name outcome_path] in *. subst path.
    exists name, w'. split; [|split; [exact (proj1 Hok)|exact Htrace]].
    rewrite Hstep. unfold tally. cbn [n_written bytes_written fold_right].
    now rewrite !Z.add_0_r.
  - intros root_dir N M K file_type min_size_bytes w Hdirs HM HK Hmin.
    destruct (planned_run_attempts root_dir N M K file_type min_size_bytes w
                Hdirs HM HK Hmin)
      as (w' & new & Hrun & Htrace & Hnew & Hatt & Hfiles & Hincl & _ & Hoks).
    destruct (planned_run_attempts root_dir N M K file_type min_size_bytes
                (without_write_faults w) Hdirs HM HK Hmin)
      as (w0 & new0 & Hrun0 & Htrace0 & Hnew0 & Hatt0 & _ & _ & Hcalm0 & Hoks0).
    specialize (Hcalm0 (fun _ _ => eq_refl)).
    rewrite planned_run_without_faults in Hatt0, Hcalm0.
    assert (Hdirs_made : forall faults groups,
              Forall2 (subdir_ok root_dir file_type M
                         (Z.min min_size_bytes (K * 1024)) (K * 1024) faults)
                      (py_range 1 (N + 1)) groups ->
              dirs_made (structured_prelude root_dir min_size_bytes (K * 1024)
                         ++ flat_map (subdir_events root_dir) groups) =
              root_dir :: map (subdir_path root_dir) (py_range 1 (N + 1))).
    { intros faults groups H.
      rewrite dirs_made_app, dirs_made_prelude, dirs_made_structured.
      now rewrite (subdir_dirs _ _ _ _ _ _ _ _ H). }
    eexists _, w', new, _, w0, new0, _, _, _, _.
    split; [exact Hrun|]. split; [exact Htrace|].
    split; [exact Hrun0|]. split; [exact Htrace0|].
    split; [|split; [|split; [|split; [|split; [|split; [|split; [|split]]]]]]].
    + pose proof (attempts_count new0) as Hcount.
      rewrite Hatt0, Hcalm0, length_map in Hcount.
      destruct (write_failures new0); [reflexivity|cbn in Hcount; lia].
    + now rewrite Hatt, Hcalm0.
    + intros f Hf. rewrite Hcalm0. now apply Hincl.
    + rewrite Hnew. now apply (Hdirs_made (io_faults w)).
    + rewrite Hnew, Hnew0.
      rewrite (Hdirs_made _ _ Hoks), (Hdirs_made _ _ Hoks0). reflexivity.
    + rewrite Hnew. apply failures_reported_app.
      * apply failures_reported_quiet. unfold structured_prelude.
        destruct (min_size_bytes >? K * 1024); repeat constructor; discriminate.
      * exact (failures_reported_structured _ _ _ _ _ _ _ _ Hoks).
    + rewrite Hfiles, written_files_length, written_files_bytes.
      unfold tally. rewrite !Z.add_0_l. reflexivity.
    + rewrite Hfiles, written_files_length.
      symmetry. apply n_written_split.
    + rewrite Hfiles, written_files_bytes.
      symmetry. apply bytes_written_split.
Qed.

Lemma write_failures_are_skipped_witness :
  (exists w',
     simple_file_step "out" 2048 2 (simple_stats 1 2048) failing_world =
     (inr (simple_stats 1 2048), w') /\
     trace w' = trace failing_world ++
       [WriteFailed (os_path_join "out" ("fixed_file_" +:+ fmt_03d 2 +:+ ".bin"))
                    "Permission denied";
        Stdout [Txt "  Error writing file ";
                Txt ("fixed_file_" +:+ fmt_03d 2 +:+ ".bin"); Txt ": ";
                Txt "Permission denied"]]) /\
  (exists stats w' new,
     create_files_simple "out" 4 1 rough_world = (inr stats, w') /\
     trace w' = trace rough_world ++ new /\
     failures_reported new /\
     (length (files_written new) + length (write_failures new))%nat = Z.to_nat 4 /\
     stats = simple_stats (Z.of_nat (length (files_written new)))
                          (total_bytes (files_written new))) /\
  (exists name w',
     structured_file_step "out/subdir_001" "mix" 100 1024 1
       (structured_stats 3 2 1 700 400 300) failing_world =
     (inr (structured_stats 3 2 1 700 400 300), w') /\
     (name = "file_" +:+ fmt_03d 1 +:+ ".bin" \/
      name = "file_" +:+ fmt_03d 1 +:+ ".txt") /\
     trace w' = trace failing_world ++
       [WriteFailed (os_path_join "out/subdir_001" name) "Permission denied";
        Stdout [Txt "    Error writing file "; Txt name; Txt ": ";
                Txt "Permission denied"]]) /\
  (exists stats w' new stats0 w0 new0 bf xf bs xs,
     create_structured_files "out" 2 3 1 "mix" 100 rough_world = (inr stats, w') /\
     trace w' = trace rough_world ++ new /\
     create_structured_files "out" 2 3 1 "mix" 100
       (without_write_faults rough_world) = (inr stats0, w0) /\
     trace w0 = trace rough_world ++ new0 /\
     write_failures new0 = [] /\
     attempted_paths new = map fst (files_written new0) /\
     (forall f, In f (files_written new) -> In f (files_written new0)) /\
     dirs_made new = "out" :: map (subdir_path "out") (py_range 1 (2 + 1)) /\
     dirs_made new0 = dirs_made new /\
     failures_reported new /\
     stats = structured_stats (Z.of_nat (length (files_written new))) bf xf
                              (total_bytes (files_written new)) bs xs /\
     bf + xf = Z.of_nat (length (files_written new)) /\
     bs + xs = total_bytes (files_written new)).
Proof.
  destruct write_failures_are_skipped as (Hfile & Hflat & Hsfile & Hrun).
  split; [|split; [|split]].
  - apply (Hfile "out" 2048 2 1 2048 failing_world "Permission denied");
      [lia | reflexivity].
  - apply (Hflat "out" 4 1 rough_world); [lia | reflexivity].
  - apply (Hsfile "out/subdir_001" "mix" 100 1024 1 3 2 1 700 400 300
                  failing_world "Permission denied");
      [lia | lia | intros p; reflexivity].
  - apply (Hrun "out" 2 3 1 "mix" 100 rough_world);
      [intros p; reflexivity | lia | lia | lia].
Defined.

Lemma within_lower a a' b l : (a' <= a)%nat -> within a b l -> within a' b l.
Proof.
  intros Ha (Hab & Hn & Hf). split; [lia|]. split; [exact Hn|].
  eapply List.Forall_impl; [|exact Hf]. cbn beta. intros x Hx. lia.
Qed.

Lemma plan_files_first_draws entropy file_type lo hi indices :
  forall d o,
    within d (d + files_draws file_type
                    (plan_files entropy file_type lo hi d o indices))
           (map fp_draw (plan_files entropy file_type lo hi d o indices)).
Proof.
  induction indices as [|j indices IH]; intros d o.
  - cbn. split; [lia|]. split; constructor.
  - cbn [plan_files map files_draws fold_right].
    set (p := plan_file entropy file_type lo hi d o j).
    fold (files_draws file_type
            (plan_files entropy file_type lo hi (d + file_draws file_type p) (S o) indices)).
    apply (within_app d (d + file_draws file_type p) _ [fp_draw p]).
    + unfold file_draws. cbn [p plan_file fp_draw]. split; [lia|].
      split; [repeat constructor; intros []|repeat constructor; lia].
    + rewrite Nat.add_assoc. apply IH.
Qed.

Lemma plan_subdirs_first_draws entropy file_type M lo hi indices :
  forall d o, exists d',
    within d d' (map fp_draw
                   (all_files (plan_subdirs entropy file_type M lo hi d o indices))).
Proof.
  induction indices as [|i indices IH]; intros d o.
  - exists d. cbn. split; [lia|]. split; constructor.
  - cbn [plan_subdirs]. unfold all_files. cbn [flat_map dp_files].
    set (files := plan_files entropy file_type lo hi (S d) o
                    (py_range 1 (drawn_int entropy 1 M d + 1))).
    destruct (IH (S d + files_draws file_type files)%nat (o + length files)%nat)
      as (d' & Hrest).
    exists d'. rewrite map_app. apply (within_lower (S d)); [lia|].
    eapply within_app; [apply plan_files_first_draws|exact Hrest].
Qed.

Lemma planned_run_draws N M K file_type min_size_bytes w :
  List.NoDup (draws_read file_type (planned_run N M K file_type min_size_bytes w)) /\
  List.Forall (fun d => (drawn w <= d)%nat)
              (draws_read file_type (planned_run N M K file_type min_size_bytes w)).
Proof.
  destruct (plan_subdirs_within (entropy w) file_type M
              (Z.min min_size_bytes (K * 1024)) (K * 1024) (py_range 1 (N + 1))
              (drawn w) (opened w)) as (d' & _ & Hn & Hf).
  split; [exact Hn|].
  eapply List.Forall_impl; [|exact Hf]. cbn beta. intros x Hx. lia.
Qed.

(** C8: a run of the structured mode with positive [N], [M], [K] makes the
    root directory and then exactly [N] subdirectories, pairwise different,
    the [i]-th being [subdir_] followed by [i] in decimal, zero-padded to
    three digits.  What it attempts is its plan: in the [i]-th subdirectory
    the files [1..n], [n] being [random.randint(1, M)] of one draw, that is
    1 plus the remainder of the draw modulo [M]; the size of each file is
    [random.randint] of one draw over the sizes from [min_size_bytes]
    (clamped to the maximum) to [K * 1024], that is the lower bound plus
    the remainder of the draw modulo the number of sizes, and the data has
    this size.  The draws that decide counts, types and sizes are pairwise
    different draws of this run.  [random.randint] is uniform in that, as
    the raw draw runs through as many consecutive values as the range has
    members, every member results exactly once.  With the policy 'bin' no
    text file is counted. *)
Theorem structured_layout (root_dir : string) (N M K : Z) (file_type : string)
    (min_size_bytes : Z) (w : World) :
  0 < N -> 0 < M -> 0 < K -> 0 <= min_size_bytes ->
  (forall p, mkdir_faults w p = None) ->
  (exists stats w' new,
     create_structured_files root_dir N M K file_type min_size_bytes w =
     (inr stats, w') /\
     trace w' = trace w ++ new /\
     dirs_made new = root_dir :: map (subdir_path root_dir) (py_range 1 (N + 1)) /\
     length (py_range 1 (N + 1)) = Z.to_nat N /\
     List.NoDup (map (subdir_path root_dir) (py_range 1 (N + 1))) /\
     new = structured_prelude root_dir min_size_bytes (K * 1024)
           ++ flat_map (subdir_events root_dir)
                (map (dir_outcomes root_dir (io_faults w))
                     (planned_run N M K file_type min_size_bytes w)) /\
     attempted_paths new =
       map fst (planned_files root_dir (planned_run N M K file_type min_size_bytes w)) /\
     map dp_index (planned_run N M K file_type min_size_bytes w) = py_range 1 (N + 1) /\
     Forall (fun dp =>
               Z.of_nat (length (dp_files dp)) =
                 1 + Z.of_nat (entropy w (dp_draw dp)) mod M /\
               1 <= Z.of_nat (length (dp_files dp)) <= M /\
               map fp_index (dp_files dp) =
                 py_range 1 (Z.of_nat (length (dp_files dp)) + 1))
            (planned_run N M K file_type min_size_bytes w) /\
     Forall (fun p =>
               fp_size p =
                 Z.min min_size_bytes (K * 1024) +
                 Z.of_nat (entropy w (size_draw file_type p))
                   mod (K * 1024 - Z.min min_size_bytes (K * 1024) + 1) /\
               Z.min min_size_bytes (K * 1024) <= fp_size p <= K * 1024 /\
               Z.of_nat (length (fp_data p)) = fp_size p)
            (all_files (planned_run N M K file_type min_size_bytes w)) /\
     List.NoDup (draws_read file_type (planned_run N M K file_type min_size_bytes w)) /\
     Forall (fun d => (drawn w <= d)%nat)
            (draws_read file_type (planned_run N M K file_type min_size_bytes w)) /\
     Forall (fun f => Z.min min_size_bytes (K * 1024) <= size_of f <= K * 1024)
            (files_written new) /\
     (file_type = "bin" ->
      stats !! "text_files" = Some 0 /\
      stats !! "binary_files" = stats !! "total_files")) /\
  ((forall i, subdir_path root_dir i = os_path_join root_dir ("subdir_" +:+ fmt_03d i)) /\
   (forall i, 0 <= i < 1000 -> String.length (fmt_03d i) = 3%nat) /\
   fmt_03d 1 = "001") /\
  (forall a b k,
     a <= b ->
     Permutation (map (reduce_draw a b) (seq k (Z.to_nat (b - a + 1))))
                 (py_range a (b + 1))).
Proof.
  intros HN HM HK Hmin Hdirs. split; [|split].
  - destruct (planned_run_attempts root_dir N M K file_type min_size_bytes w
                Hdirs ltac:(lia) ltac:(lia) Hmin)
      as (w' & new & Hrun & Htrace & Hnew & Hatt & Hfiles & _ & _ & Hoks).
    destruct (planned_run_draws N M K file_type min_size_bytes w) as (Hnd & Hfresh).
    eexists _, w', new.
    split; [exact Hrun|]. split; [exact Htrace|].
    split; [|split; [|split; [|split; [|split; [|split; [|split; [|split;
      [|split; [|split; [|split]]]]]]]]]].
    + rewrite Hnew, dirs_made_app, dirs_made_prelude, dirs_made_structured.
      now rewrite (subdir_dirs _ _ _ _ _ _ _ _ Hoks).
    + rewrite py_range_length. f_equal. lia.
    + apply subdir_paths_NoDup.
    + exact Hnew.
    + exact Hatt.
    + apply planned_run_indices.
    + apply plan_subdirs_counts. lia.
    + apply plan_subdirs_files. intros d o j.
      unfold plan_file, size_draw. cbn [fp_size fp_data fp_draw].
      pose proof (reduce_draw_bounds (Z.min min_size_bytes (K * 1024)) (K * 1024)
                    (entropy w (d + type_draws file_type)) ltac:(lia)) as Hb.
      rewrite drawn_data_length. unfold drawn_int in *.
      split; [reflexivity|]. split; [exact Hb|lia].
    + exact Hnd.
    + exact Hfresh.
    + rewrite Hfiles. exact (structured_sizes _ _ _ _ _ _ _ _ Hoks).
    + intros ->. destruct (binary_only_outcomes _ _ _ _ _ _ _ Hoks) as (Hn & _).
      pose proof (n_written_split
                    (all_outcomes (map (dir_outcomes root_dir (io_faults w))
                       (planned_run N M K "bin" min_size_bytes w)))) as Hsplit.
      unfold tally. rewrite Hn in *. rewrite Hsplit, Z.add_0_r.
      split; reflexivity.
  - split; [reflexivity|]. split; [exact fmt_03d_width|reflexivity].
  - intros a b k Hab. now apply reduce_draw_uniform.
Qed.

Lemma structured_layout_witness :
  exists stats w' new,
    create_structured_files "out" 3 4 1 "bin" 100 calm_world = (inr stats, w') /\
    trace w' = trace calm_world ++ new /\
    dirs_made new = "out" :: map (subdir_path "out") (py_range 1 (3 + 1)) /\
    length (py_range 1 (3 + 1)) = Z.to_nat 3 /\
    List.NoDup (map (subdir_path "out") (py_range 1 (3 + 1))) /\
    new = structured_prelude "out" 100 (1 * 1024)
          ++ flat_map (subdir_events "out")
               (map (dir_outcomes "out" (io_faults calm_world))
                    (planned_run 3 4 1 "bin" 100 calm_world)) /\
    attempted_paths new =
      map fst (planned_files "out" (planned_run 3 4 1 "bin" 100 calm_world)) /\
    map dp_index (planned_run 3 4 1 "bin" 100 calm_world) = py_range 1 (3 + 1) /\
    Forall (fun dp =>
              Z.of_nat (length (dp_files dp)) =
                1 + Z.of_nat (entropy calm_world (dp_draw dp)) mod 4 /\
              1 <= Z.of_nat (length (dp_files dp)) <= 4 /\
              map fp_index (dp_files dp) =
                py_range 1 (Z.of_nat (length (dp_files dp)) + 1))
           (planned_run 3 4 1 "bin" 100 calm_world) /\
    Forall (fun p =>
              fp_size p =
                Z.min 100 (1 * 1024) +
                Z.of_nat (entropy calm_world (size_draw "bin" p))
                  mod (1 * 1024 - Z.min 100 (1 * 1024) + 1) /\
              Z.min 100 (1 * 1024) <= fp_size p <= 1 * 1024 /\
              Z.of_nat (length (fp_data p)) = fp_size p)
           (all_files (planned_run 3 4 1 "bin" 100 calm_world)) /\
    List.NoDup (draws_read "bin" (planned_run 3 4 1 "bin" 100 calm_world)) /\
    Forall (fun d => (drawn calm_world <= d)%nat)
           (draws_read "bin" (planned_run 3 4 1 "bin" 100 calm_world)) /\
    Forall (fun f => Z.min 100 (1 * 1024) <= size_of f <= 1 * 1024)
           (files_written new) /\
    ("bin" = "bin" ->
     stats !! "text_files" = Some 0 /\
     stats !! "binary_files" = stats !! "total_files").
Proof.
  apply (structured_layout "out" 3 4 1 "bin" 100 calm_world);
    [lia | lia | lia | lia | intros p; reflexivity].
Defined.

Lemma drawn_type_other entropy file_type d :
  file_type <> "bin" -> file_type <> "txt" ->
  drawn_type entropy file_type d = Nat.even (entropy d).
Proof.
  intros Hbin Htxt. unfold drawn_type.
  destruct (String.eqb_spec file_type "bin"); [contradiction|].
  destruct (String.eqb_spec file_type "txt"); [contradiction|]. reflexivity.
Qed.

Lemma planned_run_first_draws N M K file_type min_size_bytes w :
  List.NoDup (map fp_draw (all_files (planned_run N M K file_type min_size_bytes w))) /\
  List.Forall (fun d => (drawn w <= d)%nat)
              (map fp_draw (all_files (planned_run N M K file_type min_size_bytes w))).
Proof.
  destruct (plan_subdirs_first_draws (entropy w) file_type M
              (Z.min min_size_bytes (K * 1024)) (K * 1024) (py_range 1 (N + 1))
              (drawn w) (opened w)) as (d' & _ & Hn & Hf).
  split; [exact Hn|].
  eapply List.Forall_impl; [|exact Hf]. cbn beta. intros x Hx. lia.
Qed.

(** C10: a [file_type] other than 'bin' and 'txt', whatever it is, is not
    rejected: the run is the run of the 'mix' policy in every world, and
    [random.choice([True, False])] decides the type of a file by one fresh
    draw, binary when the draw is even and text when it is odd.  In a run
    within the contract this holds of every file of the plan, which is what
    the run attempts: each file has a draw of its own, pairwise different
    and of this run, its type is the parity of that draw, its name carries
    the extension of its type, and the counters returned are those of the
    files written, by their types. *)
Theorem unknown_file_type_is_mixed (file_type : string) :
  file_type <> "bin" -> file_type <> "txt" ->
  (forall root_dir N M K min_size_bytes w,
     create_structured_files root_dir N M K file_type min_size_bytes w =
     create_structured_files root_dir N M K "mix" min_size_bytes w) /\
  (forall w,
     choose_is_binary file_type w =
     (inr (Nat.even (entropy w (drawn w))), advance 1 w)) /\
  (forall root_dir N M K min_size_bytes w,
     (forall p, mkdir_faults w p = None) ->
     1 <= M -> 0 <= K -> 0 <= min_size_bytes ->
     exists w' new,
       create_structured_files root_dir N M K file_type min_size_bytes w =
       (inr (tally 0 0 0 0 0 0
               (all_outcomes
                  (map (dir_outcomes root_dir (io_faults w))
                       (planned_run N M K file_type min_size_bytes w)))), w') /\
       trace w' = trace w ++ new /\
       new = structured_prelude root_dir min_size_bytes (K * 1024)
             ++ flat_map (subdir_events root_dir)
                  (map (dir_outcomes root_dir (io_faults w))
                       (planned_run N M K file_type min_size_bytes w)) /\
       attempted_paths new =
         map fst (planned_files root_dir
                    (planned_run N M K file_type min_size_bytes w)) /\
       (Z.to_nat N <= length (attempted_paths new))%nat /\
       Forall (fun p => fp_binary p = Nat.even (entropy w (fp_draw p)))
              (all_files (planned_run N M K file_type min_size_bytes w)) /\
       List.NoDup (map fp_draw
                     (all_files (planned_run N M K file_type min_size_bytes w))) /\
       Forall (fun d => (drawn w <= d)%nat)
              (map fp_draw
                 (all_files (planned_run N M K file_type min_size_bytes w))) /\
       (forall f, In f (files_written new) ->
          In f (planned_files root_dir
                  (planned_run N M K file_type min_size_bytes w)))).
Proof.
  intros Hbin Htxt. split; [|split].
  - intros root_dir N M K min_size_bytes w.
    unfold create_structured_files, subdir_step, structured_file_step.
    rewrite (choose_is_binary_other file_type Hbin Htxt).
    rewrite (choose_is_binary_other "mix") by discriminate. reflexivity.
  - intros w. rewrite (choose_is_binary_other file_type Hbin Htxt).
    rewrite random_choice_run. cbn [length]. now rewrite choice_of_two.
  - intros root_dir N M K min_size_bytes w Hdirs HM HK Hmin.
    destruct (planned_run_attempts root_dir N M K file_type min_size_bytes w
                Hdirs HM HK Hmin)
      as (w' & new & Hrun & Htrace & Hnew & Hatt & _ & Hincl & _ & _).
    destruct (planned_run_first_draws N M K file_type min_size_bytes w)
      as (Hnd & Hfresh).
    exists w', new. split; [exact Hrun|]. split; [exact Htrace|].
    split; [exact Hnew|]. split; [exact Hatt|]. split.
    { rewrite Hatt, length_map, planned_files_length. now apply planned_run_nonempty. }
    split; [|split; [exact Hnd|split; [exact Hfresh|exact Hincl]]].
    apply plan_subdirs_files. intros d o j. unfold plan_file.
    cbn [fp_binary fp_draw]. now apply drawn_type_other.
Qed.

Lemma unknown_file_type_is_mixed_witness :
  (forall root_dir N M K min_size_bytes w,
     create_structured_files root_dir N M K "binary" min_size_bytes w =
     create_structured_files root_dir N M K "mix" min_size_bytes w) /\
  (forall w,
     choose_is_binary "binary" w =
     (inr (Nat.even (entropy w (drawn w))), advance 1 w)) /\
  (exists w' new,
     create_structured_files "out" 2 3 1 "binary" 100 rough_world =
     (inr (tally 0 0 0 0 0 0
             (all_outcomes
                (map (dir_outcomes "out" (io_faults rough_world))
                     (planned_run 2 3 1 "binary" 100 rough_world)))), w') /\
     trace w' = trace rough_world ++ new /\
     new = structured_prelude "out" 100 (1 * 1024)
           ++ flat_map (subdir_events "out")
                (map (dir_outcomes "out" (io_faults rough_world))
                     (planned_run 2 3 1 "binary" 100 rough_world)) /\
     attempted_paths new =
       map fst (planned_files "out" (planned_run 2 3 1 "binary" 100 rough_world)) /\
     (Z.to_nat 2 <= length (attempted_paths new))%nat /\
     Forall (fun p => fp_binary p = Nat.even (entropy rough_world (fp_draw p)))
            (all_files (planned_run 2 3 1 "binary" 100 rough_world)) /\
     List.NoDup (map fp_draw
                   (all_files (planned_run 2 3 1 "binary" 100 rough_world))) /\
     Forall (fun d => (drawn rough_world <= d)%nat)
            (map fp_draw (all_files (planned_run 2 3 1 "binary" 100 rough_world))) /\
     (forall f, In f (files_written new) ->
        In f (planned_files "out" (planned_run 2 3 1 "binary" 100 rough_world)))).
Proof.
  destruct (unknown_file_type_is_mixed "binary") as (Hrun & Hchoice & Hfiles);
    [discriminate | discriminate |].
  split; [exact Hrun|]. split; [exact Hchoice|].
  apply (Hfiles "out" 2 3 1 100 rough_world);
    [intros p; reflexivity | lia | lia | lia].
Defined.
